(** * Invoice field extraction (pdf_processor.py): model and properties

    A shallow embedding of [src/pdf_processor.py]: the pattern table, the
    regular-expression search it relies on, the three extractors of
    [PatternExtractor], and the assembler [InvoiceFieldExtractor]; then
    of what is built on it: [process_invoices_in_directory], the class
    [InvoiceTools] of [src/tools/box_tools_invoices.py] and the endpoints
    of [src/invoice_api.py].

    Conventions of the model.
    - A Python [float] is an IEEE 754 binary64 number: [spec_float] with
      precision 53 and maximal exponent 1024, and the operations of
      [SpecFloat] (round to nearest, ties to even).
    - A Python [str] is a [string] whose characters are the code points
      0..255 (Latin-1).  On that range the case mapping, the white space
      class and the decimal digit class of Python are the ones written out
      in [PyStr].
    - A call that may raise returns an [outcome]; code that logs threads
      the list of log records.
    - PyPDF2, the file system and the directory listing are the
      environment: a section of [InvoiceFieldExtractor] takes them as
      variables.
    - A value held in a dictionary of results is a [pyval]; a dictionary
      is a [gmap] from its keys.

    The file has three parts: the model, taken from the source function
    by function; the vocabulary in which the properties are stated; the
    lemmas and the properties. *)

From Stdlib Require Import ZArith NArith QArith Qabs String Ascii List Bool Lia.
From Stdlib Require Import Floats.SpecFloat.
From stdpp Require Import gmap strings.

Open Scope string_scope.
Open Scope list_scope.

(* ===================================================================== *)
(** ** Binary64 arithmetic *)
(* ===================================================================== *)

Module Float64.

Definition prec : Z := 53.
Definition emax : Z := 1024.

Definition float := spec_float.

Definition add : float -> float -> float := SFadd prec emax.
Definition sub : float -> float -> float := SFsub prec emax.
Definition mul : float -> float -> float := SFmul prec emax.
Definition div : float -> float -> float := SFdiv prec emax.
Definition ltb : float -> float -> bool := SFltb.
Definition leb : float -> float -> bool := SFleb.

Definition zero : float := S754_zero false.

(** [float(n)] for a non-negative Python [int]. *)
Definition of_N (n : N) : float :=
  binary_normalize prec emax (Z.of_N n) 0 false.

Definition of_nat (n : nat) : float := of_N (N.of_nat n).

Fixpoint pow10 (k : nat) : positive :=
  match k with
  | O => 1
  | S k' => 10 * pow10 k'
  end.

(** The binary64 number nearest to [n / 10^scale]: the value of a decimal
    literal with digits [n] and [scale] digits after the point. *)
Definition of_decimal (n : N) (scale : nat) : float :=
  match n with
  | N0 => zero
  | Npos p =>
      SFdiv prec emax (S754_finite false p 0)
                      (S754_finite false (pow10 scale) 0)
  end.

(** The literals of the source. *)
Definition f1_0 : float := of_decimal 10 1.
Definition f0_1 : float := of_decimal 1 1.
Definition f0_7 : float := of_decimal 7 1.
Definition f0_8 : float := of_decimal 8 1.
Definition f0_9 : float := of_decimal 9 1.

(** [sum(xs)]: the sum from the left, starting from 0. *)
Definition sum (xs : list float) : float := fold_left add xs zero.

(** [sum(xs)] from CPython 3.12 on: Neumaier's compensated sum, [c]
    collecting the rounding errors of the running sum [f]. *)
Definition compensate (fc : float * float) (x : float) : float * float :=
  let '(f, c) := fc in
  let t := add f x in
  if leb (SFabs x) (SFabs f)
  then (t, add c (add (sub f t) x))
  else (t, add c (add (sub x t) f)).

Definition sum_compensated (xs : list float) : float :=
  match xs with
  | [] => zero
  | x :: rest =>
      let '(f, c) := fold_left compensate rest (add zero x, zero) in
      match c with
      | S754_finite _ _ _ => add f c
      | _ => f
      end
  end.

(** The exact rational value of a finite float. *)
Definition to_Q (x : float) : Q :=
  match x with
  | S754_finite s m e =>
      let v := match e with
               | Z0 => inject_Z (Zpos m)
               | Zpos p => inject_Z (Zpos m * 2 ^ Zpos p)
               | Zneg p => Qmake (Zpos m) (2 ^ p)
               end in
      if s then Qopp v else v
  | _ => 0%Q
  end.

End Float64.

(* ===================================================================== *)
(** ** Python strings over the code points 0..255 *)
(* ===================================================================== *)

Module PyStr.

Definition code (c : ascii) : N := N_of_ascii c.

Definition between (lo hi : N) (c : ascii) : bool :=
  (lo <=? code c)%N && (code c <=? hi)%N.

(** [str.isspace] on one character: TAB..CR, FS..US, SPACE, NEL, NBSP. *)
Definition is_space (c : ascii) : bool :=
  between 9 13 c || between 28 31 c || (code c =? 32)%N
  || (code c =? 133)%N || (code c =? 160)%N.

(** Unicode decimal digits (category Nd) below 256: the ASCII digits. *)
Definition is_decimal (c : ascii) : bool := between 48 57 c.

(** Simple case mappings below 256: the ASCII letters and the Latin-1
    letters 0xC0..0xDE / 0xE0..0xFE, the signs 0xD7 and 0xF7 excepted. *)
Definition to_lower (c : ascii) : ascii :=
  if between 65 90 c || (between 192 222 c && negb (code c =? 215)%N)
  then ascii_of_N (code c + 32) else c.

Definition to_upper (c : ascii) : ascii :=
  if between 97 122 c || (between 224 254 c && negb (code c =? 247)%N)
  then ascii_of_N (code c - 32) else c.

(** [s.lower()] *)
Fixpoint lower (s : string) : string :=
  match s with
  | EmptyString => EmptyString
  | String c s' => String (to_lower c) (lower s')
  end.

(** Removal of the leading, and of the trailing, characters of a class. *)
Fixpoint lstrip_by (p : ascii -> bool) (s : string) : string :=
  match s with
  | EmptyString => EmptyString
  | String c s' => if p c then lstrip_by p s' else s
  end.

Fixpoint rstrip_by (p : ascii -> bool) (s : string) : string :=
  match s with
  | EmptyString => EmptyString
  | String c s' =>
      match rstrip_by p s' with
      | EmptyString => if p c then EmptyString else String c EmptyString
      | r => String c r
      end
  end.

Definition strip_by (p : ascii -> bool) (s : string) : string :=
  rstrip_by p (lstrip_by p s).

(** [s.strip()] *)
Definition strip (s : string) : string := strip_by is_space s.

(** [s.split(sep)] for a one-character separator. *)
Fixpoint split (sep : ascii) (s : string) : list string :=
  match s with
  | EmptyString => [EmptyString]
  | String c s' =>
      if Ascii.eqb c sep then EmptyString :: split sep s'
      else match split sep s' with
           | l :: ls => String c l :: ls
           | [] => [String c EmptyString]
           end
  end.

(** [sub in s] *)
Fixpoint contains (sub s : string) : bool :=
  String.prefix sub s ||
  match s with
  | EmptyString => false
  | String _ s' => contains sub s'
  end.

(** [s.replace(c, "")] for a one-character [c]. *)
Fixpoint remove (c : ascii) (s : string) : string :=
  match s with
  | EmptyString => EmptyString
  | String d s' => if Ascii.eqb d c then remove c s' else String d (remove c s')
  end.

(** [sep.join(parts)] *)
Fixpoint join (sep : string) (parts : list string) : string :=
  match parts with
  | [] => EmptyString
  | [p] => p
  | p :: ps => p +:+ sep +:+ join sep ps
  end.

(** Truth value of a string: non-empty. *)
Definition nonempty (s : string) : bool :=
  match s with EmptyString => false | _ => true end.

(** [s[:n]] *)
Fixpoint take (n : nat) (s : string) : string :=
  match n, s with
  | S n', String c s' => String c (take n' s')
  | _, _ => EmptyString
  end.

Definition newline : ascii := ascii_of_N 10.

End PyStr.

(* ===================================================================== *)
(** ** Outcomes of calls that may raise *)
(* ===================================================================== *)

(** An exception, instance of [Exception]: its class name and its
    argument, which is the text [str(e)] gives.  Interrupts and exhausted
    resources are outside the model. *)
Record exn := Exn { exn_class : string; exn_arg : string }.

Inductive outcome (A : Type) : Type :=
| Ret (a : A)
| Raise (e : exn).
Arguments Ret {A} a.
Arguments Raise {A} e.

Definition obind {A B} (o : outcome A) (f : A -> outcome B) : outcome B :=
  match o with
  | Ret a => f a
  | Raise e => Raise e
  end.

(* ===================================================================== *)
(** ** Regular expressions: the fragment of [re] used by the pattern table *)
(* ===================================================================== *)

Module Re.
Import PyStr.

(** Members of a bracketed class. *)
Inductive item :=
| IChar (c : ascii)             (* a literal member *)
| IRange (lo hi : ascii)        (* lo-hi *)
| ISpace                        (* \s *)
| IDigit.                       (* \d *)

(** One-character matchers. *)
Inductive atom :=
| Lit (c : ascii)               (* a literal character *)
| Cls (items : list item).      (* [...] ; also \s and \d alone *)

Inductive regex :=
| Eps
| One (a : atom)
| Seq (r1 r2 : regex)
| Alt (r1 r2 : regex)                          (* r1|r2 *)
| Rep (a : atom) (lo : nat) (hi : option nat)  (* greedy a{lo,hi}; hi = None: unbounded *)
| Group1 (r : regex).                          (* the capturing group *)

Definition in_item (it : item) (c : ascii) : bool :=
  match it with
  | IChar d => Ascii.eqb c d
  | IRange lo hi => between (code lo) (code hi) c
  | ISpace => is_space c
  | IDigit => is_decimal c
  end.

(** Matching one character under IGNORECASE: a literal matches the
    characters with the same lower case; a class matches a character one
    of whose case variants is a member. *)
Definition atom_ok (a : atom) (c : ascii) : bool :=
  match a with
  | Lit d => Ascii.eqb (to_lower c) (to_lower d)
  | Cls items =>
      existsb (fun it => in_item it c || in_item it (to_lower c)
                         || in_item it (to_upper c)) items
  end.

Section Exec.
Context {R : Type}.

(** Greedy repetition of a one-character matcher: take one more
    character when allowed, and fall back to stopping here. *)
Fixpoint rep (a : atom) (lo : nat) (hi : option nat) (s : string)
         (k : string -> option R) : option R :=
  let stop := match lo with O => k s | S _ => None end in
  match hi with
  | Some O => stop
  | _ =>
      match s with
      | String c s' =>
          if atom_ok a c then
            match rep a (Nat.pred lo) (option_map Nat.pred hi) s' k with
            | Some x => Some x
            | None => stop
            end
          else stop
      | EmptyString => stop
      end
  end.

(** Backtracking match of [r] at the head of [s]; [g] is the text of
    group 1 so far; [k] continues with the rest of the input. *)
Fixpoint exec (r : regex) (s : string) (g : option string)
         (k : string -> option string -> option R) : option R :=
  match r with
  | Eps => k s g
  | One a =>
      match s with
      | String c s' => if atom_ok a c then k s' g else None
      | EmptyString => None
      end
  | Seq r1 r2 => exec r1 s g (fun s1 g1 => exec r2 s1 g1 k)
  | Alt r1 r2 =>
      match exec r1 s g k with
      | Some x => Some x
      | None => exec r2 s g k
      end
  | Rep a lo hi => rep a lo hi s (fun s1 => k s1 g)
  | Group1 r1 =>
      exec r1 s g
           (fun s1 _ => k s1 (Some (take (String.length s - String.length s1) s)))
  end.
End Exec.

(** A match object, reduced to what the callers read: [group(1)], which
    is [None] when the group took no part in the match. *)
Record match_obj := { group1 : option string }.

(** [re.match]: a match at the head of [s]. *)
Definition match_here (r : regex) (s : string) : option match_obj :=
  exec r s None (fun _ g => Some {| group1 := g |}).

(** [re.search]: the first position of [s], from the left, with a match. *)
Fixpoint search (r : regex) (s : string) : option match_obj :=
  match match_here r s with
  | Some m => Some m
  | None =>
      match s with
      | EmptyString => None
      | String _ s' => search r s'
      end
  end.

(** Shorthands for writing patterns. *)
Fixpoint lit (s : string) : regex :=
  match s with
  | EmptyString => Eps
  | String c EmptyString => One (Lit c)
  | String c s' => Seq (One (Lit c)) (lit s')
  end.

Definition star (a : atom) : regex := Rep a 0 None.
Definition plus (a : atom) : regex := Rep a 1 None.
Definition opt (a : atom) : regex := Rep a 0 (Some 1).
Definition seqs (rs : list regex) : regex := fold_right Seq Eps rs.

Definition space : atom := Cls [ISpace].
Definition digit : atom := Cls [IDigit].

(** Every character of [u] passes the test [p]. *)
Fixpoint all_chars (p : ascii -> bool) (u : string) : bool :=
  match u with
  | EmptyString => true
  | String c u' => p c && all_chars p u'
  end.

Definition within (hi : option nat) (n : nat) : Prop :=
  match hi with
  | Some h => (n <= h)%nat
  | None => True
  end.

(** What a regular expression denotes: [Matches r u g g'] when [r] can
    consume exactly the text [u], turning the text of group 1 from [g]
    into [g']. *)
Inductive Matches : regex -> string -> option string -> option string -> Prop :=
| M_eps g : Matches Eps EmptyString g g
| M_one a c g :
    atom_ok a c = true -> Matches (One a) (String c EmptyString) g g
| M_seq r1 r2 u1 u2 g g1 g2 :
    Matches r1 u1 g g1 -> Matches r2 u2 g1 g2 ->
    Matches (Seq r1 r2) (u1 +:+ u2) g g2
| M_alt_l r1 r2 u g g1 : Matches r1 u g g1 -> Matches (Alt r1 r2) u g g1
| M_alt_r r1 r2 u g g1 : Matches r2 u g g1 -> Matches (Alt r1 r2) u g g1
| M_rep a lo hi u g :
    all_chars (atom_ok a) u = true ->
    (lo <= String.length u)%nat -> within hi (String.length u) ->
    Matches (Rep a lo hi) u g g
| M_group r u g g1 : Matches r u g g1 -> Matches (Group1 r) u g (Some u).

(** Every way through [r] passes through the capturing group. *)
Fixpoint sets_group (r : regex) : bool :=
  match r with
  | Group1 _ => true
  | Seq r1 r2 => sets_group r1 || sets_group r2
  | Alt r1 r2 => sets_group r1 && sets_group r2
  | _ => false
  end.

End Re.

(* ===================================================================== *)
(** ** [float(s)] *)
(* ===================================================================== *)

Module PyFloat.
Import PyStr.

Definition digit_val (c : ascii) : N := code c - 48.

(** Reads a run of ASCII digits: the number read on top of [acc], how
    many digits were read, and the rest of the input. *)
Fixpoint read_digits (s : string) (acc : N) (count : nat) : N * nat * string :=
  match s with
  | String c s' =>
      if between 48 57 c
      then read_digits s' (10 * acc + digit_val c)%N (S count)
      else (acc, count, s)
  | EmptyString => (acc, count, s)
  end.

(** A plain decimal literal: digits, optionally a point and more digits,
    with one digit at least.  The result is the digit string read as a
    number and the count of digits after the point. *)
Definition parse_decimal (s : string) : option (N * nat) :=
  let '(ip, ni, rest) := read_digits s 0%N O in
  match rest with
  | EmptyString => if Nat.eqb ni 0 then None else Some (ip, O)
  | String c rest' =>
      if Ascii.eqb c "." then
        let '(v, nf, rest'') := read_digits rest' ip O in
        match rest'' with
        | EmptyString => if Nat.eqb (ni + nf) 0 then None else Some (v, nf)
        | _ => None
        end
      else None
  end.

(** The white space [float] skips at both ends: the ASCII characters TAB..CR
    and SPACE, and the spaces above 127 (NEL, NBSP).  The separators
    FS..US, which [str.strip] removes, are not skipped. *)
Definition is_float_space (c : ascii) : bool :=
  between 9 13 c || (code c =? 32)%N || (code c =? 133)%N || (code c =? 160)%N.

Definition ValueError (s : string) : exn :=
  Exn "ValueError" ("could not convert string to float: '" +:+ s +:+ "'").

(** [float(s)] on signed plain decimal literals, surrounding white space
    allowed; the result is the nearest binary64 number.  The other
    spellings Python accepts (exponents, underscores, inf, nan) all
    contain a letter or an underscore; they are outside this model,
    which answers [ValueError] for them. *)
Definition float (s : string) : outcome Float64.float :=
  let t := strip_by is_float_space s in
  let '(neg, body) :=
    match t with
    | String c t' =>
        if Ascii.eqb c "-" then (true, t')
        else if Ascii.eqb c "+" then (false, t')
        else (false, t)
    | EmptyString => (false, t)
    end in
  match parse_decimal body with
  | Some (n, scale) =>
      let v := Float64.of_decimal n scale in
      Ret (if neg then SFopp v else v)
  | None => Raise (ValueError s)
  end.

End PyFloat.

(* ===================================================================== *)
(** ** class PatternExtractor *)
(* ===================================================================== *)

Module PatternExtractor.
Import PyStr Re.

(** [[\s:]] *)
Definition space_colon : atom := Cls [ISpace; IChar ":"].
(** [[A-Z0-9\-]] *)
Definition id_char : atom := Cls [IRange "A" "Z"; IRange "0" "9"; IChar "-"].
(** [[-/]] *)
Definition date_sep : atom := Cls [IChar "-"; IChar "/"].
(** [[0-9,]] and [[0-9]] *)
Definition amount_char : atom := Cls [IRange "0" "9"; IChar ","].
Definition digit09 : atom := Cls [IRange "0" "9"].

(** [(\d{1,2}[-/]\d{1,2}[-/]\d{2,4})] *)
Definition date_group : regex :=
  Group1 (seqs [Rep digit 1 (Some 2); One date_sep;
                Rep digit 1 (Some 2); One date_sep;
                Rep digit 2 (Some 4)]).

(** [([0-9,]+\.[0-9]{2})] *)
Definition amount_group : regex :=
  Group1 (seqs [plus amount_char; One (Lit "."); Rep digit09 2 (Some 2)]).

(** [label[\s:]*\$?([0-9,]+\.[0-9]{2})] *)
Definition amount_after (label : regex) : regex :=
  seqs [label; star space_colon; opt (Lit "$"); amount_group].

(** Pattern definitions for common invoice fields. *)
Definition PATTERNS : gmap string (list regex) :=
  list_to_map
    [ ("invoice_number",
        [ (* Invoice\s*(?:Number|No\.?|#)[\s:]*([A-Z0-9\-]+) *)
          seqs [lit "Invoice"; star space;
                Alt (lit "Number") (Alt (Seq (lit "No") (opt (Lit "."))) (lit "#"));
                star space_colon; Group1 (plus id_char)];
          (* Invoice\s*#?[\s:]*([A-Z0-9\-]{4,}) *)
          seqs [lit "Invoice"; star space; opt (Lit "#");
                star space_colon; Group1 (Rep id_char 4 None)];
          (* INV[\s\-]?([A-Z0-9\-]+) *)
          seqs [lit "INV"; opt (Cls [ISpace; IChar "-"]); Group1 (plus id_char)] ]);
      ("invoice_date",
        [ (* Invoice\s*Date[\s:]*(\d{1,2}[-/]\d{1,2}[-/]\d{2,4}) *)
          seqs [lit "Invoice"; star space; lit "Date"; star space_colon; date_group];
          (* Date[\s:]*(\d{1,2}[-/]\d{1,2}[-/]\d{2,4}) *)
          seqs [lit "Date"; star space_colon; date_group];
          (* (\d{1,2}[-/]\d{1,2}[-/]\d{2,4}) *)
          seqs [date_group] ]);
      ("due_date",
        [ (* Due\s*Date[\s:]*(\d{1,2}[-/]\d{1,2}[-/]\d{2,4}) *)
          seqs [lit "Due"; star space; lit "Date"; star space_colon; date_group];
          (* Payment\s*Due[\s:]*(\d{1,2}[-/]\d{1,2}[-/]\d{2,4}) *)
          seqs [lit "Payment"; star space; lit "Due"; star space_colon; date_group] ]);
      ("total_amount",
        [ (* Total[\s:]*\$?([0-9,]+\.[0-9]{2}) *)
          amount_after (lit "Total");
          (* Grand\s*Total[\s:]*\$?([0-9,]+\.[0-9]{2}) *)
          amount_after (seqs [lit "Grand"; star space; lit "Total"]);
          (* TOTAL[\s:]*\$?([0-9,]+\.[0-9]{2}) *)
          amount_after (lit "TOTAL") ]);
      ("tax_amount",
        [ (* Tax[\s:]*\$?([0-9,]+\.[0-9]{2}) *)
          amount_after (lit "Tax");
          (* GST[\s:]*\$?([0-9,]+\.[0-9]{2}) *)
          amount_after (lit "GST");
          (* VAT[\s:]*\$?([0-9,]+\.[0-9]{2}) *)
          amount_after (lit "VAT") ]);
      ("subtotal",
        [ (* Subtotal[\s:]*\$?([0-9,]+\.[0-9]{2}) *)
          amount_after (lit "Subtotal");
          (* Sub[\s-]?Total[\s:]*\$?([0-9,]+\.[0-9]{2}) *)
          amount_after (seqs [lit "Sub"; opt (Cls [ISpace; IChar "-"]); lit "Total"]) ]) ].

(** [PATTERNS.get(field_type, [])] *)
Definition patterns_of (field_type : string) : list regex :=
  default [] (PATTERNS !! field_type).

Definition AttributeError : exn :=
  Exn "AttributeError" "'NoneType' object has no attribute 'strip'".

(** [1.0 - (pattern_idx * 0.1)] *)
Definition confidence_of (pattern_idx : nat) : Float64.float :=
  Float64.sub Float64.f1_0 (Float64.mul (Float64.of_nat pattern_idx) Float64.f0_1).

(** The loop of [extract_field] over [enumerate(patterns)], from index
    [pattern_idx] on. *)
Fixpoint extract_field_from (text : string) (pattern_idx : nat) (patterns : list regex)
  : outcome (option string * Float64.float) :=
  match patterns with
  | [] => Ret (None, Float64.zero)
  | pattern :: rest =>
      match search pattern text with
      | Some m =>
          match group1 m with
          | Some g => Ret (Some (strip g), confidence_of pattern_idx)
          | None => Raise AttributeError
          end
      | None => extract_field_from text (S pattern_idx) rest
      end
  end.

(** Extract a field using patterns with confidence scoring. *)
Definition extract_field (text field_type : string)
  : outcome (option string * Float64.float) :=
  extract_field_from text 0 (patterns_of field_type).

Definition stoplist : list string :=
  ["invoice"; "bill"; "receipt"; "quote"; "date:"; "invoice #"].

(** The loop of [extract_vendor_name] over the lines it is given. *)
Fixpoint vendor_scan (lines : list string) : string * Float64.float :=
  match lines with
  | [] => (EmptyString, Float64.zero)
  | line :: rest =>
      let stripped := strip line in
      if nonempty stripped
         && (5 <? String.length stripped)%nat
         && (String.length stripped <? 100)%nat
         && negb (existsb (fun keyword => contains keyword (lower stripped)) stoplist)
      then (stripped, Float64.f0_7)
      else vendor_scan rest
  end.

(** Extract vendor name from invoice. *)
Definition extract_vendor_name (text : string) : string * Float64.float :=
  let lines := split newline text in
  vendor_scan (firstn 20 lines).

(** Truth value of an optional string: present and non-empty. *)
Definition truthy (o : option string) : bool :=
  match o with Some s => nonempty s | None => false end.

(** One of the three blocks of [extract_amounts]. *)
Definition add_amount (text field_type key : string)
           (amounts : gmap string (Float64.float * Float64.float))
  : outcome (gmap string (Float64.float * Float64.float)) :=
  obind (extract_field text field_type) (fun '(str, conf) =>
    if truthy str then
      obind (PyFloat.float (remove "$" (remove "," (default EmptyString str))))
            (fun v => Ret (<[key := (v, conf)]> amounts))
    else Ret amounts).

(** Extract all amounts from text. *)
Definition extract_amounts (text : string)
  : outcome (gmap string (Float64.float * Float64.float)) :=
  obind (add_amount text "total_amount" "total" ∅) (fun amounts =>
  obind (add_amount text "tax_amount" "tax" amounts) (fun amounts =>
  add_amount text "subtotal" "subtotal" amounts)).

End PatternExtractor.

(* ===================================================================== *)
(** ** The data model *)
(* ===================================================================== *)

(** Represents a complete extracted invoice. *)
Record ExtractedInvoice := {
  file_name : string;
  invoice_number : string;
  invoice_date : string;
  due_date : string;
  vendor_name : string;
  vendor_address : string;
  customer_name : string;
  customer_address : string;
  subtotal : Float64.float;
  tax_amount : Float64.float;
  total_amount : Float64.float;
  currency : string;
  line_items : list string;
  raw_text : string;
  confidence_score : Float64.float
}.

(** [ExtractedInvoice(file_name=file_name)]: the other fields at their
    defaults. *)
Definition new_invoice (name : string) : ExtractedInvoice :=
  {| file_name := name; invoice_number := ""; invoice_date := ""; due_date := "";
     vendor_name := ""; vendor_address := ""; customer_name := "";
     customer_address := ""; subtotal := Float64.zero; tax_amount := Float64.zero;
     total_amount := Float64.zero; currency := "USD"; line_items := [];
     raw_text := ""; confidence_score := Float64.zero |}.

(** Attribute assignments [invoice.f = v]. *)
Definition set_invoice_number (v : string) (i : ExtractedInvoice) : ExtractedInvoice :=
  {| file_name := file_name i; invoice_number := v; invoice_date := invoice_date i;
     due_date := due_date i; vendor_name := vendor_name i;
     vendor_address := vendor_address i; customer_name := customer_name i;
     customer_address := customer_address i; subtotal := subtotal i;
     tax_amount := tax_amount i; total_amount := total_amount i;
     currency := currency i; line_items := line_items i; raw_text := raw_text i;
     confidence_score := confidence_score i |}.

Definition set_invoice_date (v : string) (i : ExtractedInvoice) : ExtractedInvoice :=
  {| file_name := file_name i; invoice_number := invoice_number i; invoice_date := v;
     due_date := due_date i; vendor_name := vendor_name i;
     vendor_address := vendor_address i; customer_name := customer_name i;
     customer_address := customer_address i; subtotal := subtotal i;
     tax_amount := tax_amount i; total_amount := total_amount i;
     currency := currency i; line_items := line_items i; raw_text := raw_text i;
     confidence_score := confidence_score i |}.

Definition set_due_date (v : string) (i : ExtractedInvoice) : ExtractedInvoice :=
  {| file_name := file_name i; invoice_number := invoice_number i;
     invoice_date := invoice_date i; due_date := v; vendor_name := vendor_name i;
     vendor_address := vendor_address i; customer_name := customer_name i;
     customer_address := customer_address i; subtotal := subtotal i;
     tax_amount := tax_amount i; total_amount := total_amount i;
     currency := currency i; line_items := line_items i; raw_text := raw_text i;
     confidence_score := confidence_score i |}.

Definition set_vendor_name (v : string) (i : ExtractedInvoice) : ExtractedInvoice :=
  {| file_name := file_name i; invoice_number := invoice_number i;
     invoice_date := invoice_date i; due_date := due_date i; vendor_name := v;
     vendor_address := vendor_address i; customer_name := customer_name i;
     customer_address := customer_address i; subtotal := subtotal i;
     tax_amount := tax_amount i; total_amount := total_amount i;
     currency := currency i; line_items := line_items i; raw_text := raw_text i;
     confidence_score := confidence_score i |}.

Definition set_subtotal (v : Float64.float) (i : ExtractedInvoice) : ExtractedInvoice :=
  {| file_name := file_name i; invoice_number := invoice_number i;
     invoice_date := invoice_date i; due_date := due_date i;
     vendor_name := vendor_name i; vendor_address := vendor_address i;
     customer_name := customer_name i; customer_address := customer_address i;
     subtotal := v; tax_amount := tax_amount i; total_amount := total_amount i;
     currency := currency i; line_items := line_items i; raw_text := raw_text i;
     confidence_score := confidence_score i |}.

Definition set_tax_amount (v : Float64.float) (i : ExtractedInvoice) : ExtractedInvoice :=
  {| file_name := file_name i; invoice_number := invoice_number i;
     invoice_date := invoice_date i; due_date := due_date i;
     vendor_name := vendor_name i; vendor_address := vendor_address i;
     customer_name := customer_name i; customer_address := customer_address i;
     subtotal := subtotal i; tax_amount := v; total_amount := total_amount i;
     currency := currency i; line_items := line_items i; raw_text := raw_text i;
     confidence_score := confidence_score i |}.

Definition set_total_amount (v : Float64.float) (i : ExtractedInvoice) : ExtractedInvoice :=
  {| file_name := file_name i; invoice_number := invoice_number i;
     invoice_date := invoice_date i; due_date := due_date i;
     vendor_name := vendor_name i; vendor_address := vendor_address i;
     customer_name := customer_name i; customer_address := customer_address i;
     subtotal := subtotal i; tax_amount := tax_amount i; total_amount := v;
     currency := currency i; line_items := line_items i; raw_text := raw_text i;
     confidence_score := confidence_score i |}.

Definition set_raw_text (v : string) (i : ExtractedInvoice) : ExtractedInvoice :=
  {| file_name := file_name i; invoice_number := invoice_number i;
     invoice_date := invoice_date i; due_date := due_date i;
     vendor_name := vendor_name i; vendor_address := vendor_address i;
     customer_name := customer_name i; customer_address := customer_address i;
     subtotal := subtotal i; tax_amount := tax_amount i;
     total_amount := total_amount i; currency := currency i;
     line_items := line_items i; raw_text := v;
     confidence_score := confidence_score i |}.

Definition set_confidence_score (v : Float64.float) (i : ExtractedInvoice) : ExtractedInvoice :=
  {| file_name := file_name i; invoice_number := invoice_number i;
     invoice_date := invoice_date i; due_date := due_date i;
     vendor_name := vendor_name i; vendor_address := vendor_address i;
     customer_name := customer_name i; customer_address := customer_address i;
     subtotal := subtotal i; tax_amount := tax_amount i;
     total_amount := total_amount i; currency := currency i;
     line_items := line_items i; raw_text := raw_text i;
     confidence_score := v |}.

(* ===================================================================== *)
(** ** Logging and exceptions: a state and error monad *)
(* ===================================================================== *)

Inductive level := INFO | WARNING | ERROR.

Record log_record := { lr_level : level; lr_message : string }.

(** A computation over a state [S] that returns or raises; the state
    survives a raise, as a mutated object and the log do. *)
Definition M (S A : Type) : Type := S -> outcome A * S.

Definition ret {S A} (a : A) : M S A := fun s => (Ret a, s).

Definition bind {S A B} (m : M S A) (f : A -> M S B) : M S B :=
  fun s => match m s with
           | (Ret a, s') => f a s'
           | (Raise e, s') => (Raise e, s')
           end.

Definition raise {S A} (e : exn) : M S A := fun s => (Raise e, s).

(** A call of a function that only returns or raises. *)
Definition call {S A} (o : outcome A) : M S A := fun s => (o, s).

(** [try: body except Exception as e: handler(e)] *)
Definition try_except {S A} (body : M S A) (handler : exn -> M S A) : M S A :=
  fun s => match body s with
           | (Ret a, s') => (Ret a, s')
           | (Raise e, s') => handler e s'
           end.

Declare Scope monad_scope.
Delimit Scope monad_scope with monad.
Notation "x <- m ;; k" := (bind m (fun x => k))
  (at level 20, m at level 99, k at level 200, only parsing) : monad_scope.
Notation "' p <- m ;; k" := (bind m (fun x => match x with p => k end))
  (at level 20, p pattern, m at level 99, k at level 200, only parsing) : monad_scope.
Notation "m ;; k" := (bind m (fun _ => k))
  (at level 100, k at level 200, only parsing, right associativity) : monad_scope.

(** [str(e)] *)
Definition str_exn (e : exn) : string := exn_arg e.

(** [Path(p).name] on a POSIX path: the last component, empty components
    and "." left out; empty when there is none. *)
Definition path_name (p : string) : string :=
  default EmptyString
          (last (List.filter (fun x => PyStr.nonempty x && negb (String.eqb x "."))
                             (PyStr.split "/" p))).

(* ===================================================================== *)
(** ** class PDFContentReader, class InvoiceFieldExtractor *)
(* ===================================================================== *)

Module InvoiceFieldExtractor.
Import PyStr.
Local Open Scope monad_scope.

Definition log := list log_record.

Definition logger (lv : level) (msg : string) : M log unit :=
  fun lg => (Ret tt, lg ++ [{| lr_level := lv; lr_message := msg |}]).

(** State of the body of [extract_invoice_fields]: the invoice object
    being filled in, and the log. *)
Definition st : Type := ExtractedInvoice * log.

Definition with_log {A} (m : M log A) : M st A :=
  fun '(inv, lg) => let '(o, lg') := m lg in (o, (inv, lg')).

Definition assign (f : ExtractedInvoice -> ExtractedInvoice) : M st unit :=
  fun '(inv, lg) => (Ret tt, (f inv, lg)).

Definition invoice : M st ExtractedInvoice :=
  fun '(inv, lg) => (Ret inv, (inv, lg)).

(** [v or ""] *)
Definition or_empty (v : option string) : string := default EmptyString v.

Section Environment.
(** What the process finds around it: whether PyPDF2 could be
    imported; for a path, the text of every page of the PDF behind it,
    or the exception that opening or reading it raises; for a
    directory, [None] when it does not exist and otherwise the paths
    that [glob("*.pdf")] yields. *)
Variable PyPDF2_present : bool.
Variable read_pages : string -> outcome (list string).
Variable glob_pdf : string -> option (list string).

(** Extract text from PDF file. *)
Definition extract_text (pdf_path : string) : M log string :=
  if negb PyPDF2_present then
    raise (Exn "ImportError" "PyPDF2 is required. Install with: pip install PyPDF2")
  else
    try_except
      (text_content <- call (read_pages pdf_path) ;;
       ret (join (String newline "") text_content))
      (fun e =>
         logger ERROR ("Error extracting text from " +:+ pdf_path +:+ ": " +:+ str_exn e) ;;
         raise e).

(** The [try] block of [extract_invoice_fields]. *)
Definition extract_invoice_fields_body (pdf_path file_name : string) : M st unit :=
  (* Agent 1: Extract raw text *)
  raw_text <- with_log (extract_text pdf_path) ;;
  assign (set_raw_text raw_text) ;;
  (* Agent 2: Extract structured fields using patterns *)
  ' (invoice_number', inv_conf) <- call (PatternExtractor.extract_field raw_text "invoice_number") ;;
  assign (set_invoice_number (or_empty invoice_number')) ;;
  ' (invoice_date', date_conf) <- call (PatternExtractor.extract_field raw_text "invoice_date") ;;
  assign (set_invoice_date (or_empty invoice_date')) ;;
  ' (due_date', due_conf) <- call (PatternExtractor.extract_field raw_text "due_date") ;;
  assign (set_due_date (or_empty due_date')) ;;
  (* Agent 3: Extract amounts *)
  amounts <- call (PatternExtractor.extract_amounts raw_text) ;;
  match amounts !! "total" with
  | Some (v, _) => assign (set_total_amount v)
  | None => ret tt
  end ;;
  match amounts !! "tax" with
  | Some (v, _) => assign (set_tax_amount v)
  | None => ret tt
  end ;;
  match amounts !! "subtotal" with
  | Some (v, _) => assign (set_subtotal v)
  | None => ret tt
  end ;;
  (* Agent 4: Extract vendor and customer info *)
  let '(vendor_name', vendor_conf) := PatternExtractor.extract_vendor_name raw_text in
  assign (set_vendor_name vendor_name') ;;
  (* Calculate overall confidence *)
  inv <- invoice ;;
  let confidences :=
    [ if nonempty (invoice_number inv) then inv_conf else Float64.zero;
      if nonempty (invoice_date inv) then date_conf else Float64.zero;
      if Float64.ltb Float64.zero (total_amount inv) then Float64.f0_8 else Float64.zero ] in
  let valid_confidences := List.filter (fun c => Float64.ltb Float64.zero c) confidences in
  assign (set_confidence_score
            match valid_confidences with
            | [] => Float64.zero
            | _ => Float64.div (Float64.sum valid_confidences)
                               (Float64.of_nat (length valid_confidences))
            end) ;;
  with_log (logger INFO ("Successfully extracted invoice from " +:+ file_name)).

(** Extract invoice fields from PDF using multi-agent approach. *)
Definition extract_invoice_fields (pdf_path : string) : M log ExtractedInvoice :=
  fun lg =>
    let file_name := path_name pdf_path in
    let m : M st ExtractedInvoice :=
      try_except
        (extract_invoice_fields_body pdf_path file_name)
        (fun e => with_log (logger ERROR ("Error extracting invoice fields from "
                                          +:+ pdf_path +:+ ": " +:+ str_exn e))) ;;
      invoice in
    let '(o, (_, lg')) := m (new_invoice file_name, lg) in
    (o, lg').

(** The [for] loop of [extract_multiple_invoices]; [invoices] is the
    list built so far. *)
Fixpoint extract_each (files : list string) (invoices : list ExtractedInvoice)
  : M log (list ExtractedInvoice) :=
  match files with
  | [] => ret invoices
  | pdf_file :: rest =>
      invoices' <- try_except
                     (inv <- extract_invoice_fields pdf_file ;;
                      ret (invoices ++ [inv]))
                     (fun e =>
                        logger ERROR ("Error processing " +:+ pdf_file +:+ ": " +:+ str_exn e) ;;
                        ret invoices) ;;
      extract_each rest invoices'
  end.

(** Extract invoices from all PDFs in a directory. *)
Definition extract_multiple_invoices (directory : string) : M log (list ExtractedInvoice) :=
  match glob_pdf directory with
  | None =>
      logger WARNING ("Directory not found: " +:+ directory) ;;
      ret []
  | Some files => extract_each files []
  end.

End Environment.

End InvoiceFieldExtractor.


(* ===================================================================== *)
(** ** Python values: what the dictionaries of results hold *)
(* ===================================================================== *)

(** A number is kept by its value: [VInt] for the counts [len] returns,
    [VNum] for the amounts and the scores, where the [int] 0 that an
    empty [sum] or an [else 0] gives stands as the float 0.0 (Python's
    [==] does not tell them apart). *)
#[warnings="-register-all"]
Inductive pyval :=
| VNone
| VInt (n : Z)
| VNum (x : Float64.float)
| VStr (s : string)
| VList (vs : list pyval)
| VDict (d : gmap string pyval).

Module PyVal.
Import PyStr.

Definition type_name (v : pyval) : string :=
  match v with
  | VNone => "NoneType"
  | VInt _ => "int"
  | VNum _ => "float"
  | VStr _ => "str"
  | VList _ => "list"
  | VDict _ => "dict"
  end.

(** [str(e)] of a [KeyError] is the [repr] of the key; the keys used here
    are plain words. *)
Definition KeyError (key : string) : exn :=
  Exn "KeyError" ("'" +:+ key +:+ "'").

(** The text of a [TypeError] varies with the Python version; the model
    keeps the type that was given. *)
Definition TypeError (v : pyval) : exn :=
  Exn "TypeError" ("'" +:+ type_name v +:+ "' object does not support this operation").

Definition AttributeError (v : pyval) (attr : string) : exn :=
  Exn "AttributeError"
      ("'" +:+ type_name v +:+ "' object has no attribute '" +:+ attr +:+ "'").

(** [v[key]] for a string [key]. *)
Definition getitem (v : pyval) (key : string) : outcome pyval :=
  match v with
  | VDict d =>
      match d !! key with
      | Some x => Ret x
      | None => Raise (KeyError key)
      end
  | _ => Raise (TypeError v)
  end.

(** [d.get(key, default)] on a dictionary. *)
Definition get (d : gmap string pyval) (key : string) (default : pyval) : pyval :=
  match d !! key with
  | Some x => x
  | None => default
  end.

(** [v.get(key, default)] *)
Definition get_of (v : pyval) (key : string) (default : pyval) : outcome pyval :=
  match v with
  | VDict d => Ret (get d key default)
  | _ => Raise (AttributeError v "get")
  end.

(** [v.lower()] *)
Definition lower_of (v : pyval) : outcome string :=
  match v with
  | VStr s => Ret (lower s)
  | _ => Raise (AttributeError v "lower")
  end.

Definition eqb_str (s : string) (v : pyval) : bool :=
  match v with VStr t => String.eqb s t | _ => false end.

(** [needle in v] for a string [needle]. *)
Definition contains_in (needle : string) (v : pyval) : outcome bool :=
  match v with
  | VStr s => Ret (contains needle s)
  | VList vs => Ret (existsb (eqb_str needle) vs)
  | VDict d => Ret (bool_decide (is_Some (d !! needle)))
  | _ => Raise (TypeError v)
  end.

(** Truth value. *)
Definition truth (v : pyval) : bool :=
  match v with
  | VNone => false
  | VInt n => negb (Z.eqb n 0)
  | VNum x => negb (SFeqb x Float64.zero)
  | VStr s => nonempty s
  | VList vs => match vs with [] => false | _ => true end
  | VDict d => negb (bool_decide (d = ∅))
  end.

(** [len(v)] *)
Definition len_of (v : pyval) : outcome nat :=
  match v with
  | VStr s => Ret (String.length s)
  | VList vs => Ret (length vs)
  | VDict d => Ret (size d)
  | _ => Raise (TypeError v)
  end.

(** The elements a [for] loop over [v] visits: those of a list, the
    characters of a string, the keys of a dictionary (here in the order
    of the map). *)
Definition iter_of (v : pyval) : outcome (list pyval) :=
  match v with
  | VStr s => Ret (map (fun c => VStr (String c EmptyString)) (list_ascii_of_string s))
  | VList vs => Ret vs
  | VDict d => Ret (map (fun kv => VStr (fst kv)) (map_to_list d))
  | _ => Raise (TypeError v)
  end.

(** A list comprehension whose body may raise: the elements in order,
    stopping at the first exception. *)
Fixpoint map_outcome {A B} (f : A -> outcome B) (xs : list A) : outcome (list B) :=
  match xs with
  | [] => Ret []
  | x :: rest =>
      obind (f x) (fun y => obind (map_outcome f rest) (fun ys => Ret (y :: ys)))
  end.

(** A comprehension with a condition that may raise. *)
Fixpoint filter_outcome {A} (f : A -> outcome bool) (xs : list A) : outcome (list A) :=
  match xs with
  | [] => Ret []
  | x :: rest =>
      obind (f x) (fun keep =>
      obind (filter_outcome f rest) (fun ys => Ret (if keep then x :: ys else ys)))
  end.

End PyVal.

(* ===================================================================== *)
(** ** pathlib, on POSIX paths *)
(* ===================================================================== *)

Module PurePath.
Import PyStr.

(** A parsed path: the root ("", "/" or "//") and the components after
    it, empty components and "." left out. *)
Record path := { root : string; parts : list string }.

Definition is_slash (c : ascii) : bool := Ascii.eqb c "/".

Definition component (x : string) : bool := nonempty x && negb (String.eqb x ".").

(** [Path(s)] *)
Definition parse (s : string) : path :=
  let rel := lstrip_by is_slash s in
  let slashes := (String.length s - String.length rel)%nat in
  {| root := match slashes with
             | O => ""
             | 2%nat => "//"
             | _ => "/"
             end;
     parts := List.filter component (split "/" rel) |}.

(** [p / s] *)
Definition child (p : path) (s : string) : path :=
  let q := parse s in
  if nonempty (root q) then q
  else {| root := root p; parts := parts p ++ parts q |}.

(** [str(p)] *)
Definition str (p : path) : string :=
  match root p, parts p with
  | EmptyString, [] => "."
  | r, ps => r +:+ join "/" ps
  end.

(** [p.name] *)
Definition name (p : path) : string := default EmptyString (last (parts p)).

End PurePath.

(* ===================================================================== *)
(** ** ExtractedInvoice.to_dict, process_invoices_in_directory *)
(* ===================================================================== *)

(** Convert to dictionary. *)
Definition to_dict (i : ExtractedInvoice) : gmap string pyval :=
  list_to_map
    [ ("file_name", VStr (file_name i));
      ("invoice_number", VStr (invoice_number i));
      ("invoice_date", VStr (invoice_date i));
      ("due_date", VStr (due_date i));
      ("vendor_name", VStr (vendor_name i));
      ("vendor_address", VStr (vendor_address i));
      ("customer_name", VStr (customer_name i));
      ("customer_address", VStr (customer_address i));
      ("subtotal", VNum (subtotal i));
      ("tax_amount", VNum (tax_amount i));
      ("total_amount", VNum (total_amount i));
      ("currency", VStr (currency i));
      ("line_items", VList (map VStr (line_items i)));
      ("raw_text", VStr (raw_text i));
      ("confidence_score", VNum (confidence_score i)) ].

Section Directory.
Import InvoiceFieldExtractor.
Local Open Scope monad_scope.

Variable PyPDF2_present : bool.
Variable read_pages : string -> outcome (list string).
Variable glob_pdf : string -> option (list string).

(** The [summary] entry.  The sums are taken from the left, as [sum]
    does before CPython 3.12. *)
Definition summary_of (invoices : list ExtractedInvoice) : gmap string pyval :=
  list_to_map
    [ ("total_amount", VNum (Float64.sum (map total_amount invoices)));
      ("total_tax", VNum (Float64.sum (map tax_amount invoices)));
      ("average_confidence",
        VNum match invoices with
             | [] => Float64.zero
             | _ => Float64.div (Float64.sum (map confidence_score invoices))
                                (Float64.of_nat (length invoices))
             end) ].

(** Process all invoices in a directory and return results. *)
Definition process_invoices_in_directory (directory : string) : M log (gmap string pyval) :=
  invoices <- extract_multiple_invoices PyPDF2_present read_pages glob_pdf directory ;;
  ret (list_to_map
         [ ("total_processed", VInt (Z.of_nat (length invoices)));
           ("invoices", VList (map (fun inv => VDict (to_dict inv)) invoices));
           ("summary", VDict (summary_of invoices)) ]).

End Directory.

(* ===================================================================== *)
(** ** class InvoiceTools (tools/box_tools_invoices.py) *)
(* ===================================================================== *)

Module InvoiceTools.
Import PyStr PyVal InvoiceFieldExtractor.
Local Open Scope monad_scope.

(** The object: its cache of results by file name; the log goes along. *)
Definition state : Type := gmap string (gmap string pyval) * log.

Definition with_log {A} (m : M log A) : M state A :=
  fun '(cache, lg) => let '(o, lg') := m lg in (o, (cache, lg')).

Definition logger_error (msg : string) : M state unit :=
  with_log (logger ERROR msg).

(** [self._cache[file_name] = result] *)
Definition cache_store (file_name : string) (result : gmap string pyval) : M state unit :=
  fun '(cache, lg) => (Ret tt, (<[file_name := result]> cache, lg)).

Definition cache : M state (gmap string (gmap string pyval)) :=
  fun '(cache, lg) => (Ret cache, (cache, lg)).

(** [{"error": msg}] *)
Definition error_dict (msg : string) : gmap string pyval :=
  list_to_map [("error", VStr msg)].

Section Tools.
(** The environment: that of the extractor, whether a path exists, and
    the writing of a JSON file (creating the directories above it), which
    returns or raises. *)
Variable PyPDF2_present : bool.
Variable read_pages : string -> outcome (list string).
Variable glob_pdf : string -> option (list string).
Variable path_exists : string -> bool.
Variable save_json : string -> gmap string pyval -> outcome unit.

(** [self.invoice_directory] *)
Variable invoice_directory : string.

(** Process a single invoice PDF and extract fields. *)
Definition process_single_invoice (file_name : string) : M state (gmap string pyval) :=
  let pdf_path := PurePath.child (PurePath.parse invoice_directory) file_name in
  if negb (path_exists (PurePath.str pdf_path)) then
    ret (error_dict ("Invoice file not found: " +:+ file_name))
  else
    try_except
      (invoice <- with_log (extract_invoice_fields PyPDF2_present read_pages
                                                   (PurePath.str pdf_path)) ;;
       let result := to_dict invoice in
       (* Cache the result *)
       cache_store file_name result ;;
       ret result)
      (fun e =>
         logger_error ("Error processing invoice " +:+ file_name +:+ ": " +:+ str_exn e) ;;
         ret (error_dict (str_exn e))).

(** Process all invoices in the invoice directory. *)
Definition process_all_invoices : M state (gmap string pyval) :=
  try_except
    (with_log (process_invoices_in_directory PyPDF2_present read_pages glob_pdf
                                             invoice_directory))
    (fun e =>
       logger_error ("Error processing invoices: " +:+ str_exn e) ;;
       ret (error_dict (str_exn e))).

(** List all available invoice files. *)
Definition list_invoices : M state (gmap string pyval) :=
  try_except
    (match glob_pdf invoice_directory with
     | None => ret (error_dict ("Invoice directory not found: " +:+ invoice_directory))
     | Some invoices =>
         ret (list_to_map
                [ ("directory", VStr invoice_directory);
                  ("count", VInt (Z.of_nat (length invoices)));
                  ("files", VList (map (fun f => VStr (path_name f)) invoices)) ])
     end)
    (fun e =>
       logger_error ("Error listing invoices: " +:+ str_exn e) ;;
       ret (error_dict (str_exn e))).

(** One entry of the [invoices] list of the summary. *)
Definition summary_entry (inv : pyval) : outcome pyval :=
  obind (getitem inv "file_name") (fun file_name =>
  obind (getitem inv "invoice_number") (fun invoice_number =>
  obind (getitem inv "invoice_date") (fun invoice_date =>
  obind (getitem inv "total_amount") (fun total_amount =>
  obind (getitem inv "confidence_score") (fun confidence =>
  Ret (VDict (list_to_map
                [ ("file_name", file_name);
                  ("invoice_number", invoice_number);
                  ("invoice_date", invoice_date);
                  ("total_amount", total_amount);
                  ("confidence", confidence) ]))))))).

(** Get a summary of all processed invoices. *)
Definition get_invoice_summary : M state (gmap string pyval) :=
  try_except
    (result <- with_log (process_invoices_in_directory PyPDF2_present read_pages glob_pdf
                                                       invoice_directory) ;;
     if bool_decide (is_Some (result !! "error")) then ret result
     else
       let invoices := get result "invoices" (VList []) in
       if negb (truth invoices) then
         ret (list_to_map [("total_invoices", VInt 0); ("summary", VDict ∅)])
       else
         call (obind (len_of invoices) (fun total_invoices =>
               obind (getitem (VDict result) "summary") (fun summary =>
               obind (getitem summary "total_amount") (fun total_amount =>
               obind (getitem (VDict result) "summary") (fun summary =>
               obind (getitem summary "total_tax") (fun total_tax =>
               obind (getitem (VDict result) "summary") (fun summary =>
               obind (getitem summary "average_confidence") (fun average_confidence =>
               obind (iter_of invoices) (fun invs =>
               obind (map_outcome summary_entry invs) (fun entries =>
               Ret (list_to_map
                      [ ("total_invoices", VInt (Z.of_nat total_invoices));
                        ("total_amount", total_amount);
                        ("total_tax", total_tax);
                        ("average_confidence", average_confidence);
                        ("invoices", VList entries) ]))))))))))))
    (fun e =>
       logger_error ("Error getting invoice summary: " +:+ str_exn e) ;;
       ret (error_dict (str_exn e))).

(** The condition of the comprehension of [search_invoices]. *)
Definition search_hit (query_lower : string) (inv : pyval) : outcome bool :=
  obind (getitem inv "invoice_number") (fun number =>
  obind (lower_of number) (fun number_lower =>
  if contains query_lower number_lower then Ret true
  else
    obind (getitem inv "invoice_date") (fun date =>
    obind (contains_in query_lower date) (fun in_date =>
    if in_date then Ret true
    else
      obind (getitem inv "file_name") (fun name =>
      obind (lower_of name) (fun name_lower =>
      Ret (contains query_lower name_lower))))))).

(** Search invoices by invoice number or date. *)
Definition search_invoices (query : string) : M state (gmap string pyval) :=
  try_except
    (result <- with_log (process_invoices_in_directory PyPDF2_present read_pages glob_pdf
                                                       invoice_directory) ;;
     if bool_decide (is_Some (result !! "error")) then ret result
     else
       let invoices := get result "invoices" (VList []) in
       let query_lower := lower query in
       call (obind (iter_of invoices) (fun invs =>
             obind (filter_outcome (search_hit query_lower) invs) (fun matches =>
             Ret (list_to_map
                    [ ("query", VStr query);
                      ("matches", VInt (Z.of_nat (length matches)));
                      ("invoices", VList matches) ])))))
    (fun e =>
       logger_error ("Error searching invoices: " +:+ str_exn e) ;;
       ret (error_dict (str_exn e))).

(** Get detailed information for a specific invoice. *)
Definition get_invoice_details (file_name : string) : M state (gmap string pyval) :=
  c <- cache ;;
  match c !! file_name with
  | Some result => ret result
  | None => process_single_invoice file_name
  end.

(** Export all invoices as JSON; [output_file] is [None] by default. *)
Definition export_invoices_as_json (output_file : option string)
  : M state (gmap string pyval) :=
  try_except
    (result <- with_log (process_invoices_in_directory PyPDF2_present read_pages glob_pdf
                                                       invoice_directory) ;;
     if bool_decide (is_Some (result !! "error")) then ret result
     else if PatternExtractor.truthy output_file then
       let output_path := PurePath.parse (default EmptyString output_file) in
       call (save_json (PurePath.str output_path) result) ;;
       ret (list_to_map [("status", VStr "success");
                         ("saved_to", VStr (PurePath.str output_path))])
     else
       ret (list_to_map [("status", VStr "success"); ("data", VDict result)]))
    (fun e =>
       logger_error ("Error exporting invoices: " +:+ str_exn e) ;;
       ret (error_dict (str_exn e))).

End Tools.

End InvoiceTools.

(* ===================================================================== *)
(** ** The API endpoints (invoice_api.py) *)
(* ===================================================================== *)

Module InvoiceAPI.
Import PyStr PyVal InvoiceFieldExtractor.

(** What an endpoint raises: an exception of Python, or FastAPI's
    [HTTPException], itself an [Exception]. *)
Inductive raised :=
| Plain (e : exn)
| HTTPException (status_code : nat) (detail : pyval).

Inductive reply (A : Type) : Type :=
| Respond (a : A)
| Failure (e : raised).
Arguments Respond {A} a.
Arguments Failure {A} e.

(** An endpoint body: it logs, and responds or raises. *)
Definition H (A : Type) : Type := log -> reply A * log.

Definition respond {A} (a : A) : H A := fun lg => (Respond a, lg).

Definition fail {A} (e : raised) : H A := fun lg => (Failure e, lg).

Definition hbind {A B} (m : H A) (f : A -> H B) : H B :=
  fun lg => match m lg with
            | (Respond a, lg') => f a lg'
            | (Failure e, lg') => (Failure e, lg')
            end.

(** A computation of the library, which raises plain exceptions. *)
Definition lift {A} (m : M log A) : H A :=
  fun lg => match m lg with
            | (Ret a, lg') => (Respond a, lg')
            | (Raise e, lg') => (Failure (Plain e), lg')
            end.

Definition pure {A} (o : outcome A) : H A := lift (call o).

(** [try: body except Exception as e: handler(e)] *)
Definition try_except {A} (body : H A) (handler : raised -> H A) : H A :=
  fun lg => match body lg with
            | (Respond a, lg') => (Respond a, lg')
            | (Failure e, lg') => handler e lg'
            end.

(** [try: body except HTTPException: raise except Exception as e: handler(e)] *)
Definition try_except_http {A} (body : H A) (handler : exn -> H A) : H A :=
  fun lg => match body lg with
            | (Respond a, lg') => (Respond a, lg')
            | (Failure (HTTPException s d), lg') => (Failure (HTTPException s d), lg')
            | (Failure (Plain e), lg') => handler e lg'
            end.

Definition INVOICE_DIR : string := "invoices".

Definition csv_fieldnames : list string :=
  ["file_name"; "invoice_number"; "invoice_date"; "due_date"; "vendor_name";
   "customer_name"; "subtotal"; "tax_amount"; "total_amount"; "confidence_score"].

Section Endpoints.
(** The environment: that of the extractor; whether a path exists; the
    text [str(e)] of an [HTTPException], which depends on the version of
    the framework; the text the [csv] writer produces from the header and
    the rows. *)
Variable PyPDF2_present : bool.
Variable read_pages : string -> outcome (list string).
Variable glob_pdf : string -> option (list string).
Variable path_exists : string -> bool.
Variable str_http : nat -> pyval -> string.
Variable csv_text : list string -> list (list pyval) -> string.

Definition process : H (gmap string pyval) :=
  lift (process_invoices_in_directory PyPDF2_present read_pages glob_pdf INVOICE_DIR).

(** [str(e)] *)
Definition str_raised (e : raised) : string :=
  match e with
  | Plain e => str_exn e
  | HTTPException status_code detail => str_http status_code detail
  end.

(** [logger.error(f"{what}: {e}")] then
    [raise HTTPException(status_code=500, detail=str(e))] *)
Definition internal_error {A} (what : string) (e : raised) : H A :=
  hbind (lift (logger ERROR (what +:+ ": " +:+ str_raised e)))
        (fun _ => fail (HTTPException 500 (VStr (str_raised e)))).

(** Get all processed invoices with summary statistics. *)
Definition get_all_invoices : H (gmap string pyval) :=
  try_except process (internal_error "Error fetching invoices").

(** Get invoice summary statistics. *)
Definition get_invoice_summary : H pyval :=
  try_except
    (hbind process (fun result =>
     match result !! "error" with
     | Some detail => fail (HTTPException 400 detail)
     | None => respond (get result "summary" (VDict ∅))
     end))
    (internal_error "Error fetching summary").

(** The condition of the comprehension of [search_invoices]. *)
Definition field_has (query_lower : string) (inv : pyval) (key : string) (lowered : bool)
  : outcome bool :=
  obind (get_of inv key (VStr EmptyString)) (fun v =>
    if lowered then obind (lower_of v) (fun s => Ret (contains query_lower s))
    else contains_in query_lower v).

Definition search_hit (query_lower : string) (inv : pyval) : outcome bool :=
  obind (field_has query_lower inv "invoice_number" true) (fun b1 =>
  if b1 then Ret true else
  obind (field_has query_lower inv "invoice_date" false) (fun b2 =>
  if b2 then Ret true else
  obind (field_has query_lower inv "file_name" true) (fun b3 =>
  if b3 then Ret true else
  field_has query_lower inv "vendor_name" true))).

(** Search invoices by query string. *)
Definition search_invoices (query : string) : H (gmap string pyval) :=
  try_except
    (if negb (nonempty query) then
       fail (HTTPException 400 (VStr "Query parameter required"))
     else
       hbind process (fun result =>
       let invoices := get result "invoices" (VList []) in
       let query_lower := lower query in
       pure (obind (iter_of invoices) (fun invs =>
             obind (filter_outcome (search_hit query_lower) invs) (fun matches =>
             Ret (list_to_map
                    [ ("query", VStr query);
                      ("matches", VInt (Z.of_nat (length matches)));
                      ("invoices", VList matches) ]))))))
    (internal_error "Error searching invoices").

(** Get detailed information for a specific invoice. *)
Definition get_invoice_details (file_name : string) : H (gmap string pyval) :=
  try_except_http
    (let pdf_path := PurePath.child (PurePath.parse INVOICE_DIR) file_name in
     if negb (path_exists (PurePath.str pdf_path)) then
       fail (HTTPException 404 (VStr "Invoice not found"))
     else
       hbind (lift (extract_invoice_fields PyPDF2_present read_pages
                                           (PurePath.str pdf_path)))
             (fun invoice => respond (to_dict invoice)))
    (fun e => internal_error "Error fetching invoice details" (Plain e)).

(** One row of the CSV export: [inv.get(field, "")] for each field. *)
Definition csv_row (inv : pyval) : outcome (list pyval) :=
  map_outcome (fun field => get_of inv field (VStr EmptyString)) csv_fieldnames.

(** Export all invoices in specified format. *)
Definition export_invoices (output_format : string) : H (gmap string pyval) :=
  try_except
    (hbind process (fun result =>
     if String.eqb (lower output_format) "json" then respond result
     else if String.eqb (lower output_format) "csv" then
       let invoices := get result "invoices" (VList []) in
       if negb (truth invoices) then
         respond (list_to_map [("error", VStr "No invoices to export")])
       else
         pure (obind (iter_of invoices) (fun invs =>
               obind (map_outcome csv_row invs) (fun rows =>
               obind (len_of invoices) (fun count =>
               Ret (list_to_map
                      [ ("format", VStr "csv");
                        ("data", VStr (csv_text csv_fieldnames rows));
                        ("count", VInt (Z.of_nat count)) ])))))
     else fail (HTTPException 400 (VStr "Unsupported format"))))
    (internal_error "Error exporting invoices").

(** List all available PDF files in invoices directory. *)
Definition list_available_invoices : H (gmap string pyval) :=
  try_except
    (match glob_pdf INVOICE_DIR with
     | None => respond (list_to_map [("error", VStr ("Directory not found: " +:+ INVOICE_DIR))])
     | Some invoices =>
         respond (list_to_map
                    [ ("directory", VStr INVOICE_DIR);
                      ("count", VInt (Z.of_nat (length invoices)));
                      ("files", VList (map (fun f => VStr (path_name f)) invoices)) ])
     end)
    (internal_error "Error listing invoices").

End Endpoints.

End InvoiceAPI.
(* ===================================================================== *)
(** ** Vocabulary of the properties *)
(* ===================================================================== *)

Section Vocabulary.
Import PyStr Re PatternExtractor InvoiceFieldExtractor.

(** A float that is zero, positive or plus infinity. *)
Definition nonneg (x : Float64.float) : Prop :=
  match x with
  | S754_zero _ => True
  | S754_infinity s | S754_finite s _ _ => s = false
  | S754_nan => False
  end.

Definition is_digit (c : ascii) : bool := between 48 57 c.

Definition is_amount_char (c : ascii) : bool := is_digit c || Ascii.eqb c ",".

(** The text of an amount: digits and commas, one at least, then a point
    and two digits. *)
Definition amount_shape (u : string) : Prop :=
  exists a d1 d2,
    u = a +:+ String "." (String d1 (String d2 EmptyString)) /\
    all_chars is_amount_char a = true /\ a <> EmptyString /\
    is_digit d1 = true /\ is_digit d2 = true.

(** The three amount fields and the keys they are stored under. *)
Definition amount_fields : list (string * string) :=
  [("total_amount", "total"); ("tax_amount", "tax"); ("subtotal", "subtotal")].

Definition is_amount_rule (p : regex) : Prop := exists label, p = amount_after label.

(** Characters of a plain amount: a digit or the point. *)
Definition is_plain_char (c : ascii) : bool := is_digit c || Ascii.eqb c ".".

(** A rule of the field type finds a match in the text. *)
Definition field_matches (text ft : string) : Prop :=
  exists p, In p (patterns_of ft) /\ search p text <> None.

(** The entry one block of [extract_amounts] stores, if any. *)
Definition amount_entry (text ft : string) : option (Float64.float * Float64.float) :=
  match extract_field text ft with
  | Ret (Some u, conf) =>
      match PyFloat.float (remove "$" (remove "," u)) with
      | Ret v => Some (v, conf)
      | Raise _ => None
      end
  | _ => None
  end.

Definition store (key : string) (e : option (Float64.float * Float64.float))
           (amounts : gmap string (Float64.float * Float64.float))
  : gmap string (Float64.float * Float64.float) :=
  match e with
  | Some x => <[key := x]> amounts
  | None => amounts
  end.

(** The value [extract_field] returns (it always returns). *)
Definition field_value (text ft : string) : option string * Float64.float :=
  match extract_field text ft with
  | Ret r => r
  | Raise _ => (None, Float64.zero)
  end.

(** The amount stored in the record for a field: the parsed amount when
    there is an entry, the default otherwise. *)
Definition amount_value (text ft : string) : Float64.float :=
  match amount_entry text ft with
  | Some (v, _) => v
  | None => Float64.zero
  end.

(** The computation of the overall confidence, as the source writes it. *)
Definition overall_confidence (confidences : list Float64.float) : Float64.float :=
  let valid_confidences := List.filter (fun c => Float64.ltb Float64.zero c) confidences in
  match valid_confidences with
  | [] => Float64.zero
  | _ => Float64.div (Float64.sum valid_confidences)
                     (Float64.of_nat (length valid_confidences))
  end.

(** The record [extract_invoice_fields] builds from a decoded text. *)
Definition assembled (name text : string) : ExtractedInvoice :=
  let number := or_empty (fst (field_value text "invoice_number")) in
  let date := or_empty (fst (field_value text "invoice_date")) in
  let total := amount_value text "total_amount" in
  {| file_name := name;
     invoice_number := number;
     invoice_date := date;
     due_date := or_empty (fst (field_value text "due_date"));
     vendor_name := fst (extract_vendor_name text);
     vendor_address := ""; customer_name := ""; customer_address := "";
     subtotal := amount_value text "subtotal";
     tax_amount := amount_value text "tax_amount";
     total_amount := total;
     currency := "USD"; line_items := []; raw_text := text;
     confidence_score :=
       overall_confidence
         [ if nonempty number then snd (field_value text "invoice_number") else Float64.zero;
           if nonempty date then snd (field_value text "invoice_date") else Float64.zero;
           if Float64.ltb Float64.zero total then Float64.f0_8 else Float64.zero ] |}.

Definition info_extracted (pdf_path : string) : log_record :=
  {| lr_level := INFO;
     lr_message := "Successfully extracted invoice from " +:+ path_name pdf_path |}.

Definition error_extracting (pdf_path : string) (e : exn) : log_record :=
  {| lr_level := ERROR;
     lr_message := "Error extracting invoice fields from " +:+ pdf_path +:+ ": " +:+ str_exn e |}.

(** The aggregate as the specification words it: the mean of the
    contributions that are not zero, and zero when there is none. *)
Definition mean_of_nonzero (contributions : list Float64.float) : Float64.float :=
  let kept := List.filter (fun c => negb (SFeqb c Float64.zero)) contributions in
  match kept with
  | [] => Float64.zero
  | _ => Float64.div (Float64.sum kept) (Float64.of_nat (length kept))
  end.

(** The confidence [extract_field] reports for a field type. *)
Definition rule_confidence (text ft : string) : Float64.float :=
  snd (field_value text ft).

(** The three contributions, read off a record. *)
Definition contributions (r : ExtractedInvoice) : list Float64.float :=
  [ if nonempty (invoice_number r)
    then rule_confidence (raw_text r) "invoice_number" else Float64.zero;
    if nonempty (invoice_date r)
    then rule_confidence (raw_text r) "invoice_date" else Float64.zero;
    if Float64.ltb Float64.zero (total_amount r) then Float64.f0_8 else Float64.zero ].

Definition ranks : list Float64.float :=
  [Float64.zero; confidence_of 0; confidence_of 1; confidence_of 2].

Section Decoding.
Variable PyPDF2_present : bool.
Variable read_pages : string -> outcome (list string).

Abbreviation extract_text := (extract_text PyPDF2_present read_pages).

(** The outcome of decoding a document, and what decoding logs. *)
Definition decode (pdf_path : string) : outcome string := fst (extract_text pdf_path []).

Definition decode_log (pdf_path : string) : log := snd (extract_text pdf_path []).

(** The record made for a document, and the log records its processing
    adds. *)
Definition record_for (pdf_path : string) : ExtractedInvoice :=
  match decode pdf_path with
  | Ret text => assembled (path_name pdf_path) text
  | Raise _ => new_invoice (path_name pdf_path)
  end.

Definition log_for (pdf_path : string) : log :=
  decode_log pdf_path ++
  [match decode pdf_path with
   | Ret _ => info_extracted pdf_path
   | Raise e => error_extracting pdf_path e
   end].

End Decoding.

(** A line qualifies: trimmed, it is longer than 5 and shorter than 100
    characters and, in lower case, contains no keyword of the stoplist. *)
Definition qualifies (line : string) : bool :=
  let stripped := strip line in
  (5 <? String.length stripped)%nat
  && (String.length stripped <? 100)%nat
  && negb (existsb (fun keyword => contains keyword (lower stripped)) stoplist).

Definition vendor_result (found : option string) : string * Float64.float :=
  match found with
  | Some line => (strip line, Float64.f0_7)
  | None => (EmptyString, Float64.zero)
  end.

(** The heuristic as the specification words it: the first qualifying
    line among the first 20 non-empty lines. *)
Definition vendor_name_spec (text : string) : string * Float64.float :=
  vendor_result
    (List.find qualifies
       (firstn 20 (List.filter (fun line => nonempty (strip line)) (split newline text)))).

(** Twenty blank lines, then a vendor name. *)
Definition blank_lines_then_vendor : string :=
  Eval cbv in
    String.concat EmptyString (repeat (String newline EmptyString) 20)
    +:+ "Acme Corporation".

(** The invoice text of the end-to-end property. *)
Definition sample_text : string :=
  Eval cbv in
    String.concat (String newline EmptyString)
      ["Invoice Number: INV-2024-001"; "Invoice Date: 01/15/2024";
       "Subtotal: $100.00"; "Tax: $8.00"; "Total: $108.00"].

(** A directory with two PDF files, the second of which cannot be read. *)
Definition two_files (directory : string) : option (list string) :=
  Some ["invoices/a.pdf"; "invoices/bad.pdf"].

Definition second_unreadable (pdf_path : string) : outcome (list string) :=
  if String.eqb pdf_path "invoices/bad.pdf"
  then Raise (Exn "PdfReadError" "EOF marker not found")
  else Ret ["Total: $5.00"].

End Vocabulary.

(* ===================================================================== *)
(** ** Vocabulary: what can be read off a pattern *)
(* ===================================================================== *)

Section PatternChecks.
Import PyStr Re PatternExtractor.

(** The 256 characters. *)
Definition all_ascii : list ascii := map ascii_of_nat (seq 0 256).

(** Every character the matcher [a] accepts passes the test [P]. *)
Definition atom_within (P : ascii -> bool) (a : atom) : bool :=
  forallb (fun c => implb (atom_ok a c) (P c)) all_ascii.

(** Every character a match of [r] consumes passes the test [P]. *)
Fixpoint chars_within (P : ascii -> bool) (r : regex) : bool :=
  match r with
  | Eps => true
  | One a => atom_within P a
  | Seq r1 r2 | Alt r1 r2 => chars_within P r1 && chars_within P r2
  | Rep a _ _ => atom_within P a
  | Group1 r1 => chars_within P r1
  end.

(** A lower bound on the length of the texts [r] matches. *)
Fixpoint min_len (r : regex) : nat :=
  match r with
  | Eps => 0
  | One _ => 1
  | Seq r1 r2 => min_len r1 + min_len r2
  | Alt r1 r2 => Nat.min (min_len r1) (min_len r2)
  | Rep _ lo _ => lo
  | Group1 r1 => min_len r1
  end.

(** [r] has no capturing group. *)
Fixpoint group_free (r : regex) : bool :=
  match r with
  | Group1 _ => false
  | Seq r1 r2 | Alt r1 r2 => group_free r1 && group_free r2
  | _ => true
  end.

(** The body of every capturing group of [r] passes the test [P]. *)
Fixpoint groups_ok (P : regex -> bool) (r : regex) : bool :=
  match r with
  | Group1 r1 => P r1
  | Seq r1 r2 | Alt r1 r2 => groups_ok P r1 && groups_ok P r2
  | _ => true
  end.

Definition not_space (c : ascii) : bool := negb (is_space c).

(** A group body that matches only non-empty texts free of white space. *)
Definition solid (r : regex) : bool :=
  chars_within not_space r && (1 <=? min_len r)%nat.

End PatternChecks.

Section MoreVocabulary.
Import PyStr Re PatternExtractor InvoiceFieldExtractor.

(** A label ends with the label [L']: a match of it has a match of [L']
    as a suffix. *)
Definition ends_with (L L' : regex) : Prop :=
  forall v h h', Matches L v h h' ->
                 h' = h /\ exists v0 v', v = v0 +:+ v' /\ Matches L' v' h h.

(** The exception of [extract_text] when PyPDF2 is missing. *)
Definition import_error : exn :=
  Exn "ImportError" "PyPDF2 is required. Install with: pip install PyPDF2".

(** The field types of the table. *)
Definition field_types : list string :=
  ["invoice_number"; "invoice_date"; "due_date"; "total_amount"; "tax_amount"; "subtotal"].

End MoreVocabulary.

(* ===================================================================== *)
(** ** Vocabulary: batches, tools and endpoints *)
(* ===================================================================== *)

Section Batches.
Import PyStr PyVal InvoiceFieldExtractor.

Variable PyPDF2_present : bool.
Variable read_pages : string -> outcome (list string).
Variable glob_pdf : string -> option (list string).

(** The PDF files of a directory; none when it does not exist. *)
Definition files_in (directory : string) : list string :=
  default [] (glob_pdf directory).

(** The records of the files of a directory, in the order of the listing. *)
Definition records_in (directory : string) : list ExtractedInvoice :=
  map (record_for PyPDF2_present read_pages) (files_in directory).

(** What processing a directory logs. *)
Definition directory_log (directory : string) : log :=
  match glob_pdf directory with
  | None => [{| lr_level := WARNING; lr_message := "Directory not found: " +:+ directory |}]
  | Some files => flat_map (log_for PyPDF2_present read_pages) files
  end.

(** The dictionary of a record, as a value. *)
Definition dict_of (r : ExtractedInvoice) : pyval := VDict (to_dict r).

(** The report on a list of records. *)
Definition report (invoices : list ExtractedInvoice) : gmap string pyval :=
  list_to_map
    [ ("total_processed", VInt (Z.of_nat (length invoices)));
      ("invoices", VList (map dict_of invoices));
      ("summary", VDict (summary_of invoices)) ].

(** The report on no document at all. *)
Definition empty_report : gmap string pyval :=
  list_to_map
    [ ("total_processed", VInt 0);
      ("invoices", VList []);
      ("summary", VDict (list_to_map
                           [ ("total_amount", VNum Float64.zero);
                             ("total_tax", VNum Float64.zero);
                             ("average_confidence", VNum Float64.zero) ])) ].

End Batches.

Section ToolsVocabulary.
Import PyStr PyVal InvoiceFieldExtractor.

(** The path a tool opens for a file name: [str(Path(directory) / file_name)]. *)
Definition target (directory file_name : string) : string :=
  PurePath.str (PurePath.child (PurePath.parse directory) file_name).

(** A record is a hit of [search_invoices] of [InvoiceTools] for a query
    in lower case. *)
Definition tool_hit (query_lower : string) (r : ExtractedInvoice) : bool :=
  contains query_lower (lower (invoice_number r))
  || contains query_lower (invoice_date r)
  || contains query_lower (lower (file_name r)).

(** A record is a hit of the search endpoint. *)
Definition api_hit (query_lower : string) (r : ExtractedInvoice) : bool :=
  contains query_lower (lower (invoice_number r))
  || contains query_lower (invoice_date r)
  || contains query_lower (lower (file_name r))
  || contains query_lower (lower (vendor_name r)).

(** The answer of a search: the query, the number of hits, the hits. *)
Definition found (query : string) (hits : list ExtractedInvoice) : gmap string pyval :=
  list_to_map
    [ ("query", VStr query);
      ("matches", VInt (Z.of_nat (length hits)));
      ("invoices", VList (map dict_of hits)) ].

(** The entry of a record in the summary of [InvoiceTools]. *)
Definition entry_of (r : ExtractedInvoice) : pyval :=
  VDict (list_to_map
           [ ("file_name", VStr (file_name r));
             ("invoice_number", VStr (invoice_number r));
             ("invoice_date", VStr (invoice_date r));
             ("total_amount", VNum (total_amount r));
             ("confidence", VNum (confidence_score r)) ]).

(** The summary of [InvoiceTools] for a list of records. *)
Definition digest (invoices : list ExtractedInvoice) : gmap string pyval :=
  match invoices with
  | [] => list_to_map [("total_invoices", VInt 0); ("summary", VDict ∅)]
  | _ =>
      list_to_map
        [ ("total_invoices", VInt (Z.of_nat (length invoices)));
          ("total_amount", VNum (Float64.sum (map total_amount invoices)));
          ("total_tax", VNum (Float64.sum (map tax_amount invoices)));
          ("average_confidence",
            VNum (Float64.div (Float64.sum (map confidence_score invoices))
                              (Float64.of_nat (length invoices))));
          ("invoices", VList (map entry_of invoices)) ]
  end.

(** The row of a record in the CSV export. *)
Definition row_of (r : ExtractedInvoice) : list pyval :=
  [ VStr (file_name r); VStr (invoice_number r); VStr (invoice_date r);
    VStr (due_date r); VStr (vendor_name r); VStr (customer_name r);
    VNum (subtotal r); VNum (tax_amount r); VNum (total_amount r);
    VNum (confidence_score r) ].

(** A text without a slash. *)
Definition slash_free (s : string) : bool :=
  Re.all_chars (fun c => negb (PurePath.is_slash c)) s.

(** A file name without a directory: not empty, not ".", no slash. *)
Definition plain_name (s : string) : Prop :=
  s <> EmptyString /\ s <> "." /\ slash_free s = true.

(** A component of a path: not empty, not ".", no slash. *)
Definition is_part (p : string) : Prop :=
  PurePath.component p = true /\ slash_free p = true.

(** A path as [parse] and [child] make them. *)
Definition well_formed (q : PurePath.path) : Prop :=
  (PurePath.root q = "" \/ PurePath.root q = "/" \/ PurePath.root q = "//") /\
  Forall is_part (PurePath.parts q).

(** Calls of the methods of an [InvoiceTools] object. *)
Inductive request :=
| ProcessSingle (file_name : string)
| ProcessAll
| ListInvoices
| GetSummary
| SearchFor (query : string)
| GetDetails (file_name : string)
| ExportJson (output_file : option string).

Section Serving.
Variable PyPDF2_present : bool.
Variable read_pages : string -> outcome (list string).
Variable glob_pdf : string -> option (list string).
Variable path_exists : string -> bool.
Variable save_json : string -> gmap string pyval -> outcome unit.
Variable invoice_directory : string.

Definition perform (r : request) : M InvoiceTools.state (gmap string pyval) :=
  match r with
  | ProcessSingle file_name =>
      InvoiceTools.process_single_invoice PyPDF2_present read_pages path_exists
                                          invoice_directory file_name
  | ProcessAll =>
      InvoiceTools.process_all_invoices PyPDF2_present read_pages glob_pdf invoice_directory
  | ListInvoices => InvoiceTools.list_invoices glob_pdf invoice_directory
  | GetSummary =>
      InvoiceTools.get_invoice_summary PyPDF2_present read_pages glob_pdf invoice_directory
  | SearchFor query =>
      InvoiceTools.search_invoices PyPDF2_present read_pages glob_pdf invoice_directory query
  | GetDetails file_name =>
      InvoiceTools.get_invoice_details PyPDF2_present read_pages path_exists
                                       invoice_directory file_name
  | ExportJson output_file =>
      InvoiceTools.export_invoices_as_json PyPDF2_present read_pages glob_pdf save_json
                                           invoice_directory output_file
  end.

(** The calls one after the other, on the same object. *)
Fixpoint serve (rs : list request) : M InvoiceTools.state (list (gmap string pyval)) :=
  match rs with
  | [] => ret []
  | r :: rest =>
      bind (perform r) (fun answer =>
      bind (serve rest) (fun answers => ret (answer :: answers)))
  end.

(** Every entry of the cache is the dictionary of the record of a file
    that exists. *)
Definition cache_sound (cache : gmap string (gmap string pyval)) : Prop :=
  forall file_name result,
    cache !! file_name = Some result ->
    path_exists (target invoice_directory file_name) = true /\
    result = to_dict (record_for PyPDF2_present read_pages
                                 (target invoice_directory file_name)).

End Serving.

End ToolsVocabulary.


(* ===================================================================== *)
(** ** Strings *)
(* ===================================================================== *)

Section StringFacts.
Import PyStr.

Lemma app_cons (c : ascii) (u v : string) : String c u +:+ v = String c (u +:+ v).
Proof. reflexivity. Qed.

Lemma app_nil_l (v : string) : "" +:+ v = v.
Proof. reflexivity. Qed.

Lemma length_app (u v : string) :
  String.length (u +:+ v) = (String.length u + String.length v)%nat.
Proof.
  induction u as [|c u IH]; [reflexivity|].
  rewrite app_cons. simpl. now rewrite IH.
Qed.

Lemma app_assoc_str (u v w : string) : (u +:+ v) +:+ w = u +:+ (v +:+ w).
Proof.
  induction u as [|c u IH]; [reflexivity|].
  rewrite !app_cons. now rewrite IH.
Qed.

Lemma app_empty_r (u : string) : u +:+ "" = u.
Proof.
  induction u as [|c u IH]; [reflexivity|].
  rewrite app_cons. now rewrite IH.
Qed.

Lemma take_length_app (u v : string) : take (String.length u) (u +:+ v) = u.
Proof.
  induction u as [|c u IH].
  - destruct v; reflexivity.
  - rewrite app_cons. simpl. now rewrite IH.
Qed.

Lemma take_app (u v : string) :
  take (String.length (u +:+ v) - String.length v) (u +:+ v) = u.
Proof.
  rewrite length_app.
  replace (String.length u + String.length v - String.length v)%nat
    with (String.length u) by lia.
  apply take_length_app.
Qed.

End StringFacts.

(* ===================================================================== *)
(** ** The matcher is sound for the denotation *)
(* ===================================================================== *)

Section MatcherSound.
Import PyStr Re.

Lemma rep_sound {R} (a : atom) (s : string) :
  forall lo hi (k : string -> option R) x,
    rep a lo hi s k = Some x ->
    exists u s1, s = u +:+ s1 /\ all_chars (atom_ok a) u = true /\
                 (lo <= String.length u)%nat /\ within hi (String.length u) /\
                 k s1 = Some x.
Proof.
  induction s as [|c s IH]; intros lo hi k x H.
  - exists EmptyString, EmptyString. simpl in H.
    assert (Hs : match lo with O => k EmptyString | S _ => None end = Some x)
      by (destruct hi as [[|h]|]; exact H).
    destruct lo; [|discriminate].
    repeat split; auto. destruct hi; simpl; lia.
  - assert (Hstop : match lo with O => k (String c s) | S _ => None end = Some x ->
                    exists u s1, String c s = u +:+ s1 /\ all_chars (atom_ok a) u = true /\
                                 (lo <= String.length u)%nat /\ within hi (String.length u) /\
                                 k s1 = Some x).
    { intros Hs. destruct lo; [|discriminate].
      exists EmptyString, (String c s). repeat split; auto.
      destruct hi; simpl; lia. }
    simpl in H.
    destruct hi as [[|h]|]; [auto| |].
    + destruct (atom_ok a c) eqn:Hc; [|auto].
      destruct (rep a (Nat.pred lo) (option_map Nat.pred (Some (S h))) s k) eqn:Hr; [|auto].
      inversion H; subst x. apply IH in Hr.
      destruct Hr as (u & s1 & -> & Hall & Hlo & Hhi & Hk).
      exists (String c u), s1. simpl. rewrite Hc, Hall.
      repeat split; auto; [lia | simpl in Hhi; lia].
    + destruct (atom_ok a c) eqn:Hc; [|auto].
      destruct (rep a (Nat.pred lo) (option_map Nat.pred None) s k) eqn:Hr; [|auto].
      inversion H; subst x. apply IH in Hr.
      destruct Hr as (u & s1 & -> & Hall & Hlo & Hhi & Hk).
      exists (String c u), s1. simpl. rewrite Hc, Hall.
      repeat split; auto; lia.
Qed.

Lemma exec_sound {R} (r : regex) :
  forall s g (k : string -> option string -> option R) x,
    exec r s g k = Some x ->
    exists u s1 g1, s = u +:+ s1 /\ Matches r u g g1 /\ k s1 g1 = Some x.
Proof.
  induction r as [|a|r1 IH1 r2 IH2|r1 IH1 r2 IH2|a lo hi|r IH]; intros s g k x H; simpl in H.
  - exists EmptyString, s, g. repeat split; auto. constructor.
  - destruct s as [|c s]; [discriminate|].
    destruct (atom_ok a c) eqn:Hc; [|discriminate].
    exists (String c EmptyString), s, g. repeat split; auto. now constructor.
  - apply IH1 in H. destruct H as (u1 & s1 & g1 & -> & M1 & H).
    apply IH2 in H. destruct H as (u2 & s2 & g2 & -> & M2 & H).
    exists (u1 +:+ u2), s2, g2. rewrite app_assoc_str.
    repeat split; auto. econstructor; eauto.
  - destruct (exec r1 s g k) eqn:H1.
    + inversion H; subst. apply IH1 in H1.
      destruct H1 as (u & s1 & g1 & -> & M1 & Hk).
      exists u, s1, g1. repeat split; auto. now apply M_alt_l.
    + apply IH2 in H. destruct H as (u & s1 & g1 & -> & M2 & Hk).
      exists u, s1, g1. repeat split; auto. now apply M_alt_r.
  - apply rep_sound in H. destruct H as (u & s1 & -> & Hall & Hlo & Hhi & Hk).
    exists u, s1, g. repeat split; auto. now constructor.
  - apply IH in H. destruct H as (u & s1 & g1 & -> & M1 & H).
    rewrite take_app in H.
    exists u, s1, (Some u). repeat split; auto. econstructor; eauto.
Qed.

Lemma match_here_sound (r : regex) (s : string) (m : match_obj) :
  match_here r s = Some m ->
  exists u s1, s = u +:+ s1 /\ Matches r u None (group1 m).
Proof.
  unfold match_here. intros H. apply exec_sound in H.
  destruct H as (u & s1 & g1 & -> & M1 & H). inversion H; subst m.
  exists u, s1. split; auto.
Qed.

Lemma search_sound (r : regex) (s : string) (m : match_obj) :
  search r s = Some m -> exists u, Matches r u None (group1 m).
Proof.
  induction s as [|c s IH]; simpl; intros H.
  - destruct (match_here r EmptyString) eqn:Hm; [|discriminate].
    inversion H; subst. apply match_here_sound in Hm.
    destruct Hm as (u & _ & _ & Hm). eauto.
  - destruct (match_here r (String c s)) eqn:Hm.
    + inversion H; subst. apply match_here_sound in Hm.
      destruct Hm as (u & _ & _ & Hm). eauto.
    + auto.
Qed.

Lemma Matches_group (r : regex) (u : string) (g g1 : option string) :
  Matches r u g g1 -> sets_group r = true \/ g <> None -> g1 <> None.
Proof.
  induction 1 as [g|a c g Hc|r1 r2 u1 u2 g g1 g2 _ IH1 _ IH2
                 |r1 r2 u g g1 _ IH|r1 r2 u g g1 _ IH|a lo hi u g|r u g g1 _ IH];
    simpl; intros [Hs|Hg]; try discriminate; auto.
  - apply orb_true_iff in Hs. destruct Hs as [Hs|Hs]; auto.
  - apply andb_true_iff in Hs. destruct Hs; auto.
  - apply andb_true_iff in Hs. destruct Hs; auto.
Qed.

Lemma search_group (r : regex) (s : string) (m : match_obj) :
  sets_group r = true -> search r s = Some m ->
  exists g, group1 m = Some g.
Proof.
  intros Hs H. apply search_sound in H. destruct H as (u & H).
  apply Matches_group in H; auto.
  destruct (group1 m); [eauto | congruence].
Qed.

End MatcherSound.

(* ===================================================================== *)
(** ** The pattern table *)
(* ===================================================================== *)

Section PatternTable.
Import PyStr Re PatternExtractor.

(** A decidable property of rule lists holds of every entry of the table
    as soon as it holds of the six lists written there. *)
Lemma PATTERNS_all (P : list regex -> bool) :
  map_Forall (fun _ ps => P ps = true) PATTERNS <->
  forallb P [patterns_of "invoice_number"; patterns_of "invoice_date";
             patterns_of "due_date"; patterns_of "total_amount";
             patterns_of "tax_amount"; patterns_of "subtotal"] = true.
Proof.
  split.
  - intros H. simpl. rewrite !andb_true_iff.
    repeat split; try reflexivity;
      match goal with
      | |- P (patterns_of ?k) = true =>
          apply (H k); vm_compute; reflexivity
      end.
  - intros H ft ps Hft. simpl in H. rewrite !andb_true_iff in H.
    destruct H as (H1 & H2 & H3 & H4 & H5 & H6 & _).
    unfold PATTERNS in Hft. apply elem_of_list_to_map_2 in Hft.
    repeat (apply elem_of_cons in Hft as [Hft|Hft];
            [inversion Hft; subst; assumption|]).
    inversion Hft.
Qed.

Lemma PATTERNS_sets_group (ft : string) (ps : list regex) :
  PATTERNS !! ft = Some ps -> forallb sets_group ps = true.
Proof.
  revert ft ps. apply (PATTERNS_all (forallb sets_group)). vm_compute. reflexivity.
Qed.

Lemma PATTERNS_short (ft : string) (ps : list regex) :
  PATTERNS !! ft = Some ps -> (length ps <= 3)%nat.
Proof.
  intros H. apply Nat.leb_le. revert ft ps H.
  apply (PATTERNS_all (fun ps => (length ps <=? 3)%nat)). vm_compute. reflexivity.
Qed.

Lemma patterns_of_sets_group (ft : string) :
  forallb sets_group (patterns_of ft) = true.
Proof.
  unfold patterns_of. destruct (PATTERNS !! ft) as [ps|] eqn:E; simpl.
  - eapply PATTERNS_sets_group; eauto.
  - reflexivity.
Qed.

Lemma patterns_of_short (ft : string) : (length (patterns_of ft) <= 3)%nat.
Proof.
  unfold patterns_of. destruct (PATTERNS !! ft) as [ps|] eqn:E; simpl.
  - eapply PATTERNS_short; eauto.
  - lia.
Qed.

End PatternTable.

(* ===================================================================== *)
(** ** extract_field *)
(* ===================================================================== *)

Section ExtractField.
Import PyStr Re PatternExtractor.

(** The loop returns at the first rule with a match, whatever follows. *)
Lemma extract_field_from_spec (text : string) (ps : list regex) :
  forallb sets_group ps = true ->
  forall i,
    (Forall (fun p => search p text = None) ps /\
     extract_field_from text i ps = Ret (None, Float64.zero))
    \/
    (exists j p m g,
        ps !! j = Some p /\
        (forall j' q, (j' < j)%nat -> ps !! j' = Some q -> search q text = None) /\
        search p text = Some m /\ group1 m = Some g /\
        extract_field_from text i ps = Ret (Some (strip g), confidence_of (i + j))).
Proof.
  induction ps as [|p ps IH]; intros Hg i; simpl.
  - left. split; [constructor | reflexivity].
  - simpl in Hg. apply andb_true_iff in Hg. destruct Hg as [Hp Hps].
    destruct (search p text) as [m|] eqn:Hs.
    + right. destruct (search_group _ _ _ Hp Hs) as [g Hgm].
      exists O, p, m, g. rewrite Hgm, Nat.add_0_r.
      repeat split; auto. intros j' q Hlt. lia.
    + destruct (IH Hps (S i)) as [[Hall Hr]|(j & q & m & g & Hj & Hfirst & Hq & Hgm & Hr)].
      * left. split; [constructor; assumption | assumption].
      * right. exists (S j), q, m, g.
        replace (i + S j)%nat with (S i + j)%nat by lia.
        repeat split; auto.
        intros j' q' Hlt Hj'. destruct j' as [|j'].
        -- simpl in Hj'. inversion Hj'; subst. assumption.
        -- simpl in Hj'. apply (Hfirst j' q'); [lia | assumption].
Qed.

Lemma lookup_some_lt {A} (l : list A) (j : nat) (x : A) :
  l !! j = Some x -> (j < length l)%nat.
Proof. intros H. apply lookup_lt_is_Some. eauto. Qed.

(** [extract_field] always returns, and what it returns is either the
    absent result or a value with the confidence of one of the first
    three ranks. *)
Lemma extract_field_cases (text ft : string) :
  extract_field text ft = Ret (None, Float64.zero) \/
  exists v j, (j < 3)%nat /\
              extract_field text ft = Ret (Some v, confidence_of j).
Proof.
  unfold extract_field.
  destruct (extract_field_from_spec text (patterns_of ft) (patterns_of_sets_group ft) 0)
    as [[_ H]|(j & p & m & g & Hj & _ & _ & _ & H)].
  - left. exact H.
  - right. exists (strip g), j. split; [|exact H].
    apply lookup_some_lt in Hj. pose proof (patterns_of_short ft). lia.
Qed.

Lemma extract_field_returns (text ft : string) :
  exists r, extract_field text ft = Ret r.
Proof.
  destruct (extract_field_cases text ft) as [H|(v & j & _ & H)]; eauto.
Qed.

End ExtractField.

(* ===================================================================== *)
(** ** Binary64 facts *)
(* ===================================================================== *)

Section FloatFacts.
Import Float64.

Lemma nonneg_leb (x : float) : nonneg x -> leb zero x = true.
Proof. destruct x as [s|s| |s m e]; simpl; intros H; subst; try reflexivity; tauto. Qed.

Lemma iter_pos_inv {A} (P : A -> Prop) (f : A -> A) :
  (forall x, P x -> P (f x)) -> forall p x, P x -> P (SpecFloat.iter_pos f p x).
Proof.
  intros Hf. induction p as [p IH|p IH|]; intros x Hx; simpl; auto.
Qed.

Lemma shr_1_nonneg (mrs : shr_record) :
  (0 <= shr_m mrs)%Z -> (0 <= shr_m (shr_1 mrs))%Z.
Proof.
  destruct mrs as [m r s]. simpl.
  destruct m as [|[p|p|]|[p|p|]]; simpl; intros H; lia.
Qed.

Lemma shr_fexp_nonneg (m e : Z) (l : location) :
  (0 <= m)%Z -> (0 <= shr_m (fst (shr_fexp prec emax m e l)))%Z.
Proof.
  intros Hm. unfold shr_fexp, shr.
  assert (H0 : (0 <= shr_m (shr_record_of_loc m l))%Z)
    by (destruct l as [|[]]; exact Hm).
  destruct (fexp prec emax (Zdigits2 m + e) - e)%Z as [|p|p]; simpl; auto.
  apply (iter_pos_inv (fun r => (0 <= shr_m r)%Z)); auto using shr_1_nonneg.
Qed.

Lemma round_nearest_even_nonneg (m : Z) (l : location) :
  (0 <= m)%Z -> (0 <= round_nearest_even m l)%Z.
Proof.
  intros Hm. destruct l as [|[]]; simpl; try assumption; try lia.
  destruct (Z.even m); lia.
Qed.

Lemma binary_round_aux_nonneg (m e : Z) (l : location) :
  (0 <= m)%Z -> nonneg (binary_round_aux prec emax false m e l).
Proof.
  intros Hm. unfold binary_round_aux.
  pose proof (shr_fexp_nonneg m e l Hm) as H1.
  destruct (shr_fexp prec emax m e l) as [mrs' e'] eqn:E1. simpl in H1.
  pose proof (shr_fexp_nonneg
                (round_nearest_even (shr_m mrs') (loc_of_shr_record mrs')) e' loc_Exact
                (round_nearest_even_nonneg _ _ H1)) as H2.
  destruct (shr_fexp prec emax (round_nearest_even (shr_m mrs') (loc_of_shr_record mrs')) e' loc_Exact)
    as [mrs'' e''] eqn:E2. simpl in H2.
  destruct (shr_m mrs'') as [|p|p]; simpl; [exact I| |lia].
  destruct (e'' <=? emax - prec)%Z; reflexivity.
Qed.

(** A decimal literal without sign is never negative and never NaN. *)
Lemma of_decimal_nonneg (n : N) (scale : nat) : nonneg (of_decimal n scale).
Proof.
  unfold of_decimal. destruct n as [|p]; [exact I|].
  unfold SFdiv, SFdiv_core_binary.
  set (m' := match (0 - 0 - _)%Z with Z0 => _ | Zpos _ => _ | Zneg _ => _ end).
  assert (Hm' : (0 <= m')%Z).
  { subst m'. destruct (0 - 0 - _)%Z; try lia.
    rewrite Z.shiftl_mul_pow2 by lia. apply Z.mul_nonneg_nonneg; lia. }
  pose proof (Z.div_pos m' (Zpos (pow10 scale)) Hm' (Pos2Z.is_pos _)) as Hq.
  unfold Z.div in Hq.
  destruct (Z.div_eucl m' (Z.pos (pow10 scale))) as [q r]. simpl in Hq.
  apply binary_round_aux_nonneg. exact Hq.
Qed.

(** The confidences of the three ranks a rule list of the table has:
    the binary64 numbers nearest to 1, 0.9 and 0.8. *)
Lemma confidence_of_rank (j : nat) :
  (j < 3)%nat ->
  PatternExtractor.confidence_of j = of_decimal (N.of_nat (10 - j)) 1.
Proof.
  intros H. destruct j as [|[|[|j]]]; try lia; vm_compute; reflexivity.
Qed.

End FloatFacts.

(* ===================================================================== *)
(** ** What the amount patterns capture *)
(* ===================================================================== *)

Section AmountCapture.
Import PyStr Re PatternExtractor.

Ltac by_cases_on c :=
  destruct c as [[] [] [] [] [] [] [] []]; vm_compute; try reflexivity; try discriminate.

Lemma atom_ok_amount_char (c : ascii) : atom_ok amount_char c = is_amount_char c.
Proof. by_cases_on c. Qed.

Lemma atom_ok_digit09 (c : ascii) : atom_ok digit09 c = is_digit c.
Proof. by_cases_on c. Qed.

Lemma atom_ok_point (c : ascii) : atom_ok (Lit ".") c = true -> c = "."%char.
Proof. by_cases_on c. Qed.

Lemma all_chars_ext (p q : ascii -> bool) (u : string) :
  (forall c, p c = q c) -> all_chars p u = all_chars q u.
Proof. intros H. induction u as [|c u IH]; simpl; [reflexivity | now rewrite H, IH]. Qed.

Ltac inv_matches :=
  repeat match goal with
         | H : Matches (Seq _ _) _ _ _ |- _ => inversion H; clear H; subst
         | H : Matches (Group1 _) _ _ _ |- _ => inversion H; clear H; subst
         | H : Matches (One _) _ _ _ |- _ => inversion H; clear H; subst
         | H : Matches (Rep _ _ _) _ _ _ |- _ => inversion H; clear H; subst
         | H : Matches Eps _ _ _ |- _ => inversion H; clear H; subst
         end.

Lemma Matches_amount_group (u : string) (g g1 : option string) :
  Matches amount_group u g g1 -> g1 = Some u /\ amount_shape u.
Proof.
  unfold amount_group, seqs, plus. simpl. intros H. inv_matches.
  split; [reflexivity|].
  match goal with
  | Ha : all_chars (atom_ok amount_char) ?a = true,
    Hlo : (1 <= String.length ?a)%nat,
    Hc : atom_ok (Lit ".") ?c = true,
    Hdd : all_chars (atom_ok digit09) ?dd = true,
    Hlo2 : (2 <= String.length ?dd)%nat,
    Hhi2 : within (Some 2%nat) (String.length ?dd) |- _ =>
      apply atom_ok_point in Hc; subst c;
      rewrite (all_chars_ext _ _ _ atom_ok_amount_char) in Ha;
      rewrite (all_chars_ext _ _ _ atom_ok_digit09) in Hdd;
      simpl in Hhi2;
      destruct dd as [|d1 [|d2 [|d3 dd]]]; simpl in Hlo2, Hhi2; try lia;
      simpl in Hdd;
      apply andb_true_iff in Hdd; destruct Hdd as [Hd1 Hd2];
      apply andb_true_iff in Hd2; destruct Hd2 as [Hd2 _];
      exists a, d1, d2; repeat split; auto;
      intros ->; simpl in Hlo; lia
  end.
Qed.

Lemma Matches_amount_after (label : regex) (u : string) (g g1 : option string) :
  Matches (amount_after label) u g g1 -> exists v, g1 = Some v /\ amount_shape v.
Proof.
  unfold amount_after, seqs, star, opt. simpl. intros H. inv_matches.
  match goal with
  | H5 : Matches amount_group _ _ _ |- _ =>
      apply Matches_amount_group in H5; destruct H5 as [-> Hshape]; eauto
  end.
Qed.

Lemma search_amount_after (label : regex) (text : string) (m : match_obj) :
  search (amount_after label) text = Some m ->
  exists v, group1 m = Some v /\ amount_shape v.
Proof.
  intros H. apply search_sound in H. destruct H as (u & H).
  eapply Matches_amount_after; eauto.
Qed.

Lemma amount_rules (ft key : string) :
  In (ft, key) amount_fields -> Forall is_amount_rule (patterns_of ft).
Proof.
  simpl. intros [H|[H|[H|[]]]]; inversion H; subst.
  - change (patterns_of "total_amount")
      with [amount_after (lit "Total");
            amount_after (seqs [lit "Grand"; star space; lit "Total"]);
            amount_after (lit "TOTAL")].
    repeat constructor; eexists; reflexivity.
  - change (patterns_of "tax_amount")
      with [amount_after (lit "Tax"); amount_after (lit "GST"); amount_after (lit "VAT")].
    repeat constructor; eexists; reflexivity.
  - change (patterns_of "subtotal")
      with [amount_after (lit "Subtotal");
            amount_after (seqs [lit "Sub"; opt (Cls [ISpace; IChar "-"]); lit "Total"])].
    repeat constructor; eexists; reflexivity.
Qed.

End AmountCapture.

(* ===================================================================== *)
(** ** Parsing a captured amount *)
(* ===================================================================== *)

Section AmountParse.
Import PyStr Re PatternExtractor.

Ltac by_cases_on c :=
  destruct c as [[] [] [] [] [] [] [] []]; vm_compute; try reflexivity; try discriminate.

Lemma plain_not_space (c : ascii) :
  is_plain_char c = true -> PyFloat.is_float_space c = false.
Proof. by_cases_on c. Qed.

Lemma amount_char_not_space (c : ascii) : is_amount_char c = true -> is_space c = false.
Proof. by_cases_on c. Qed.

Lemma digit_not_space (c : ascii) : is_digit c = true -> is_space c = false.
Proof. by_cases_on c. Qed.

Lemma plain_not_sign (c : ascii) :
  is_plain_char c = true -> Ascii.eqb c "-" = false /\ Ascii.eqb c "+" = false.
Proof. by_cases_on c; intros _; split; reflexivity. Qed.

Lemma amount_char_cases (c : ascii) :
  is_amount_char c = true ->
  (Ascii.eqb c "," = true /\ is_digit c = false) \/
  (Ascii.eqb c "," = false /\ Ascii.eqb c "$" = false /\ is_digit c = true).
Proof. by_cases_on c; intros _; auto. Qed.

Lemma digit_kept (c : ascii) :
  is_digit c = true -> Ascii.eqb c "," = false /\ Ascii.eqb c "$" = false.
Proof. by_cases_on c; intros _; auto. Qed.

Lemma all_chars_app (p : ascii -> bool) (u v : string) :
  all_chars p (u +:+ v) = all_chars p u && all_chars p v.
Proof.
  induction u as [|c u IH]; [reflexivity|].
  rewrite app_cons. simpl. rewrite IH. now rewrite andb_assoc.
Qed.

Lemma remove_app (c : ascii) (u v : string) :
  remove c (u +:+ v) = remove c u +:+ remove c v.
Proof.
  induction u as [|d u IH]; [reflexivity|].
  rewrite app_cons. simpl. destruct (Ascii.eqb d c); [exact IH|].
  rewrite app_cons. now rewrite IH.
Qed.

(** Without the commas an amount prefix is a run of digits, which the
    removal of "$" leaves alone. *)
Lemma remove_separators (a : string) :
  all_chars is_amount_char a = true ->
  all_chars is_digit (remove "$" (remove "," a)) = true.
Proof.
  induction a as [|c a IH]; simpl; [reflexivity|].
  intros H. apply andb_true_iff in H. destruct H as [Hc Ha].
  destruct (amount_char_cases c Hc) as [[-> _]|(-> & Hd & Hdig)]; [auto|].
  simpl. rewrite Hd. simpl. rewrite Hdig. auto.
Qed.

Lemma lstrip_head (p : ascii -> bool) (c : ascii) (u : string) :
  p c = false -> lstrip_by p (String c u) = String c u.
Proof. intros H. simpl. now rewrite H. Qed.

Lemma rstrip_last (p : ascii -> bool) (u : string) (d : ascii) :
  p d = false ->
  rstrip_by p (u +:+ String d EmptyString) = u +:+ String d EmptyString.
Proof.
  intros Hd. induction u as [|c u IH].
  - simpl. unfold String.append. simpl. now rewrite Hd.
  - rewrite app_cons. simpl. rewrite IH.
    destruct u; reflexivity.
Qed.

Lemma amount_tail_assoc (a : string) (d1 d2 : ascii) :
  a +:+ String "." (String d1 (String d2 EmptyString))
  = (a +:+ String "." (String d1 EmptyString)) +:+ String d2 EmptyString.
Proof. now rewrite app_assoc_str. Qed.

(** A captured amount has no white space at either end. *)
Lemma strip_amount (u : string) : amount_shape u -> strip u = u.
Proof.
  intros (a & d1 & d2 & -> & Ha & Hne & Hd1 & Hd2).
  unfold strip, strip_by.
  destruct a as [|c a]; [congruence|].
  simpl in Ha. apply andb_true_iff in Ha. destruct Ha as [Hc _].
  rewrite app_cons, lstrip_head by now apply amount_char_not_space.
  rewrite <- app_cons, amount_tail_assoc.
  apply rstrip_last. now apply digit_not_space.
Qed.

Lemma nonempty_amount (u : string) : amount_shape u -> nonempty u = true.
Proof.
  intros (a & d1 & d2 & -> & _). destruct a; reflexivity.
Qed.

Lemma read_digits_run (a rest : string) :
  all_chars is_digit a = true ->
  forall acc count,
  exists acc', PyFloat.read_digits (a +:+ rest) acc count
               = PyFloat.read_digits rest acc' (count + String.length a).
Proof.
  induction a as [|c a IH]; intros Ha acc count.
  - exists acc. now rewrite app_nil_l, Nat.add_0_r.
  - simpl in Ha. apply andb_true_iff in Ha. destruct Ha as [Hc Ha].
    rewrite app_cons. simpl. unfold is_digit in Hc. rewrite Hc.
    destruct (IH Ha (10 * acc + PyFloat.digit_val c)%N (S count)) as [acc' E].
    exists acc'. rewrite E. f_equal. lia.
Qed.

Lemma read_digits_end (acc : N) (count : nat) :
  PyFloat.read_digits EmptyString acc count = (acc, count, EmptyString).
Proof. reflexivity. Qed.

(** The text digits-point-two-digits is a decimal literal with two
    digits after the point. *)
Lemma parse_decimal_amount (a : string) (d1 d2 : ascii) :
  all_chars is_digit a = true -> is_digit d1 = true -> is_digit d2 = true ->
  exists n, PyFloat.parse_decimal (a +:+ String "." (String d1 (String d2 EmptyString)))
            = Some (n, 2%nat).
Proof.
  intros Ha Hd1 Hd2. unfold PyFloat.parse_decimal.
  destruct (read_digits_run a (String "." (String d1 (String d2 EmptyString))) Ha 0%N O)
    as [ip E].
  rewrite E. simpl.
  unfold is_digit in Hd1, Hd2. rewrite Hd1, Hd2.
  rewrite Nat.add_comm. simpl. eauto.
Qed.

Lemma all_plain_strip (s : string) :
  all_chars is_plain_char s = true -> strip_by PyFloat.is_float_space s = s.
Proof.
  intros H. unfold strip_by.
  assert (Hl : lstrip_by PyFloat.is_float_space s = s).
  { destruct s as [|c s]; [reflexivity|].
    simpl in H. apply andb_true_iff in H. destruct H as [Hc _].
    apply lstrip_head. now apply plain_not_space. }
  rewrite Hl. clear Hl.
  induction s as [|c s IH]; [reflexivity|].
  simpl in H. apply andb_true_iff in H. destruct H as [Hc Hs].
  simpl. rewrite (IH Hs). rewrite (plain_not_space c Hc).
  destruct s; reflexivity.
Qed.

(** [float] of an unsigned plain literal. *)
Lemma float_plain (s : string) (n : N) (scale : nat) :
  all_chars is_plain_char s = true ->
  PyFloat.parse_decimal s = Some (n, scale) ->
  PyFloat.float s = Ret (Float64.of_decimal n scale).
Proof.
  intros Hs Hp. unfold PyFloat.float. rewrite (all_plain_strip s Hs).
  destruct s as [|c s].
  - now rewrite Hp.
  - simpl in Hs. apply andb_true_iff in Hs. destruct Hs as [Hc _].
    destruct (plain_not_sign c Hc) as [-> ->]. now rewrite Hp.
Qed.

Lemma digits_plain (a : string) :
  all_chars is_digit a = true -> all_chars is_plain_char a = true.
Proof.
  induction a as [|c a IH]; simpl; [reflexivity|].
  intros H. apply andb_true_iff in H. destruct H as [Hc Ha].
  rewrite (IH Ha). unfold is_plain_char. rewrite Hc. reflexivity.
Qed.

(** What [extract_amounts] does with a captured amount always succeeds:
    the text without separators is a literal with two decimals. *)
Lemma float_of_amount (u : string) :
  amount_shape u ->
  exists n, PyFloat.float (remove "$" (remove "," (strip u)))
            = Ret (Float64.of_decimal n 2).
Proof.
  intros Hu. rewrite (strip_amount u Hu).
  destruct Hu as (a & d1 & d2 & -> & Ha & _ & Hd1 & Hd2).
  rewrite !remove_app.
  pose proof (remove_separators a Ha) as Ha'.
  set (a' := remove "$" (remove "," a)) in *.
  destruct (digit_kept d1 Hd1) as [E1 E1'], (digit_kept d2 Hd2) as [E2 E2'].
  assert (Etail : remove "$" (remove "," (String "." (String d1 (String d2 EmptyString))))
                  = String "." (String d1 (String d2 EmptyString))).
  { simpl. rewrite E1, E2. simpl. rewrite E1', E2'. reflexivity. }
  rewrite Etail.
  destruct (parse_decimal_amount a' d1 d2 Ha' Hd1 Hd2) as [n Hn].
  exists n. apply float_plain; [|exact Hn].
  rewrite all_chars_app, (digits_plain a' Ha'). simpl.
  unfold is_plain_char. rewrite Hd1, Hd2. reflexivity.
Qed.

End AmountParse.

(* ===================================================================== *)
(** ** extract_amounts *)
(* ===================================================================== *)

Section ExtractAmounts.
Import PyStr Re PatternExtractor.

Lemma Forall_none_no_match (text : string) (ps : list regex) :
  Forall (fun p => search p text = None) ps ->
  ~ exists p, In p ps /\ search p text <> None.
Proof.
  intros Hall (p & Hin & Hp). rewrite Forall_forall in Hall.
  apply Hp, Hall. now apply list_elem_of_In.
Qed.

Lemma extract_field_absent (text ft : string) :
  extract_field text ft = Ret (None, Float64.zero) <-> ~ field_matches text ft.
Proof.
  unfold extract_field, field_matches.
  destruct (extract_field_from_spec text (patterns_of ft) (patterns_of_sets_group ft) 0)
    as [[Hall H]|(j & p & m & g & Hj & _ & Hs & _ & H)].
  - split; [intros _; now apply Forall_none_no_match | intros _; exact H].
  - split.
    + rewrite H. discriminate.
    + intros Hno. exfalso. apply Hno. exists p. split.
      * apply list_elem_of_In. eapply list_elem_of_lookup_2; eauto.
      * congruence.
Qed.

(** On an amount field, a match yields a text of the amount shape. *)
Lemma extract_field_amount (text ft key : string) :
  In (ft, key) amount_fields ->
  (~ field_matches text ft /\ extract_field text ft = Ret (None, Float64.zero))
  \/
  (field_matches text ft /\
   exists u j, (j < 3)%nat /\ amount_shape u /\
               extract_field text ft = Ret (Some u, confidence_of j)).
Proof.
  intros Hin. pose proof (amount_rules ft key Hin) as Hrules.
  pose proof (extract_field_absent text ft) as Habs.
  unfold extract_field in *.
  destruct (extract_field_from_spec text (patterns_of ft) (patterns_of_sets_group ft) 0)
    as [[Hall H]|(j & p & m & g & Hj & _ & Hs & Hg & H)].
  - left. split; [now apply Habs | exact H].
  - right. split.
    + exists p. split; [|congruence].
      apply list_elem_of_In. eapply list_elem_of_lookup_2; eauto.
    + rewrite Forall_forall in Hrules.
      destruct (Hrules p) as [label ->]; [eapply list_elem_of_lookup_2; eauto|].
      destruct (search_amount_after label text m Hs) as (v & Hv & Hshape).
      assert (v = g) by congruence. subst v.
      exists g, j. rewrite (strip_amount g Hshape) in H.
      repeat split; auto.
      apply lookup_some_lt in Hj. pose proof (patterns_of_short ft). lia.
Qed.

Lemma amount_entry_spec (text ft key : string) :
  In (ft, key) amount_fields ->
  (~ field_matches text ft /\ amount_entry text ft = None)
  \/
  (field_matches text ft /\
   exists n j, (j < 3)%nat /\
               amount_entry text ft = Some (Float64.of_decimal n 2, confidence_of j)).
Proof.
  intros Hin. unfold amount_entry.
  destruct (extract_field_amount text ft key Hin)
    as [[Hno ->]|(Hm & u & j & Hj & Hshape & ->)].
  - left. split; [exact Hno | reflexivity].
  - right. split; [exact Hm|].
    destruct (float_of_amount u Hshape) as [n Hn].
    rewrite (strip_amount u Hshape) in Hn. rewrite Hn. eauto.
Qed.

Lemma add_amount_spec (text ft key : string)
      (amounts : gmap string (Float64.float * Float64.float)) :
  In (ft, key) amount_fields ->
  add_amount text ft key amounts = Ret (store key (amount_entry text ft) amounts).
Proof.
  intros Hin. unfold add_amount, amount_entry, store.
  destruct (extract_field_amount text ft key Hin)
    as [[Hno ->]|(Hm & u & j & Hj & Hshape & ->)]; simpl.
  - reflexivity.
  - rewrite (nonempty_amount u Hshape).
    destruct (float_of_amount u Hshape) as [n Hn].
    rewrite (strip_amount u Hshape) in Hn. rewrite Hn. reflexivity.
Qed.

(** [extract_amounts] returns, with the three entries stored in turn. *)
Lemma extract_amounts_spec (text : string) :
  extract_amounts text =
  Ret (store "subtotal" (amount_entry text "subtotal")
         (store "tax" (amount_entry text "tax_amount")
            (store "total" (amount_entry text "total_amount") ∅))).
Proof.
  unfold extract_amounts.
  rewrite (add_amount_spec text "total_amount" "total") by (simpl; auto). simpl.
  rewrite (add_amount_spec text "tax_amount" "tax") by (simpl; auto). simpl.
  rewrite (add_amount_spec text "subtotal" "subtotal") by (simpl; auto).
  reflexivity.
Qed.

Lemma lookup_store (key k : string) (e : option (Float64.float * Float64.float))
      (amounts : gmap string (Float64.float * Float64.float)) :
  store key e amounts !! k =
  if decide (key = k) then (match e with Some x => Some x | None => amounts !! k end)
  else amounts !! k.
Proof.
  unfold store. destruct e as [x|].
  - rewrite lookup_insert. destruct (decide (key = k)); reflexivity.
  - destruct (decide (key = k)); reflexivity.
Qed.

End ExtractAmounts.

(* ===================================================================== *)
(** ** extract_invoice_fields *)
(* ===================================================================== *)

Section Assembler.
Import PyStr Re PatternExtractor InvoiceFieldExtractor.

Variable PyPDF2_present : bool.
Variable read_pages : string -> outcome (list string).
Variable glob_pdf : string -> option (list string).

Abbreviation extract_text := (extract_text PyPDF2_present read_pages).
Abbreviation extract_invoice_fields := (extract_invoice_fields PyPDF2_present read_pages).
Abbreviation extract_multiple_invoices :=
  (extract_multiple_invoices PyPDF2_present read_pages glob_pdf).
Abbreviation decode := (decode PyPDF2_present read_pages).
Abbreviation decode_log := (decode_log PyPDF2_present read_pages).
Abbreviation record_for := (record_for PyPDF2_present read_pages).
Abbreviation log_for := (log_for PyPDF2_present read_pages).

Lemma amounts_lookup (text : string) :
  let amounts := store "subtotal" (amount_entry text "subtotal")
                   (store "tax" (amount_entry text "tax_amount")
                      (store "total" (amount_entry text "total_amount") ∅)) in
  amounts !! "total" = amount_entry text "total_amount" /\
  amounts !! "tax" = amount_entry text "tax_amount" /\
  amounts !! "subtotal" = amount_entry text "subtotal".
Proof.
  simpl. rewrite !lookup_store.
  repeat split; repeat case_decide; try congruence;
    rewrite ?lookup_empty;
    repeat match goal with |- context [amount_entry ?t ?f] =>
             destruct (amount_entry t f); try reflexivity end.
Qed.

Lemma extract_field_value (text ft : string) :
  extract_field text ft = Ret (field_value text ft).
Proof.
  unfold field_value. destruct (extract_field_returns text ft) as [r ->]. reflexivity.
Qed.

Lemma extract_invoice_fields_decoded (pdf_path text : string) (lg lg1 : log) :
  extract_text pdf_path lg = (Ret text, lg1) ->
  extract_invoice_fields pdf_path lg
  = (Ret (assembled (path_name pdf_path) text), lg1 ++ [info_extracted pdf_path]).
Proof.
  intros Ht.
  unfold InvoiceFieldExtractor.extract_invoice_fields, extract_invoice_fields_body,
    try_except, bind, with_log, call, assign, invoice, ret, logger.
  rewrite Ht.
  rewrite !extract_field_value, extract_amounts_spec.
  destruct (amounts_lookup text) as (-> & -> & ->).
  unfold assembled, amount_value, overall_confidence.
  destruct (field_value text "invoice_number") as [n nc].
  destruct (field_value text "invoice_date") as [d dc].
  destruct (field_value text "due_date") as [du duc].
  destruct (extract_vendor_name text) as [vn vc].
  destruct (amount_entry text "total_amount") as [[tv tc]|];
    destruct (amount_entry text "tax_amount") as [[xv xc]|];
    destruct (amount_entry text "subtotal") as [[sv sc]|]; reflexivity.
Qed.

Lemma extract_invoice_fields_failed (pdf_path : string) (e : exn) (lg lg1 : log) :
  extract_text pdf_path lg = (Raise e, lg1) ->
  extract_invoice_fields pdf_path lg
  = (Ret (new_invoice (path_name pdf_path)), lg1 ++ [error_extracting pdf_path e]).
Proof.
  intros Ht.
  unfold InvoiceFieldExtractor.extract_invoice_fields, extract_invoice_fields_body,
    try_except, bind, with_log, call, assign, invoice, ret, logger.
  rewrite Ht. reflexivity.
Qed.

(** *** The overall confidence *)

Lemma nonneg_positive_iff_nonzero (c : Float64.float) :
  nonneg c -> Float64.ltb Float64.zero c = negb (SFeqb c Float64.zero).
Proof. destruct c as [s|s| |s m e]; simpl; intros H; subst; try reflexivity; tauto. Qed.

Lemma overall_is_mean_of_nonzero (cs : list Float64.float) :
  Forall nonneg cs -> overall_confidence cs = mean_of_nonzero cs.
Proof.
  intros H. unfold overall_confidence, mean_of_nonzero.
  replace (List.filter (fun c => negb (SFeqb c Float64.zero)) cs)
    with (List.filter (fun c => Float64.ltb Float64.zero c) cs); [reflexivity|].
  induction H as [|c cs Hc _ IH]; simpl; [reflexivity|].
  rewrite (nonneg_positive_iff_nonzero c Hc), IH. reflexivity.
Qed.

Lemma confidence_of_nonneg (j : nat) : (j < 3)%nat -> nonneg (confidence_of j).
Proof.
  intros H. rewrite confidence_of_rank by exact H. apply of_decimal_nonneg.
Qed.

Lemma rule_confidence_cases (text ft : string) :
  rule_confidence text ft = Float64.zero \/
  exists j, (j < 3)%nat /\ rule_confidence text ft = confidence_of j.
Proof.
  unfold rule_confidence, field_value.
  destruct (extract_field_cases text ft) as [->|(v & j & Hj & ->)]; simpl; eauto.
Qed.

Lemma rule_confidence_nonneg (text ft : string) : nonneg (rule_confidence text ft).
Proof.
  destruct (rule_confidence_cases text ft) as [->|(j & Hj & ->)];
    [exact I | now apply confidence_of_nonneg].
Qed.

Lemma contributions_nonneg (r : ExtractedInvoice) : Forall nonneg (contributions r).
Proof.
  unfold contributions. repeat constructor.
  - destruct (nonempty (invoice_number r)); [apply rule_confidence_nonneg | exact I].
  - destruct (nonempty (invoice_date r)); [apply rule_confidence_nonneg | exact I].
  - destruct (Float64.ltb Float64.zero (total_amount r)); [apply of_decimal_nonneg | exact I].
Qed.

Lemma mean_of_zeros (cs : list Float64.float) :
  Forall (fun c => c = Float64.zero) cs -> mean_of_nonzero cs = Float64.zero.
Proof.
  intros H. unfold mean_of_nonzero.
  replace (List.filter (fun c => negb (SFeqb c Float64.zero)) cs) with (@nil Float64.float);
    [reflexivity|].
  induction H as [|c cs -> _ IH]; simpl; [reflexivity | exact IH].
Qed.

Lemma assembled_confidence (name text : string) :
  confidence_score (assembled name text)
  = overall_confidence (contributions (assembled name text)).
Proof. reflexivity. Qed.

(** C1. Whatever the document, [extract_invoice_fields] returns a record
    whose [confidence_score] is the mean of the non-zero contributions
    among the invoice-number confidence (when the number is non-empty),
    the invoice-date confidence (when the date is non-empty) and 0.8 (when
    [total_amount] is positive); it is 0 when all three are zero. *)
Theorem confidence_score_is_mean_of_nonzero (pdf_path : string) (lg : log) :
  exists r lg',
    extract_invoice_fields pdf_path lg = (Ret r, lg') /\
    confidence_score r = mean_of_nonzero (contributions r) /\
    (Forall (fun c => c = Float64.zero) (contributions r) ->
     confidence_score r = Float64.zero).
Proof.
  destruct (extract_text pdf_path lg) as [[text|e] lg1] eqn:Ht.
  - eexists _, _. split; [apply (extract_invoice_fields_decoded _ _ _ _ Ht)|].
    rewrite assembled_confidence.
    rewrite overall_is_mean_of_nonzero by apply contributions_nonneg.
    split; [reflexivity | apply mean_of_zeros].
  - eexists _, _. split; [apply (extract_invoice_fields_failed _ _ _ _ Ht)|].
    split; [reflexivity | intros _; reflexivity].
Qed.

(** *** Bounds on the record *)

Lemma rule_confidence_rank (text ft : string) : In (rule_confidence text ft) ranks.
Proof.
  destruct (rule_confidence_cases text ft) as [->|(j & Hj & ->)]; simpl; auto.
  destruct j as [|[|[|j]]]; auto; lia.
Qed.

Lemma overall_confidence_unit (a b c : Float64.float) :
  In a ranks -> In b ranks -> In c [Float64.zero; Float64.f0_8] ->
  Float64.leb Float64.zero (overall_confidence [a; b; c]) = true /\
  Float64.leb (overall_confidence [a; b; c]) Float64.f1_0 = true.
Proof.
  simpl. intros Ha Hb Hc.
  repeat match goal with
         | H : _ \/ _ |- _ => destruct H as [H|H]
         | H : False |- _ => destruct H
         end; subst; vm_compute; split; reflexivity.
Qed.

(** On the confidences that occur, the compensated sum of CPython 3.12
    is the sum from the left: the model does not depend on the version. *)
Lemma sum_versions_agree (a b c : Float64.float) :
  In a ranks -> In b ranks -> In c [Float64.zero; Float64.f0_8] ->
  let valid := List.filter (fun x => Float64.ltb Float64.zero x) [a; b; c] in
  Float64.sum_compensated valid = Float64.sum valid.
Proof.
  simpl In. intros Ha Hb Hc.
  repeat match goal with
         | H : _ \/ _ |- _ => destruct H as [H|H]
         | H : False |- _ => destruct H
         end; subst; vm_compute; reflexivity.
Qed.

Lemma amount_value_nonneg (text ft key : string) :
  In (ft, key) amount_fields -> nonneg (amount_value text ft).
Proof.
  intros Hin. unfold amount_value.
  destruct (amount_entry_spec text ft key Hin) as [[_ ->]|(_ & n & j & _ & ->)];
    [exact I | apply of_decimal_nonneg].
Qed.

(** C8. The record [extract_invoice_fields] returns has its
    [confidence_score] within [0, 1] and its three monetary fields at
    least 0. *)
Theorem record_within_bounds (pdf_path : string) (lg : log) :
  exists r lg',
    extract_invoice_fields pdf_path lg = (Ret r, lg') /\
    Float64.leb Float64.zero (confidence_score r) = true /\
    Float64.leb (confidence_score r) Float64.f1_0 = true /\
    Float64.leb Float64.zero (subtotal r) = true /\
    Float64.leb Float64.zero (tax_amount r) = true /\
    Float64.leb Float64.zero (total_amount r) = true.
Proof.
  destruct (extract_text pdf_path lg) as [[text|e] lg1] eqn:Ht.
  - eexists _, _. split; [apply (extract_invoice_fields_decoded _ _ _ _ Ht)|].
    assert (Hconf := overall_confidence_unit
      (if nonempty (invoice_number (assembled (path_name pdf_path) text))
       then rule_confidence text "invoice_number" else Float64.zero)
      (if nonempty (invoice_date (assembled (path_name pdf_path) text))
       then rule_confidence text "invoice_date" else Float64.zero)
      (if Float64.ltb Float64.zero (total_amount (assembled (path_name pdf_path) text))
       then Float64.f0_8 else Float64.zero)).
    destruct Hconf as [H0 H1].
    + destruct (nonempty _); [apply rule_confidence_rank | simpl; auto].
    + destruct (nonempty _); [apply rule_confidence_rank | simpl; auto].
    + destruct (Float64.ltb _ _); simpl; auto.
    + split; [exact H0|]. split; [exact H1|].
      repeat split; apply nonneg_leb; simpl.
      * apply (amount_value_nonneg text "subtotal" "subtotal"). simpl. auto.
      * apply (amount_value_nonneg text "tax_amount" "tax"). simpl. auto.
      * apply (amount_value_nonneg text "total_amount" "total"). simpl. auto.
  - eexists _, _. split; [apply (extract_invoice_fields_failed _ _ _ _ Ht)|].
    repeat split; reflexivity.
Qed.

(** *** Decoding failures and batches *)

Lemma extract_text_decode (pdf_path : string) (lg : log) :
  extract_text pdf_path lg = (decode pdf_path, lg ++ decode_log pdf_path).
Proof.
  unfold decode, decode_log, InvoiceFieldExtractor.extract_text.
  destruct PyPDF2_present; simpl.
  - unfold try_except, bind, call, ret, raise, logger.
    destruct (read_pages pdf_path) as [pages|e]; simpl.
    + now rewrite app_nil_r.
    + reflexivity.
  - unfold raise. simpl. now rewrite app_nil_r.
Qed.

Lemma extract_invoice_fields_total (pdf_path : string) (lg : log) :
  extract_invoice_fields pdf_path lg = (Ret (record_for pdf_path), lg ++ log_for pdf_path).
Proof.
  pose proof (extract_text_decode pdf_path lg) as Ht.
  unfold record_for, log_for. rewrite app_assoc.
  destruct (decode pdf_path) as [text|e].
  - apply extract_invoice_fields_decoded. exact Ht.
  - apply extract_invoice_fields_failed. exact Ht.
Qed.

Lemma record_for_file_name (pdf_path : string) :
  file_name (record_for pdf_path) = path_name pdf_path.
Proof. unfold record_for. destruct (decode pdf_path); reflexivity. Qed.

Lemma extract_each_total (files : list string) :
  forall invoices lg,
    extract_each PyPDF2_present read_pages files invoices lg
    = (Ret (invoices ++ map record_for files), lg ++ flat_map log_for files).
Proof.
  induction files as [|pdf_file rest IH]; intros invoices lg; simpl.
  - unfold ret. now rewrite !app_nil_r.
  - unfold bind at 1. unfold try_except, bind at 1.
    rewrite extract_invoice_fields_total. unfold ret at 1.
    rewrite IH. rewrite <- !app_assoc. reflexivity.
Qed.

Lemma extract_multiple_invoices_total (directory : string) (files : list string) (lg : log) :
  glob_pdf directory = Some files ->
  extract_multiple_invoices directory lg
  = (Ret (map record_for files), lg ++ flat_map log_for files).
Proof.
  intros Hg. unfold InvoiceFieldExtractor.extract_multiple_invoices. rewrite Hg.
  apply (extract_each_total files [] lg).
Qed.

Lemma log_for_failed (pdf_path : string) (e : exn) :
  decode pdf_path = Raise e -> In (error_extracting pdf_path e) (log_for pdf_path).
Proof.
  intros H. unfold log_for. rewrite H. apply in_or_app. right. simpl. auto.
Qed.

(** C9. [extract_invoice_fields] never raises: it returns a record whose
    [file_name] is the base name of the path; when decoding raised, that
    is the record with every other field at its default, and the failure
    is logged.  So [extract_multiple_invoices] yields one record for each
    PDF file, the files that failed to decode included. *)
Theorem extract_invoice_fields_never_raises (pdf_path : string) (lg : log) :
  (exists r lg',
      extract_invoice_fields pdf_path lg = (Ret r, lg') /\
      file_name r = path_name pdf_path /\
      (forall e, decode pdf_path = Raise e ->
                 r = new_invoice (path_name pdf_path) /\
                 In (error_extracting pdf_path e) lg'))
  /\
  (forall directory files,
      glob_pdf directory = Some files ->
      exists rs lg',
        extract_multiple_invoices directory lg = (Ret rs, lg') /\
        length rs = length files /\
        map file_name rs = map path_name files).
Proof.
  split.
  - exists (record_for pdf_path), (lg ++ log_for pdf_path).
    split; [apply extract_invoice_fields_total|].
    split; [apply record_for_file_name|].
    intros e He. split.
    + unfold record_for. now rewrite He.
    + apply in_or_app. right. now apply log_for_failed.
  - intros directory files Hg.
    exists (map record_for files), (lg ++ flat_map log_for files).
    split; [now apply extract_multiple_invoices_total|].
    split; [apply length_map|].
    rewrite map_map. apply map_ext. intros p. apply record_for_file_name.
Qed.

(** C2, as the code has it. A batch of N documents yields N records, in
    the order of the input, whether or not a decoding fails: a document
    whose decoding raises is logged, not raised to the caller, and stands
    in the output as the record that holds its file name and defaults. *)
Theorem batch_keeps_failed_documents (directory : string) (files : list string) (lg : log) :
  glob_pdf directory = Some files ->
  exists rs lg',
    extract_multiple_invoices directory lg = (Ret rs, lg') /\
    length rs = length files /\
    forall i pdf_file e,
      files !! i = Some pdf_file -> decode pdf_file = Raise e ->
      rs !! i = Some (new_invoice (path_name pdf_file)) /\
      In (error_extracting pdf_file e) lg'.
Proof.
  intros Hg.
  exists (map record_for files), (lg ++ flat_map log_for files).
  split; [now apply extract_multiple_invoices_total|].
  split; [apply length_map|].
  intros i pdf_file e Hi He. split.
  - rewrite list_lookup_fmap, Hi. simpl. unfold record_for. now rewrite He.
  - apply in_or_app. right. apply in_flat_map. exists pdf_file. split.
    + apply list_elem_of_In. eapply list_elem_of_lookup_2; eauto.
    + now apply log_for_failed.
Qed.

End Assembler.

(* ===================================================================== *)
(** ** Properties of the field extractor *)
(* ===================================================================== *)

Section FieldExtractorProperties.
Import PyStr Re PatternExtractor.

(** C4. For a recognized field type, when the rule of index [i] is the
    first with a match, [extract_field] returns the text of its group,
    trimmed, whatever the later rules would do, with the confidence
    [1.0 - i * 0.1]: the binary64 number nearest to 1 - i/10, within
    1e-15 of it, and not negative. *)
Theorem extract_field_first_match
        (text ft : string) (ps : list regex) (i : nat) (p : regex) (m : match_obj) :
  PATTERNS !! ft = Some ps ->
  ps !! i = Some p ->
  (forall j q, (j < i)%nat -> ps !! j = Some q -> search q text = None) ->
  search p text = Some m ->
  exists g,
    group1 m = Some g /\
    extract_field text ft = Ret (Some (strip g), confidence_of i) /\
    confidence_of i = Float64.of_decimal (N.of_nat (10 - i)) 1 /\
    (Qabs (Float64.to_Q (confidence_of i) - (1 - inject_Z (Z.of_nat i) / 10))
     <= 1 / 1000000000000000)%Q /\
    Float64.leb Float64.zero (confidence_of i) = true.
Proof.
  intros Hft Hi Hfirst Hs.
  assert (Hps : patterns_of ft = ps) by (unfold patterns_of; now rewrite Hft).
  assert (Hi3 : (i < 3)%nat).
  { apply lookup_some_lt in Hi. pose proof (PATTERNS_short ft ps Hft). lia. }
  unfold extract_field. rewrite Hps.
  destruct (extract_field_from_spec text ps (PATTERNS_sets_group ft ps Hft) 0)
    as [[Hall _]|(j & q & m' & g & Hj & Hbefore & Hq & Hg & H)].
  - rewrite Forall_forall in Hall.
    rewrite Hall in Hs by (eapply list_elem_of_lookup_2; eauto). discriminate.
  - assert (j = i).
    { destruct (Nat.lt_trichotomy j i) as [Hlt|[Heq|Hgt]]; [|exact Heq|].
      - rewrite (Hfirst j q Hlt Hj) in Hq. discriminate.
      - rewrite (Hbefore i p Hgt Hi) in Hs. discriminate. }
    subst j. assert (q = p) by congruence. subst q.
    assert (m' = m) by congruence. subst m'.
    exists g. split; [exact Hg|]. split; [exact H|].
    split; [now apply confidence_of_rank|].
    split.
    + destruct i as [|[|[|i]]]; try lia; vm_compute; discriminate.
    + apply nonneg_leb. now apply confidence_of_nonneg.
Qed.

(** C6. [extract_field] never raises.  A field type that is not in the
    table gives the absent value with confidence 0.0, and so does a field
    type of the table none of whose rules matches. *)
Theorem extract_field_never_raises (text ft : string) :
  (exists r, extract_field text ft = Ret r) /\
  (PATTERNS !! ft = None -> extract_field text ft = Ret (None, Float64.zero)) /\
  (forall ps, PATTERNS !! ft = Some ps ->
              (forall p, In p ps -> search p text = None) ->
              extract_field text ft = Ret (None, Float64.zero)).
Proof.
  split; [apply extract_field_returns|]. split.
  - intros Hft. unfold extract_field, patterns_of. rewrite Hft. reflexivity.
  - intros ps Hft Hnone. apply extract_field_absent.
    intros (p & Hin & Hp). apply Hp. apply Hnone.
    unfold patterns_of in Hin. rewrite Hft in Hin. exact Hin.
Qed.

(** C7. [extract_amounts] returns a mapping that has the key of an amount
    type exactly when a rule of its field type matches the text, the
    entry then being the parsed amount; it has no other key. *)
Theorem extract_amounts_keys (text : string) :
  exists amounts,
    extract_amounts text = Ret amounts /\
    (forall ft key, In (ft, key) amount_fields ->
                    (is_Some (amounts !! key) <-> field_matches text ft) /\
                    amounts !! key = amount_entry text ft) /\
    (forall k, is_Some (amounts !! k) -> In k ["total"; "tax"; "subtotal"]).
Proof.
  eexists. split; [apply extract_amounts_spec|].
  destruct (amounts_lookup text) as (Ht & Hx & Hs). simpl in Ht, Hx, Hs.
  split.
  - intros ft key Hin.
    assert (Hl : store "subtotal" (amount_entry text "subtotal")
                   (store "tax" (amount_entry text "tax_amount")
                      (store "total" (amount_entry text "total_amount") ∅)) !! key
                 = amount_entry text ft).
    { simpl in Hin. destruct Hin as [H|[H|[H|[]]]]; inversion H; subst; assumption. }
    split; [|exact Hl]. rewrite Hl.
    destruct (amount_entry_spec text ft key Hin) as [[Hno ->]|(Hm & n & j & _ & ->)].
    + split; [intros [x Hx']; discriminate | intros Hm; contradiction].
    + split; [intros _; exact Hm | intros _; eauto].
  - intros k [x Hk]. rewrite !lookup_store in Hk.
    repeat case_decide; subst; simpl; auto.
    rewrite lookup_empty in Hk. discriminate.
Qed.

(** C10. [extract_amounts] never raises: the text a total, tax or
    subtotal rule captures is digits and commas, then a point and two
    digits; white space trimmed and "," and "$" removed, it parses as a
    decimal number that is not negative. *)
Theorem extract_amounts_never_raises (text : string) :
  (exists amounts, extract_amounts text = Ret amounts) /\
  (forall ft key p m,
      In (ft, key) amount_fields -> In p (patterns_of ft) ->
      search p text = Some m ->
      exists u n,
        group1 m = Some u /\ amount_shape u /\
        PyFloat.float (remove "$" (remove "," (strip u)))
        = Ret (Float64.of_decimal n 2) /\
        Float64.leb Float64.zero (Float64.of_decimal n 2) = true).
Proof.
  split; [eexists; apply extract_amounts_spec|].
  intros ft key p m Hin Hp Hs.
  pose proof (amount_rules ft key Hin) as Hrules.
  rewrite Forall_forall in Hrules.
  destruct (Hrules p) as [label ->]; [now apply list_elem_of_In|].
  destruct (search_amount_after label text m Hs) as (u & Hu & Hshape).
  destruct (float_of_amount u Hshape) as [n Hn].
  exists u, n. repeat split; auto.
  apply nonneg_leb, of_decimal_nonneg.
Qed.

End FieldExtractorProperties.

(* ===================================================================== *)
(** ** The vendor-name heuristic *)
(* ===================================================================== *)

Section VendorName.
Import PyStr Re PatternExtractor.

Lemma long_nonempty (s : string) : (5 <? String.length s)%nat = true -> nonempty s = true.
Proof. destruct s; [discriminate | reflexivity]. Qed.

Lemma vendor_scan_find (lines : list string) :
  vendor_scan lines = vendor_result (List.find qualifies lines).
Proof.
  induction lines as [|line rest IH]; [reflexivity|].
  cbn [vendor_scan List.find]. rewrite IH. unfold qualifies.
  destruct (5 <? String.length (strip line))%nat eqn:H5.
  - rewrite (long_nonempty _ H5).
    destruct (String.length (strip line) <? 100)%nat; [|reflexivity].
    destruct (existsb (fun keyword => contains keyword (lower (strip line))) stoplist);
      reflexivity.
  - now rewrite andb_false_r.
Qed.

(** C5, as the code has it. [extract_vendor_name] scans the first 20
    lines of the text, blank lines counted among them, and returns the
    first that qualifies, trimmed, with confidence 0.7; when none of them
    qualifies it returns the empty string with confidence 0.0. *)
Theorem extract_vendor_name_first_20_lines (text : string) :
  extract_vendor_name text
  = vendor_result (List.find qualifies (firstn 20 (split newline text)))
  /\ Float64.f0_7 = Float64.of_decimal 7 1.
Proof.
  split; [|reflexivity]. unfold extract_vendor_name. apply vendor_scan_find.
Qed.

Lemma firstn_filter_all {A} (P : A -> bool) (n : nat) (l : list A) :
  forallb P (firstn n l) = true -> firstn n (List.filter P l) = firstn n l.
Proof.
  revert l. induction n as [|n IH]; intros l H; [reflexivity|].
  destruct l as [|x l]; [reflexivity|].
  simpl in H. apply andb_true_iff in H. destruct H as [Hx Hl].
  simpl. rewrite Hx. simpl. now rewrite IH.
Qed.

(** Where none of the first 20 lines is blank, the code does what the
    specification says. *)
Lemma extract_vendor_name_no_blank (text : string) :
  forallb (fun line => nonempty (strip line)) (firstn 20 (split newline text)) = true ->
  extract_vendor_name text = vendor_name_spec text.
Proof.
  intros H. unfold vendor_name_spec. rewrite (firstn_filter_all _ _ _ H).
  unfold extract_vendor_name. apply vendor_scan_find.
Qed.

(** C5 fails as stated: after twenty blank lines the code finds no
    vendor, where the first 20 non-empty lines have one. *)
Lemma vendor_after_blank_lines_missed :
  extract_vendor_name blank_lines_then_vendor = (EmptyString, Float64.zero) /\
  vendor_name_spec blank_lines_then_vendor = ("Acme Corporation", Float64.f0_7) /\
  extract_vendor_name blank_lines_then_vendor <> vendor_name_spec blank_lines_then_vendor.
Proof.
  assert (H1 : extract_vendor_name blank_lines_then_vendor = (EmptyString, Float64.zero))
    by (vm_compute; reflexivity).
  assert (H2 : vendor_name_spec blank_lines_then_vendor = ("Acme Corporation", Float64.f0_7))
    by (vm_compute; reflexivity).
  split; [exact H1|]. split; [exact H2|]. rewrite H1, H2. discriminate.
Qed.

End VendorName.

(* ===================================================================== *)
(** ** End to end *)
(* ===================================================================== *)

Section EndToEnd.
Import PyStr Re PatternExtractor InvoiceFieldExtractor.

(** C3, at its input. From the sample text the number, the date, the
    subtotal and the tax are the expected ones and the confidence lies
    strictly between 0.8 and 1.0, but [total_amount] is 100.00, the
    amount of the "Subtotal" line, in which the first total rule finds
    "total"; it is not 108.00. *)
Theorem sample_text_total_is_subtotal
        (PyPDF2_present : bool) (read_pages : string -> outcome (list string))
        (pdf_path : string) (lg : log) :
  decode PyPDF2_present read_pages pdf_path = Ret sample_text ->
  exists r lg',
    extract_invoice_fields PyPDF2_present read_pages pdf_path lg = (Ret r, lg') /\
    invoice_number r = "INV-2024-001" /\
    invoice_date r = "01/15/2024" /\
    subtotal r = Float64.of_decimal 10000 2 /\
    tax_amount r = Float64.of_decimal 800 2 /\
    total_amount r = Float64.of_decimal 10000 2 /\
    total_amount r <> Float64.of_decimal 10800 2 /\
    Float64.ltb Float64.f0_8 (confidence_score r) = true /\
    Float64.ltb (confidence_score r) Float64.f1_0 = true.
Proof.
  intros Hd. eexists _, _.
  split; [apply extract_invoice_fields_total|].
  unfold record_for. rewrite Hd.
  repeat split; try (vm_compute; reflexivity).
  vm_compute. discriminate.
Qed.

End EndToEnd.

(* ===================================================================== *)
(** ** Instances *)
(* ===================================================================== *)

Section Instances.
Import PyStr Re PatternExtractor InvoiceFieldExtractor.

(** C2 fails as stated: of two documents one fails to decode, and the
    batch has two records, not one. *)
Lemma batch_of_two_with_one_failure :
  decode true second_unreadable "invoices/a.pdf" = Ret "Total: $5.00" /\
  decode true second_unreadable "invoices/bad.pdf"
  = Raise (Exn "PdfReadError" "EOF marker not found") /\
  exists rs lg',
    extract_multiple_invoices true second_unreadable two_files "invoices" []
    = (Ret rs, lg') /\
    length rs = 2%nat /\ length rs <> (2 - 1)%nat.
Proof.
  split; [reflexivity|]. split; [reflexivity|].
  eexists _, _. split; [vm_compute; reflexivity|].
  split; [reflexivity | discriminate].
Qed.

Lemma batch_keeps_failed_documents_witness :
  exists rs lg',
    extract_multiple_invoices true second_unreadable two_files "invoices" []
    = (Ret rs, lg') /\
    length rs = 2%nat /\
    forall i pdf_file e,
      ["invoices/a.pdf"; "invoices/bad.pdf"] !! i = Some pdf_file ->
      decode true second_unreadable pdf_file = Raise e ->
      rs !! i = Some (new_invoice (path_name pdf_file)) /\
      In (error_extracting pdf_file e) lg'.
Proof.
  exact (batch_keeps_failed_documents true second_unreadable two_files
           "invoices" ["invoices/a.pdf"; "invoices/bad.pdf"] [] eq_refl).
Defined.

Lemma sample_text_total_is_subtotal_witness :
  exists r lg',
    extract_invoice_fields true (fun _ => Ret [sample_text]) "invoices/inv-001.pdf" []
    = (Ret r, lg') /\
    invoice_number r = "INV-2024-001" /\
    invoice_date r = "01/15/2024" /\
    subtotal r = Float64.of_decimal 10000 2 /\
    tax_amount r = Float64.of_decimal 800 2 /\
    total_amount r = Float64.of_decimal 10000 2 /\
    total_amount r <> Float64.of_decimal 10800 2 /\
    Float64.ltb Float64.f0_8 (confidence_score r) = true /\
    Float64.ltb (confidence_score r) Float64.f1_0 = true.
Proof.
  exact (sample_text_total_is_subtotal true (fun _ => Ret [sample_text])
           "invoices/inv-001.pdf" [] eq_refl).
Defined.

(** The aggregate of the confidences 1.0, 0.9 and 0.8 is 0.9. *)
Lemma mean_of_three_ranks :
  mean_of_nonzero [Float64.f1_0; Float64.f0_9; Float64.f0_8] = Float64.f0_9.
Proof. vm_compute. reflexivity. Qed.

(** The second invoice-number rule is the first to match the text
    Invoice: AB-1234. *)
Lemma extract_field_first_match_witness :
  exists g,
    group1 {| group1 := Some "AB-1234" |} = Some g /\
    extract_field "Invoice: AB-1234" "invoice_number"
    = Ret (Some (strip g), confidence_of 1) /\
    confidence_of 1 = Float64.of_decimal (N.of_nat (10 - 1)) 1 /\
    (Qabs (Float64.to_Q (confidence_of 1) - (1 - inject_Z (Z.of_nat 1) / 10))
     <= 1 / 1000000000000000)%Q /\
    Float64.leb Float64.zero (confidence_of 1) = true.
Proof.
  refine (extract_field_first_match "Invoice: AB-1234" "invoice_number"
            (patterns_of "invoice_number") 1
            (seqs [lit "Invoice"; star space; opt (Lit "#");
                   star space_colon; Group1 (Rep id_char 4 None)])
            {| group1 := Some "AB-1234" |} _ _ _ _).
  - vm_compute. reflexivity.
  - reflexivity.
  - intros j q Hj Hq. destruct j as [|j]; [|lia].
    vm_compute in Hq. inversion Hq; subst q. vm_compute. reflexivity.
  - vm_compute. reflexivity.
Defined.

End Instances.

(* ===================================================================== *)
(** ** The matcher finds a match when there is one *)
(* ===================================================================== *)

Section MatcherComplete.
Import PyStr Re.

Lemma rep_complete {R} (a : atom) (u : string) :
  forall lo hi s1 (k : string -> option R),
    all_chars (atom_ok a) u = true ->
    (lo <= String.length u)%nat -> within hi (String.length u) ->
    is_Some (k s1) -> is_Some (rep a lo hi (u +:+ s1) k).
Proof.
  induction u as [|c u IH]; intros lo hi s1 k Hall Hlo Hhi Hk.
  - rewrite app_nil_l. simpl in Hlo. assert (lo = O) by lia. subst lo.
    destruct s1 as [|d s1]; simpl.
    + destruct hi as [[|h]|]; exact Hk.
    + destruct hi as [[|h]|]; try exact Hk;
        destruct (atom_ok a d); try exact Hk;
        match goal with |- is_Some (match ?e with _ => _ end) => destruct e end;
        eauto.
  - rewrite app_cons. simpl in Hall. apply andb_true_iff in Hall.
    destruct Hall as [Hc Hall]. simpl in Hlo, Hhi.
    assert (Hrec : forall hi', within hi' (String.length u) ->
                   is_Some (rep a (Nat.pred lo) hi' (u +:+ s1) k)).
    { intros hi' Hhi'. apply IH; auto. lia. }
    simpl. destruct hi as [[|h]|]; simpl in Hhi; [lia| |]; rewrite Hc.
    + destruct (rep a (Nat.pred lo) (option_map Nat.pred (Some (S h))) (u +:+ s1) k) eqn:E;
        [eauto|].
      specialize (Hrec (Some h)). simpl in E. rewrite E in Hrec.
      destruct Hrec as [x Hx]; [simpl; lia | discriminate].
    + destruct (rep a (Nat.pred lo) (option_map Nat.pred None) (u +:+ s1) k) eqn:E;
        [eauto|].
      specialize (Hrec None I). simpl in E. rewrite E in Hrec.
      destruct Hrec as [x Hx]. discriminate.
Qed.

Lemma exec_complete {R} (r : regex) (u : string) (g g1 : option string) :
  Matches r u g g1 ->
  forall s1 (k : string -> option string -> option R),
    is_Some (k s1 g1) -> is_Some (exec r (u +:+ s1) g k).
Proof.
  induction 1 as [g|a c g Hc|r1 r2 u1 u2 g g1 g2 _ IH1 _ IH2
                 |r1 r2 u g g1 _ IH|r1 r2 u g g1 _ IH|a lo hi u g Hall Hlo Hhi
                 |r u g g1 _ IH]; intros s1 k Hk; simpl.
  - exact Hk.
  - rewrite Hc. exact Hk.
  - rewrite app_assoc_str. apply IH1. now apply IH2.
  - destruct (IH s1 k Hk) as [x ->]. eauto.
  - destruct (exec r1 (u +:+ s1) g k); [eauto | now apply IH].
  - now apply rep_complete.
  - apply IH. now rewrite take_app.
Qed.

Lemma match_here_complete (r : regex) (u s1 : string) (g1 : option string) :
  Matches r u None g1 -> is_Some (match_here r (u +:+ s1)).
Proof.
  intros H. unfold match_here. eapply exec_complete; eauto.
Qed.

Lemma search_complete (r : regex) (pre s : string) :
  is_Some (match_here r s) -> is_Some (search r (pre +:+ s)).
Proof.
  intros H. induction pre as [|c pre IH].
  - rewrite app_nil_l. destruct s; simpl; destruct H as [m ->]; eauto.
  - rewrite app_cons. simpl. destruct (match_here r (String c (pre +:+ s))); eauto.
Qed.

(** A match found by [search] sits somewhere in the text. *)
Lemma search_sound_at (r : regex) (s : string) (m : match_obj) :
  search r s = Some m ->
  exists pre u post, s = pre +:+ (u +:+ post) /\ Matches r u None (group1 m).
Proof.
  induction s as [|c s IH]; simpl; intros H.
  - destruct (match_here r EmptyString) eqn:Hm; [|discriminate].
    inversion H; subst. apply match_here_sound in Hm.
    destruct Hm as (u & post & E & Hm). exists EmptyString, u, post. auto.
  - destruct (match_here r (String c s)) eqn:Hm.
    + inversion H; subst. apply match_here_sound in Hm.
      destruct Hm as (u & post & E & Hm). exists EmptyString, u, post. auto.
    + destruct (IH H) as (pre & u & post & -> & Hu).
      exists (String c pre), u, post. auto.
Qed.

(** A match of [r] anywhere in the text makes [search] succeed. *)
Lemma search_finds (r : regex) (pre u post : string) (g1 : option string) :
  Matches r u None g1 -> is_Some (search r (pre +:+ (u +:+ post))).
Proof.
  intros H. apply search_complete. eapply match_here_complete; eauto.
Qed.

End MatcherComplete.

(* ===================================================================== *)
(** ** What the rules capture, and which rules can win *)
(* ===================================================================== *)

Section RuleFacts.
Import PyStr Re PatternExtractor.

Lemma in_all_ascii (c : ascii) : In c all_ascii.
Proof.
  unfold all_ascii. rewrite <- (ascii_nat_embedding c).
  apply in_map. apply in_seq. pose proof (nat_ascii_bounded c). lia.
Qed.

Lemma atom_within_ok (P : ascii -> bool) (a : atom) (c : ascii) :
  atom_within P a = true -> atom_ok a c = true -> P c = true.
Proof.
  unfold atom_within. rewrite forallb_forall. intros H Hc.
  specialize (H c (in_all_ascii c)). rewrite Hc in H. exact H.
Qed.

Lemma all_chars_within (P : ascii -> bool) (a : atom) (u : string) :
  atom_within P a = true -> all_chars (atom_ok a) u = true -> all_chars P u = true.
Proof.
  intros Ha. induction u as [|c u IH]; simpl; [reflexivity|].
  intros H. apply andb_true_iff in H. destruct H as [Hc Hu].
  rewrite (atom_within_ok P a c Ha Hc). auto.
Qed.

Lemma Matches_chars_within (P : ascii -> bool) (r : regex) (u : string)
      (g g1 : option string) :
  Matches r u g g1 -> chars_within P r = true -> all_chars P u = true.
Proof.
  induction 1 as [g|a c g Hc|r1 r2 u1 u2 g g1 g2 _ IH1 _ IH2
                 |r1 r2 u g g1 _ IH|r1 r2 u g g1 _ IH|a lo hi u g Hall Hlo Hhi
                 |r u g g1 _ IH]; simpl; intros HP.
  - reflexivity.
  - now rewrite (atom_within_ok P a c HP Hc).
  - apply andb_true_iff in HP. destruct HP as [H1 H2].
    rewrite all_chars_app, IH1, IH2; auto.
  - apply andb_true_iff in HP. destruct HP; auto.
  - apply andb_true_iff in HP. destruct HP; auto.
  - eapply all_chars_within; eauto.
  - auto.
Qed.

Lemma Matches_min_len (r : regex) (u : string) (g g1 : option string) :
  Matches r u g g1 -> (min_len r <= String.length u)%nat.
Proof.
  induction 1 as [g|a c g Hc|r1 r2 u1 u2 g g1 g2 _ IH1 _ IH2
                 |r1 r2 u g g1 _ IH|r1 r2 u g g1 _ IH|a lo hi u g Hall Hlo Hhi
                 |r u g g1 _ IH]; simpl; try lia.
  rewrite length_app. lia.
Qed.

Lemma Matches_group_free (r : regex) (u : string) (g g1 : option string) :
  Matches r u g g1 -> group_free r = true ->
  g1 = g /\ forall h, Matches r u h h.
Proof.
  induction 1 as [g|a c g Hc|r1 r2 u1 u2 g g1 g2 _ IH1 _ IH2
                 |r1 r2 u g g1 _ IH|r1 r2 u g g1 _ IH|a lo hi u g Hall Hlo Hhi
                 |r u g g1 _ IH]; simpl; intros Hf; try discriminate.
  - split; [reflexivity | intros h; constructor].
  - split; [reflexivity | intros h; now constructor].
  - apply andb_true_iff in Hf. destruct Hf as [H1 H2].
    destruct (IH1 H1) as [-> M1], (IH2 H2) as [-> M2].
    split; [reflexivity | intros h; econstructor; eauto].
  - apply andb_true_iff in Hf. destruct Hf as [H1 H2].
    destruct (IH H1) as [-> M1]. split; [reflexivity | intros h; now apply M_alt_l].
  - apply andb_true_iff in Hf. destruct Hf as [H1 H2].
    destruct (IH H2) as [-> M1]. split; [reflexivity | intros h; now apply M_alt_r].
  - split; [reflexivity | intros h; now constructor].
Qed.

(** The text of the group after a match is a text one of the group
    bodies matched. *)
Lemma Matches_capture (P : regex -> bool) (Q : string -> Prop) :
  (forall r0 v g g', P r0 = true -> Matches r0 v g g' -> Q v) ->
  forall r u g g1,
    Matches r u g g1 -> groups_ok P r = true ->
    (forall v, g = Some v -> Q v) -> forall v, g1 = Some v -> Q v.
Proof.
  intros HPQ. induction 1 as [g|a c g Hc|r1 r2 u1 u2 g g1 g2 _ IH1 _ IH2
                 |r1 r2 u g g1 _ IH|r1 r2 u g g1 _ IH|a lo hi u g Hall Hlo Hhi
                 |r u g g1 H0 IH]; simpl; intros Hok Hg v Hv; eauto.
  - apply andb_true_iff in Hok. destruct Hok as [H1 H2]. eauto.
  - apply andb_true_iff in Hok. destruct Hok as [H1 H2]. eauto.
  - apply andb_true_iff in Hok. destruct Hok as [H1 H2]. eauto.
  - inversion Hv; subst. eauto.
Qed.

Lemma no_space_strip (v : string) : all_chars not_space v = true -> strip v = v.
Proof.
  intros H. unfold strip, strip_by.
  assert (Hl : lstrip_by is_space v = v).
  { destruct v as [|c v]; [reflexivity|].
    simpl in H. apply andb_true_iff in H. destruct H as [Hc _].
    apply lstrip_head. unfold not_space in Hc. now apply negb_true_iff. }
  rewrite Hl. clear Hl.
  induction v as [|c v IH]; [reflexivity|].
  simpl in H. apply andb_true_iff in H. destruct H as [Hc Hs].
  simpl. rewrite (IH Hs). unfold not_space in Hc. apply negb_true_iff in Hc.
  rewrite Hc. destruct v; reflexivity.
Qed.

Lemma solid_text (r0 : regex) (v : string) (g g' : option string) :
  solid r0 = true -> Matches r0 v g g' ->
  v <> EmptyString /\ all_chars not_space v = true.
Proof.
  unfold solid. intros H M. apply andb_true_iff in H. destruct H as [Hc Hl].
  apply Nat.leb_le in Hl. pose proof (Matches_min_len _ _ _ _ M) as Hlen.
  split.
  - intros ->. simpl in Hlen. lia.
  - eapply Matches_chars_within; eauto.
Qed.

Lemma PATTERNS_solid (ft : string) (ps : list regex) :
  PATTERNS !! ft = Some ps -> forallb (groups_ok solid) ps = true.
Proof.
  revert ft ps. apply (PATTERNS_all (forallb (groups_ok solid))). vm_compute. reflexivity.
Qed.

Lemma patterns_of_solid (ft : string) : forallb (groups_ok solid) (patterns_of ft) = true.
Proof.
  unfold patterns_of. destruct (PATTERNS !! ft) as [ps|] eqn:E; simpl.
  - eapply PATTERNS_solid; eauto.
  - reflexivity.
Qed.

Lemma search_solid (p : regex) (text v : string) (m : match_obj) :
  groups_ok solid p = true -> search p text = Some m -> group1 m = Some v ->
  v <> EmptyString /\ all_chars not_space v = true.
Proof.
  intros Hok Hs Hv. apply search_sound in Hs. destruct Hs as (u & Hu).
  apply (Matches_capture solid
           (fun v => v <> EmptyString /\ all_chars not_space v = true)
           (fun r0 v g g' H M => solid_text r0 v g g' H M)
           p u None (group1 m) Hu Hok); [discriminate | exact Hv].
Qed.

(** What [extract_field] finds, with the group the value comes from. *)
Lemma extract_field_found (text ft v : string) (c : Float64.float) :
  extract_field text ft = Ret (Some v, c) ->
  exists j p m g,
    patterns_of ft !! j = Some p /\
    (forall j' q, (j' < j)%nat -> patterns_of ft !! j' = Some q -> search q text = None) /\
    search p text = Some m /\ group1 m = Some g /\
    v = strip g /\ c = confidence_of j.
Proof.
  unfold extract_field. intros H.
  destruct (extract_field_from_spec text (patterns_of ft) (patterns_of_sets_group ft) 0)
    as [[_ H']|(j & p & m & g & Hj & Hfirst & Hs & Hg & H')]; rewrite H' in H.
  - discriminate.
  - inversion H; subst. exists j, p, m, g. repeat split; auto.
Qed.

(** A value that is found is the text of the group, which the trimming
    leaves alone. *)
Lemma found_value_solid (text ft v : string) (c : Float64.float) :
  extract_field text ft = Ret (Some v, c) ->
  v <> EmptyString /\ all_chars not_space v = true /\
  exists p m, In p (patterns_of ft) /\ search p text = Some m /\ group1 m = Some v.
Proof.
  intros H. destruct (extract_field_found text ft v c H)
    as (j & p & m & g & Hj & _ & Hs & Hg & -> & _).
  assert (Hin : p ∈ patterns_of ft) by (eapply list_elem_of_lookup_2; eauto).
  pose proof (patterns_of_solid ft) as Hsolid.
  rewrite forallb_forall in Hsolid.
  specialize (Hsolid p (proj1 (list_elem_of_In _ _) Hin)).
  destruct (search_solid p text g m Hsolid Hs Hg) as [Hne Hns].
  rewrite (no_space_strip g Hns).
  split; [exact Hne|]. split; [exact Hns|].
  exists p, m. split; [now apply list_elem_of_In | auto].
Qed.

End RuleFacts.

(* ===================================================================== *)
(** ** Labels that contain the label "Total" *)
(* ===================================================================== *)

Section TotalLabel.
Import PyStr Re PatternExtractor.

Ltac inv_matches :=
  repeat match goal with
         | H : Matches (Seq _ _) _ _ _ |- _ => inversion H; clear H; subst
         | H : Matches (Group1 _) _ _ _ |- _ => inversion H; clear H; subst
         | H : Matches (One _) _ _ _ |- _ => inversion H; clear H; subst
         | H : Matches (Rep _ _ _) _ _ _ |- _ => inversion H; clear H; subst
         | H : Matches Eps _ _ _ |- _ => inversion H; clear H; subst
         end.

Lemma amount_after_relabel (L L' : regex) (u : string) (g g1 : option string) :
  ends_with L L' ->
  Matches (amount_after L) u g g1 ->
  exists u0 u', u = u0 +:+ u' /\ Matches (amount_after L') u' g g1.
Proof.
  intros HL H. unfold amount_after in *. simpl in *.
  inversion H as [| |r1 r2 uL ur g0 gL g2 ML Mr| | | |]; subst.
  destruct (HL _ _ _ ML) as (-> & v0 & v' & -> & ML').
  exists v0, (v' +:+ ur). split; [apply app_assoc_str|].
  econstructor; eauto.
Qed.

Lemma ends_with_self (L : regex) : group_free L = true -> ends_with L L.
Proof.
  intros Hf v h h' M. destruct (Matches_group_free _ _ _ _ M Hf) as [-> M'].
  split; [reflexivity|]. exists EmptyString, v. split; [reflexivity | apply M'].
Qed.

Lemma ends_with_seq3 (A B T : regex) :
  group_free A = true -> group_free B = true -> group_free T = true ->
  ends_with (seqs [A; B; T]) T.
Proof.
  intros HA HB HT v h h' M. simpl in M.
  inversion M as [| |r1 r2 uA u1 g0 gA g2 MA M1| | | |]; subst.
  inversion M1 as [| |r1 r2 uB u2 g0 gB g2 MB M2| | | |]; subst.
  inversion M2 as [| |r1 r2 uT u3 g0 gT g2 MT M3| | | |]; subst.
  inversion M3; subst.
  destruct (Matches_group_free _ _ _ _ MA HA) as [-> _].
  destruct (Matches_group_free _ _ _ _ MB HB) as [-> _].
  destruct (Matches_group_free _ _ _ _ MT HT) as [-> MT'].
  split; [reflexivity|].
  exists (uA +:+ uB), uT. split; [|apply MT'].
  now rewrite app_empty_r, app_assoc_str.
Qed.

(** Upper case and lower case in a pattern are the same under IGNORECASE. *)
Lemma ends_with_TOTAL : ends_with (lit "TOTAL") (lit "Total").
Proof.
  intros v h h' M.
  destruct (Matches_group_free _ _ _ _ M eq_refl) as [-> _].
  split; [reflexivity|]. exists EmptyString, v. split; [reflexivity|].
  simpl in M. inv_matches. simpl. repeat econstructor; assumption.
Qed.

Lemma ends_with_Subtotal : ends_with (lit "Subtotal") (lit "Total").
Proof.
  intros v h h' M.
  destruct (Matches_group_free _ _ _ _ M eq_refl) as [-> _].
  split; [reflexivity|].
  simpl in M. inv_matches.
  eexists (String _ (String _ (String _ EmptyString))), _.
  split; [reflexivity|].
  simpl. repeat econstructor; assumption.
Qed.

(** A match of a rule built on a label that ends with "Total" makes the
    first total rule match. *)
Lemma total_rule_matches (L : regex) (text : string) (m : match_obj) :
  ends_with L (lit "Total") ->
  search (amount_after L) text = Some m ->
  is_Some (search (amount_after (lit "Total")) text).
Proof.
  intros HL Hs. apply search_sound_at in Hs.
  destruct Hs as (pre & u & post & -> & Hu).
  destruct (amount_after_relabel L (lit "Total") u None (group1 m) HL Hu)
    as (u0 & u' & -> & Hu').
  rewrite app_assoc_str, <- (app_assoc_str pre u0).
  eapply search_finds; eauto.
Qed.

Lemma total_rules :
  patterns_of "total_amount"
  = [amount_after (lit "Total");
     amount_after (seqs [lit "Grand"; star space; lit "Total"]);
     amount_after (lit "TOTAL")].
Proof. reflexivity. Qed.

Lemma subtotal_rules :
  patterns_of "subtotal"
  = [amount_after (lit "Subtotal");
     amount_after (seqs [lit "Sub"; opt (Cls [ISpace; IChar "-"]); lit "Total"])].
Proof. reflexivity. Qed.

End TotalLabel.

(* ===================================================================== *)
(** ** Further properties of the extractors *)
(* ===================================================================== *)

Section ExtractorProperties.
Import PyStr Re PatternExtractor InvoiceFieldExtractor.

(** X1. A value [extract_field] returns is the text of the group of the
    winning rule, unchanged by the trimming: it is not empty and has no
    white space in it. *)
Theorem extract_field_value_solid (text ft v : string) (c : Float64.float) :
  extract_field text ft = Ret (Some v, c) ->
  v <> EmptyString /\ all_chars not_space v = true /\
  exists p m, In p (patterns_of ft) /\ search p text = Some m /\ group1 m = Some v.
Proof. apply found_value_solid. Qed.

(** X2. A total that is found has confidence 1.0: whenever the second
    or the third rule of [total_amount] matches, the first one matches
    too, so neither of them is ever the first to match. *)
Theorem found_total_has_confidence_one (text v : string) (c : Float64.float) :
  extract_field text "total_amount" = Ret (Some v, c) ->
  c = Float64.f1_0 /\
  is_Some (search (amount_after (lit "Total")) text).
Proof.
  intros H. destruct (extract_field_found text "total_amount" v c H)
    as (j & p & m & g & Hj & Hfirst & Hs & _ & _ & ->).
  rewrite total_rules in Hj, Hfirst.
  assert (H0 : is_Some (search (amount_after (lit "Total")) text)).
  { destruct j as [|[|[|j]]]; simpl in Hj; inversion Hj; subst p.
    - eauto.
    - eapply total_rule_matches; [|exact Hs].
      apply ends_with_seq3; reflexivity.
    - eapply total_rule_matches; [|exact Hs]. apply ends_with_TOTAL. }
  split; [|exact H0].
  destruct j as [|j]; [reflexivity|].
  rewrite (Hfirst O (amount_after (lit "Total"))) in H0; [|lia|reflexivity].
  destruct H0 as [x Hx]. discriminate.
Qed.

Lemma subtotal_match_total_match (text : string) :
  field_matches text "subtotal" -> field_matches text "total_amount".
Proof.
  intros (p & Hin & Hp). rewrite subtotal_rules in Hin.
  destruct (search p text) as [m|] eqn:Hs; [|congruence].
  assert (H0 : is_Some (search (amount_after (lit "Total")) text)).
  { simpl in Hin. destruct Hin as [<-|[<-|[]]].
    - eapply total_rule_matches; [|exact Hs]. apply ends_with_Subtotal.
    - eapply total_rule_matches; [|exact Hs]. apply ends_with_seq3; reflexivity. }
  exists (amount_after (lit "Total")). split.
  - rewrite total_rules. simpl. auto.
  - destruct H0 as [x ->]. discriminate.
Qed.

(** X3. Every subtotal label contains the label "total": when
    [extract_amounts] stores a subtotal it stores a total as well. *)
Theorem subtotal_entry_brings_total_entry (text : string) :
  exists amounts,
    extract_amounts text = Ret amounts /\
    (is_Some (amounts !! "subtotal") -> is_Some (amounts !! "total")).
Proof.
  eexists. split; [apply extract_amounts_spec|].
  destruct (amounts_lookup text) as (Ht & _ & Hs). simpl in Ht, Hs.
  rewrite Ht, Hs. intros Hsub.
  destruct (amount_entry_spec text "subtotal" "subtotal") as [[_ E]|[Hm _]];
    [simpl; auto | rewrite E in Hsub; destruct Hsub; discriminate |].
  apply subtotal_match_total_match in Hm.
  destruct (amount_entry_spec text "total_amount" "total") as [[Hno _]|(_ & n & j & _ & ->)];
    [simpl; auto | contradiction | eauto].
Qed.

End ExtractorProperties.

(* ===================================================================== *)
(** ** Further properties of the assembler *)
(* ===================================================================== *)

Section AssemblerProperties.
Import PyStr Re PatternExtractor InvoiceFieldExtractor.

Variable PyPDF2_present : bool.
Variable read_pages : string -> outcome (list string).
Variable glob_pdf : string -> option (list string).

Abbreviation extract_text := (extract_text PyPDF2_present read_pages).
Abbreviation extract_invoice_fields := (extract_invoice_fields PyPDF2_present read_pages).
Abbreviation extract_multiple_invoices :=
  (extract_multiple_invoices PyPDF2_present read_pages glob_pdf).
Abbreviation decode := (decode PyPDF2_present read_pages).
Abbreviation decode_log := (decode_log PyPDF2_present read_pages).
Abbreviation record_for := (record_for PyPDF2_present read_pages).
Abbreviation log_for := (log_for PyPDF2_present read_pages).

(** A text field of the record and its contribution: empty with
    contribution 0, or found with the confidence of a rank. *)
Lemma text_field_cases (text ft : string) :
  (or_empty (fst (field_value text ft)) = EmptyString /\
   ~ field_matches text ft)
  \/
  (nonempty (or_empty (fst (field_value text ft))) = true /\
   field_matches text ft /\
   exists j, (j < 3)%nat /\ snd (field_value text ft) = confidence_of j).
Proof.
  unfold field_value.
  destruct (extract_field_cases text ft) as [E|(v & j & Hj & E)]; rewrite E; simpl.
  - left. split; [reflexivity | now apply extract_field_absent].
  - right. destruct (extract_field_found text ft v _ E)
      as (j' & p & m & g & Hj' & _ & Hs & _ & _ & _).
    destruct (found_value_solid text ft v _ E) as [Hne _].
    split; [destruct v; [congruence | reflexivity]|].
    split; [|eauto].
    exists p. split; [|congruence].
    apply list_elem_of_In. eapply list_elem_of_lookup_2; eauto.
Qed.

Lemma overall_confidence_gap (a b c : Float64.float) :
  In a ranks -> In b ranks -> In c [Float64.zero; Float64.f0_8] ->
  (overall_confidence [a; b; c] = Float64.zero \/
   Float64.leb Float64.f0_8 (overall_confidence [a; b; c]) = true) /\
  (overall_confidence [a; b; c] = Float64.zero ->
   a = Float64.zero /\ b = Float64.zero /\ c = Float64.zero).
Proof.
  simpl In. intros Ha Hb Hc.
  repeat match goal with
         | H : _ \/ _ |- _ => destruct H as [H|H]
         | H : False |- _ => destruct H
         end; subst; vm_compute;
    (split; [first [left; reflexivity | right; reflexivity]
            | first [intros _; repeat split; reflexivity | discriminate]]).
Qed.

Lemma confidence_of_not_zero (j : nat) :
  (j < 3)%nat -> confidence_of j <> Float64.zero.
Proof. intros H. destruct j as [|[|[|j]]]; try lia; vm_compute; discriminate. Qed.

Lemma nonempty_empty (s : string) : nonempty s = false <-> s = EmptyString.
Proof. destruct s; simpl; split; congruence. Qed.

Lemma assembled_confidence_cases (name text : string) :
  let r := assembled name text in
  (confidence_score r = Float64.zero \/
   Float64.leb Float64.f0_8 (confidence_score r) = true) /\
  (confidence_score r = Float64.zero <->
   invoice_number r = EmptyString /\ invoice_date r = EmptyString /\
   Float64.ltb Float64.zero (total_amount r) = false).
Proof.
  intros r. subst r. rewrite assembled_confidence. unfold contributions.
  set (r := assembled name text).
  change (raw_text r) with text.
  change (invoice_number r) with (or_empty (fst (field_value text "invoice_number"))).
  change (invoice_date r) with (or_empty (fst (field_value text "invoice_date"))).
  unfold rule_confidence.
  set (a := if nonempty (or_empty (fst (field_value text "invoice_number")))
            then snd (field_value text "invoice_number") else Float64.zero).
  set (b := if nonempty (or_empty (fst (field_value text "invoice_date")))
            then snd (field_value text "invoice_date") else Float64.zero).
  set (c := if Float64.ltb Float64.zero (total_amount r)
            then Float64.f0_8 else Float64.zero).
  assert (Ha : In a ranks /\
               (a = Float64.zero <->
                or_empty (fst (field_value text "invoice_number")) = EmptyString)).
  { subst a. destruct (text_field_cases text "invoice_number")
      as [[E _]|(E & _ & j & Hj & Ec)].
    - rewrite E. simpl. tauto.
    - rewrite E, Ec. split.
      + destruct j as [|[|[|j]]]; simpl; auto; lia.
      + split; [intros H; now apply confidence_of_not_zero in H
               | intros H; rewrite H in E; discriminate]. }
  assert (Hb : In b ranks /\
               (b = Float64.zero <->
                or_empty (fst (field_value text "invoice_date")) = EmptyString)).
  { subst b. destruct (text_field_cases text "invoice_date")
      as [[E _]|(E & _ & j & Hj & Ec)].
    - rewrite E. simpl. tauto.
    - rewrite E, Ec. split.
      + destruct j as [|[|[|j]]]; simpl; auto; lia.
      + split; [intros H; now apply confidence_of_not_zero in H
               | intros H; rewrite H in E; discriminate]. }
  assert (Hc : In c [Float64.zero; Float64.f0_8] /\
               (c = Float64.zero <-> Float64.ltb Float64.zero (total_amount r) = false)).
  { subst c. destruct (Float64.ltb Float64.zero (total_amount r)); simpl.
    - split; [auto | split; [discriminate | discriminate]].
    - split; [auto | tauto]. }
  destruct Ha as [Ha Ha'], Hb as [Hb Hb'], Hc as [Hc Hc'].
  destruct (overall_confidence_gap a b c Ha Hb Hc) as [Hgap Hzero].
  split; [exact Hgap|]. split.
  - intros H. destruct (Hzero H) as (Ea & Eb & Ec). tauto.
  - intros (Ea & Eb & Ec).
    apply Ha' in Ea. apply Hb' in Eb. apply Hc' in Ec. rewrite Ea, Eb, Ec. reflexivity.
Qed.

(** X4. The confidence score of a record is 0 or at least 0.8, never in
    between; it is 0 exactly when the record has no invoice number, no
    invoice date and no positive total. *)
Theorem confidence_score_zero_or_high (pdf_path : string) (lg : log) :
  exists r lg',
    extract_invoice_fields pdf_path lg = (Ret r, lg') /\
    (confidence_score r = Float64.zero \/
     Float64.leb Float64.f0_8 (confidence_score r) = true) /\
    (confidence_score r = Float64.zero <->
     invoice_number r = EmptyString /\ invoice_date r = EmptyString /\
     Float64.ltb Float64.zero (total_amount r) = false).
Proof.
  exists (record_for pdf_path), (lg ++ log_for pdf_path).
  split; [apply extract_invoice_fields_total|].
  unfold record_for.
  destruct (decode pdf_path) as [text|e].
  - apply assembled_confidence_cases.
  - simpl. split; [left; reflexivity|]. split; [intros _; repeat split | reflexivity].
Qed.

Lemma decode_cases (pdf_path : string) :
  (PyPDF2_present = false /\ decode pdf_path = Raise import_error /\
   decode_log pdf_path = [])
  \/
  (PyPDF2_present = true /\
   exists pages, read_pages pdf_path = Ret pages /\
                 decode pdf_path = Ret (join (String newline EmptyString) pages) /\
                 decode_log pdf_path = [])
  \/
  (PyPDF2_present = true /\
   exists e, read_pages pdf_path = Raise e /\ decode pdf_path = Raise e /\
             decode_log pdf_path
             = [{| lr_level := ERROR;
                   lr_message := "Error extracting text from " +:+ pdf_path
                                 +:+ ": " +:+ str_exn e |}]).
Proof.
  unfold decode, decode_log, InvoiceFieldExtractor.extract_text.
  destruct PyPDF2_present; simpl.
  - right. unfold try_except, bind, call, ret, raise, logger.
    destruct (read_pages pdf_path) as [pages|e]; simpl.
    + left. split; [reflexivity|]. exists pages. auto.
    + right. split; [reflexivity|]. exists e. auto.
  - left. auto.
Qed.

Lemma decoded_logs_nothing (pdf_path text : string) :
  decode pdf_path = Ret text -> decode_log pdf_path = [].
Proof.
  intros H. destruct (decode_cases pdf_path)
    as [(_ & E & _)|[(_ & pages & _ & _ & L)|(_ & e & _ & E & _)]];
    [congruence | exact L | congruence].
Qed.

Lemma field_value_absent (text ft : string) :
  ~ field_matches text ft -> field_value text ft = (None, Float64.zero).
Proof.
  intros H. unfold field_value. apply extract_field_absent in H. now rewrite H.
Qed.

Lemma amount_value_absent (text ft : string) :
  ~ field_matches text ft -> amount_value text ft = Float64.zero.
Proof.
  intros H. unfold amount_value, amount_entry.
  apply extract_field_absent in H. now rewrite H.
Qed.

(** X5. When no rule of the table matches the decoded text and none of
    its first 20 lines qualifies as a vendor name, the record is the
    default one with the text kept in [raw_text]: every field empty or
    zero, the confidence 0, and the extraction is logged as a success.
    For an empty text that is the very record a decoding failure gives. *)
Theorem nothing_found_gives_default_record (pdf_path text : string) (lg : log) :
  decode pdf_path = Ret text ->
  (forall ft, In ft field_types -> ~ field_matches text ft) ->
  List.find qualifies (firstn 20 (split newline text)) = None ->
  extract_invoice_fields pdf_path lg
  = (Ret (set_raw_text text (new_invoice (path_name pdf_path))),
     lg ++ [info_extracted pdf_path]).
Proof.
  intros Hd Hno Hv.
  rewrite extract_invoice_fields_total. unfold record_for, log_for.
  rewrite Hd, (decoded_logs_nothing _ _ Hd). simpl.
  f_equal. f_equal. unfold assembled.
  rewrite !field_value_absent by (apply Hno; unfold field_types; simpl; auto 10).
  rewrite !amount_value_absent by (apply Hno; unfold field_types; simpl; auto 10).
  unfold extract_vendor_name. rewrite vendor_scan_find, Hv. reflexivity.
Qed.

(** X6. Without PyPDF2 the batch never raises the import error: every
    globbed file gets its default record, and one error record is logged
    for each. *)
Theorem without_PyPDF2_batch_of_defaults (directory : string) (files : list string) (lg : log) :
  PyPDF2_present = false ->
  glob_pdf directory = Some files ->
  extract_multiple_invoices directory lg
  = (Ret (map (fun f => new_invoice (path_name f)) files),
     lg ++ map (fun f => error_extracting f import_error) files).
Proof.
  intros Hp Hg. rewrite (extract_multiple_invoices_total _ _ _ _ _ _ Hg).
  assert (Hd : forall f, decode f = Raise import_error /\ decode_log f = []).
  { intros f. destruct (decode_cases f) as [(_ & E & L)|[(E & _)|(E & _)]];
      [auto | congruence | congruence]. }
  assert (Hr : map record_for files = map (fun f => new_invoice (path_name f)) files).
  { apply map_ext. intros f. unfold record_for. now rewrite (proj1 (Hd f)). }
  assert (Hl : flat_map log_for files
               = map (fun f => error_extracting f import_error) files).
  { clear Hg Hr. induction files as [|f rest IH]; [reflexivity|].
    simpl. rewrite IH. unfold log_for at 1.
    rewrite (proj1 (Hd f)), (proj2 (Hd f)). reflexivity. }
  now rewrite Hr, Hl.
Qed.

End AssemblerProperties.

(* ===================================================================== *)
(** ** to_dict and process_invoices_in_directory *)
(* ===================================================================== *)

Section DirectoryProperties.
Import PyStr PyVal InvoiceFieldExtractor.

Variable PyPDF2_present : bool.
Variable read_pages : string -> outcome (list string).
Variable glob_pdf : string -> option (list string).

Abbreviation record_for := (record_for PyPDF2_present read_pages).
Abbreviation log_for := (log_for PyPDF2_present read_pages).
Abbreviation extract_multiple_invoices :=
  (extract_multiple_invoices PyPDF2_present read_pages glob_pdf).
Abbreviation process_invoices_in_directory :=
  (process_invoices_in_directory PyPDF2_present read_pages glob_pdf).
Abbreviation files_in := (files_in glob_pdf).
Abbreviation records_in := (records_in PyPDF2_present read_pages glob_pdf).
Abbreviation directory_log := (directory_log PyPDF2_present read_pages glob_pdf).

Lemma extract_multiple_invoices_listing (directory : string) (lg : log) :
  extract_multiple_invoices directory lg
  = (Ret (records_in directory), lg ++ directory_log directory).
Proof.
  unfold records_in, files_in, directory_log.
  destruct (glob_pdf directory) as [files|] eqn:Hg.
  - now rewrite (extract_multiple_invoices_total _ _ _ _ _ lg Hg).
  - unfold InvoiceFieldExtractor.extract_multiple_invoices. rewrite Hg. reflexivity.
Qed.

Lemma process_invoices_in_directory_total (directory : string) (lg : log) :
  process_invoices_in_directory directory lg
  = (Ret (report (records_in directory)), lg ++ directory_log directory).
Proof.
  unfold process_invoices_in_directory, bind.
  rewrite extract_multiple_invoices_listing. reflexivity.
Qed.

Lemma report_no_error (invoices : list ExtractedInvoice) : report invoices !! "error" = None.
Proof. reflexivity. Qed.

Lemma report_invoices (invoices : list ExtractedInvoice) :
  get (report invoices) "invoices" (VList []) = VList (map dict_of invoices).
Proof. reflexivity. Qed.

Lemma records_in_length (directory : string) :
  length (records_in directory) = length (files_in directory).
Proof. unfold records_in. apply length_map. Qed.


(** X8. When the directory is missing or holds no PDF file, the report
    is the one on no document: count 0, no invoices, both sums and the
    average 0 (the average divides by nothing). *)
Theorem no_files_gives_empty_report (directory : string) (lg : log) :
  files_in directory = [] ->
  process_invoices_in_directory directory lg
  = (Ret empty_report, lg ++ directory_log directory).
Proof.
  intros Hf. rewrite process_invoices_in_directory_total.
  unfold records_in. rewrite Hf. reflexivity.
Qed.

Lemma map_VStr_inj (l1 l2 : list string) : map VStr l1 = map VStr l2 -> l1 = l2.
Proof.
  revert l2. induction l1 as [|x l1 IH]; intros [|y l2] H; simpl in H;
    try discriminate; [reflexivity|].
  injection H as Hx Hl. subst. f_equal. now apply IH.
Qed.

(** X9. [to_dict] loses nothing: two records with the same dictionary
    are the same record. *)
Theorem to_dict_injective (r1 r2 : ExtractedInvoice) :
  to_dict r1 = to_dict r2 -> r1 = r2.
Proof.
  intros H.
  assert (L : forall key, to_dict r1 !! key = to_dict r2 !! key) by (intros; now rewrite H).
  destruct r1, r2.
  pose proof (L "file_name") as H1. pose proof (L "invoice_number") as H2.
  pose proof (L "invoice_date") as H3. pose proof (L "due_date") as H4.
  pose proof (L "vendor_name") as H5. pose proof (L "vendor_address") as H6.
  pose proof (L "customer_name") as H7. pose proof (L "customer_address") as H8.
  pose proof (L "subtotal") as H9. pose proof (L "tax_amount") as H10.
  pose proof (L "total_amount") as H11. pose proof (L "currency") as H12.
  pose proof (L "line_items") as H13. pose proof (L "raw_text") as H14.
  pose proof (L "confidence_score") as H15.
  clear L H.
  vm_compute in H1, H2, H3, H4, H5, H6, H7, H8, H9, H10, H11, H12, H14, H15.
  cbn -[map] in H13.
  injection H1 as ->. injection H2 as ->. injection H3 as ->. injection H4 as ->.
  injection H5 as ->. injection H6 as ->. injection H7 as ->. injection H8 as ->.
  injection H9 as ->. injection H10 as ->. injection H11 as ->. injection H12 as ->.
  injection H14 as ->. injection H15 as ->.
  injection H13 as H13. apply map_VStr_inj in H13. now subst.
Qed.

End DirectoryProperties.

(* ===================================================================== *)
(** ** Paths *)
(* ===================================================================== *)

Section PathFacts.
Import PyStr Re PurePath.

Lemma slash_free_cons (c : ascii) (s : string) :
  slash_free (String c s) = negb (Ascii.eqb c "/") && slash_free s.
Proof. reflexivity. Qed.

Lemma split_slash_free (u : string) : slash_free u = true -> split "/" u = [u].
Proof.
  induction u as [|c u IH]; simpl; [reflexivity|].
  rewrite slash_free_cons. intros H. apply andb_true_iff in H as [Hc Hu].
  destruct (Ascii.eqb c "/"); [discriminate|]. now rewrite IH.
Qed.

Lemma split_app_slash (u v : string) :
  slash_free u = true -> split "/" (u +:+ String "/" v) = u :: split "/" v.
Proof.
  induction u as [|c u IH]; intros H.
  - now rewrite app_nil_l.
  - rewrite slash_free_cons in H. apply andb_true_iff in H as [Hc Hu].
    rewrite app_cons. simpl. destruct (Ascii.eqb c "/"); [discriminate|].
    now rewrite IH.
Qed.

Lemma split_parts_slash_free (s : string) : Forall (fun p => slash_free p = true) (split "/" s).
Proof.
  induction s as [|c s IH]; simpl.
  - repeat constructor.
  - destruct (Ascii.eqb c "/") eqn:Hc.
    + constructor; [reflexivity|exact IH].
    + destruct (split "/" s) as [|l ls].
      * repeat constructor. rewrite slash_free_cons. now rewrite Hc.
      * inversion IH as [|? ? Hl Hls]; subst. constructor; [|exact Hls].
        rewrite slash_free_cons. now rewrite Hc, Hl.
Qed.

Lemma filter_components (ps : list string) :
  Forall is_part ps -> List.filter component ps = ps.
Proof.
  induction 1 as [|p ps [Hp _] _ IH]; simpl; [reflexivity|]. now rewrite Hp, IH.
Qed.

Lemma split_join (ps : list string) :
  Forall is_part ps -> List.filter component (split "/" (join "/" ps)) = ps.
Proof.
  induction 1 as [|p ps [Hp Hs] Hps IH]; [reflexivity|].
  destruct ps as [|p' ps'].
  - simpl. rewrite split_slash_free by exact Hs. simpl. now rewrite Hp.
  - change (join "/" (p :: p' :: ps')) with (p +:+ "/" +:+ join "/" (p' :: ps')).
    rewrite app_cons, app_nil_l. rewrite split_app_slash by exact Hs.
    cbn [List.filter]. now rewrite Hp, IH.
Qed.

Lemma lstrip_parts (s : string) :
  List.filter component (split "/" (lstrip_by is_slash s))
  = List.filter component (split "/" s).
Proof.
  induction s as [|c s IH]; [reflexivity|].
  cbn [lstrip_by]. unfold is_slash at 1.
  destruct (Ascii.eqb c "/") eqn:E; [|reflexivity].
  rewrite IH. cbn [split]. rewrite E. reflexivity.
Qed.

Lemma parse_parts (s : string) : parts (parse s) = List.filter component (split "/" s).
Proof. unfold parse. simpl. apply lstrip_parts. Qed.

Lemma parse_name (s : string) : name (parse s) = path_name s.
Proof. unfold name, path_name. now rewrite parse_parts. Qed.

Lemma parts_are_parts (s : string) : Forall is_part (parts (parse s)).
Proof.
  rewrite parse_parts. apply List.Forall_forall. intros p Hp.
  apply filter_In in Hp as [Hin Hc]. split; [exact Hc|].
  pose proof (split_parts_slash_free s) as Hall.
  rewrite List.Forall_forall in Hall. now apply Hall.
Qed.

Lemma root_cases (s : string) :
  root (parse s) = "" \/ root (parse s) = "/" \/ root (parse s) = "//".
Proof.
  unfold parse. simpl.
  destruct (String.length s - String.length (lstrip_by is_slash s))%nat as [|[|[|n]]]; auto.
Qed.

Lemma parse_well_formed (s : string) : well_formed (parse s).
Proof. split; [apply root_cases|apply parts_are_parts]. Qed.

Lemma child_well_formed (q : path) (s : string) : well_formed q -> well_formed (child q s).
Proof.
  intros [Hr Hp]. unfold child.
  destruct (nonempty (root (parse s))); [apply parse_well_formed|].
  split; [exact Hr|]. simpl. apply Forall_app. split; [exact Hp|apply parts_are_parts].
Qed.

Lemma str_parts (q : path) :
  well_formed q -> List.filter component (split "/" (str q)) = parts q.
Proof.
  intros [Hr Hp]. unfold str.
  destruct Hr as [Hr|[Hr|Hr]]; rewrite Hr.
  - destruct (parts q) as [|p ps] eqn:E; [reflexivity|].
    rewrite app_nil_l. now apply split_join.
  - rewrite app_cons, app_nil_l. simpl. now apply split_join.
  - rewrite !app_cons, app_nil_l. simpl. now apply split_join.
Qed.

Lemma str_name (q : path) : well_formed q -> path_name (str q) = name q.
Proof. intros H. unfold path_name, name. now rewrite str_parts. Qed.

Lemma last_app_nonempty {A} (l1 l2 : list A) : l2 <> [] -> last (l1 ++ l2) = last l2.
Proof.
  intros H. destruct l2 as [|x l2]; [now contradict H|]. apply last_app_cons.
Qed.

Lemma child_name (q : path) (s : string) :
  path_name s <> "" -> name (child q s) = path_name s.
Proof.
  intros H. rewrite <- (parse_name s) in H |- *. unfold child.
  destruct (nonempty (root (parse s))); [reflexivity|].
  unfold name in *. cbn [parts]. rewrite last_app_nonempty; [reflexivity|].
  intros E. rewrite E in H. now apply H.
Qed.

Lemma target_name (directory file_name : string) :
  path_name file_name <> "" -> path_name (target directory file_name) = path_name file_name.
Proof.
  intros H. unfold target. rewrite str_name.
  - now apply child_name.
  - apply child_well_formed, parse_well_formed.
Qed.

Lemma plain_path_name (s : string) : plain_name s -> path_name s = s.
Proof.
  intros (Hne & Hdot & Hs). unfold path_name.
  rewrite split_slash_free by exact Hs. simpl.
  destruct s as [|c s]; [now contradict Hne|].
  destruct (String.eqb (String c s) ".") eqn:E; [|reflexivity].
  apply String.eqb_eq in E. now contradict Hdot.
Qed.

Lemma lstrip_shorter (p : ascii -> bool) (s : string) :
  (String.length (lstrip_by p s) <= String.length s)%nat.
Proof.
  induction s as [|c s IH]; simpl; [lia|]. destruct (p c); simpl; lia.
Qed.

Lemma absolute_root (rest : string) : nonempty (root (parse (String "/" rest))) = true.
Proof.
  unfold parse. simpl.
  pose proof (lstrip_shorter is_slash rest).
  destruct (_ - _)%nat as [|[|[|n]]] eqn:E; try reflexivity. lia.
Qed.

Lemma absolute_target (directory rest : string) :
  target directory (String "/" rest) = str (parse (String "/" rest)).
Proof. unfold target, child. now rewrite absolute_root. Qed.

End PathFacts.

(* ===================================================================== *)
(** ** class InvoiceTools *)
(* ===================================================================== *)

Section OutcomeLists.
Import PyVal.

Lemma filter_outcome_pure {A B} (f : B -> outcome bool) (g : A -> bool) (h : A -> B)
      (xs : list A) :
  (forall x, f (h x) = Ret (g x)) ->
  filter_outcome f (map h xs) = Ret (map h (List.filter g xs)).
Proof.
  intros Hf. induction xs as [|x xs IH]; simpl; [reflexivity|].
  rewrite Hf, IH. simpl. now destruct (g x).
Qed.

Lemma map_outcome_pure {A B C} (f : B -> outcome C) (g : A -> C) (h : A -> B)
      (xs : list A) :
  (forall x, f (h x) = Ret (g x)) ->
  map_outcome f (map h xs) = Ret (map g xs).
Proof.
  intros Hf. induction xs as [|x xs IH]; simpl; [reflexivity|].
  now rewrite Hf, IH.
Qed.

End OutcomeLists.

Section ToolsProperties.
Import PyStr PyVal InvoiceFieldExtractor InvoiceTools.

Variable PyPDF2_present : bool.
Variable read_pages : string -> outcome (list string).
Variable glob_pdf : string -> option (list string).
Variable path_exists : string -> bool.
Variable save_json : string -> gmap string pyval -> outcome unit.
Variable invoice_directory : string.

Abbreviation record_for := (record_for PyPDF2_present read_pages).
Abbreviation log_for := (log_for PyPDF2_present read_pages).
Abbreviation process_invoices_in_directory :=
  (process_invoices_in_directory PyPDF2_present read_pages glob_pdf).
Abbreviation files := (files_in glob_pdf invoice_directory).
Abbreviation records := (records_in PyPDF2_present read_pages glob_pdf invoice_directory).
Abbreviation directory_log :=
  (directory_log PyPDF2_present read_pages glob_pdf invoice_directory).
Abbreviation process_single_invoice :=
  (process_single_invoice PyPDF2_present read_pages path_exists invoice_directory).
Abbreviation process_all_invoices :=
  (process_all_invoices PyPDF2_present read_pages glob_pdf invoice_directory).
Abbreviation list_invoices := (list_invoices glob_pdf invoice_directory).
Abbreviation get_invoice_summary :=
  (get_invoice_summary PyPDF2_present read_pages glob_pdf invoice_directory).
Abbreviation search_invoices :=
  (search_invoices PyPDF2_present read_pages glob_pdf invoice_directory).
Abbreviation get_invoice_details :=
  (get_invoice_details PyPDF2_present read_pages path_exists invoice_directory).
Abbreviation export_invoices_as_json :=
  (export_invoices_as_json PyPDF2_present read_pages glob_pdf save_json invoice_directory).
Abbreviation target_of := (target invoice_directory).

Lemma tools_process (c : gmap string (gmap string pyval)) (lg : log) :
  with_log (process_invoices_in_directory invoice_directory) (c, lg)
  = (Ret (report records), (c, lg ++ directory_log)).
Proof.
  unfold with_log. now rewrite process_invoices_in_directory_total.
Qed.

Lemma search_hit_dict (q : string) (r : ExtractedInvoice) :
  search_hit q (dict_of r) = Ret (tool_hit q r).
Proof.
  unfold search_hit, tool_hit, dict_of, getitem.
  rewrite (eq_refl : to_dict r !! "invoice_number" = Some (VStr (invoice_number r))).
  rewrite (eq_refl : to_dict r !! "invoice_date" = Some (VStr (invoice_date r))).
  rewrite (eq_refl : to_dict r !! "file_name" = Some (VStr (file_name r))).
  simpl.
  destruct (contains q (lower (invoice_number r))); [reflexivity|].
  destruct (contains q (invoice_date r)); reflexivity.
Qed.

Lemma search_invoices_total (query : string) (c : gmap string (gmap string pyval)) (lg : log) :
  search_invoices query (c, lg)
  = (Ret (found query (List.filter (tool_hit (lower query)) records)),
     (c, lg ++ directory_log)).
Proof.
  unfold InvoiceTools.search_invoices, try_except, bind.
  rewrite tools_process. rewrite report_no_error.
  change (bool_decide (is_Some (@None pyval))) with false. cbv iota.
  rewrite report_invoices. cbn [iter_of obind].
  rewrite (filter_outcome_pure _ (tool_hit (lower query)) dict_of) by apply search_hit_dict.
  cbn [obind call]. rewrite length_map. reflexivity.
Qed.

Lemma contains_empty (s : string) : contains EmptyString s = true.
Proof. destruct s; reflexivity. Qed.

Lemma filter_all {A} (P : A -> bool) (l : list A) :
  (forall x, P x = true) -> List.filter P l = l.
Proof.
  intros HP. induction l as [|x l IH]; simpl; [reflexivity|]. now rewrite HP, IH.
Qed.



Lemma summary_entry_dict (r : ExtractedInvoice) : summary_entry (dict_of r) = Ret (entry_of r).
Proof. reflexivity. Qed.

Lemma get_invoice_summary_total (c : gmap string (gmap string pyval)) (lg : log) :
  get_invoice_summary (c, lg) = (Ret (digest records), (c, lg ++ directory_log)).
Proof.
  unfold InvoiceTools.get_invoice_summary, try_except, bind.
  rewrite tools_process. rewrite report_no_error.
  change (bool_decide (is_Some (@None pyval))) with false. cbv iota.
  rewrite report_invoices.
  destruct records as [|r rs] eqn:Hr; [reflexivity|].
  cbn [truth map negb]. cbv iota.
  cbn [len_of iter_of obind call].
  change (getitem (VDict (report (r :: rs))) "summary")
    with (Ret (A:=pyval) (VDict (summary_of (r :: rs)))).
  cbn [obind].
  change (getitem (VDict (summary_of (r :: rs))) "total_amount")
    with (Ret (A:=pyval) (VNum (Float64.sum (map total_amount (r :: rs))))).
  change (getitem (VDict (summary_of (r :: rs))) "total_tax")
    with (Ret (A:=pyval) (VNum (Float64.sum (map tax_amount (r :: rs))))).
  change (getitem (VDict (summary_of (r :: rs))) "average_confidence")
    with (Ret (A:=pyval)
              (VNum (Float64.div (Float64.sum (map confidence_score (r :: rs)))
                                 (Float64.of_nat (length (r :: rs)))))).
  cbn [obind].
  rewrite <- (map_cons dict_of r rs).
  rewrite (map_outcome_pure summary_entry entry_of dict_of) by apply summary_entry_dict.
  cbn [obind]. rewrite length_map. reflexivity.
Qed.

Lemma process_all_invoices_total (c : gmap string (gmap string pyval)) (lg : log) :
  process_all_invoices (c, lg) = (Ret (report records), (c, lg ++ directory_log)).
Proof.
  unfold InvoiceTools.process_all_invoices, try_except. now rewrite tools_process.
Qed.

Lemma process_single_invoice_missing
      (file_name : string) (c : gmap string (gmap string pyval)) (lg : log) :
  path_exists (target_of file_name) = false ->
  process_single_invoice file_name (c, lg)
  = (Ret (error_dict ("Invoice file not found: " +:+ file_name)), (c, lg)).
Proof.
  intros H. unfold InvoiceTools.process_single_invoice.
  change (PurePath.str (PurePath.child (PurePath.parse invoice_directory) file_name))
    with (target_of file_name).
  rewrite H. reflexivity.
Qed.

Lemma process_single_invoice_present
      (file_name : string) (c : gmap string (gmap string pyval)) (lg : log) :
  path_exists (target_of file_name) = true ->
  process_single_invoice file_name (c, lg)
  = (Ret (to_dict (record_for (target_of file_name))),
     (<[file_name := to_dict (record_for (target_of file_name))]> c,
      lg ++ log_for (target_of file_name))).
Proof.
  intros H. unfold InvoiceTools.process_single_invoice.
  change (PurePath.str (PurePath.child (PurePath.parse invoice_directory) file_name))
    with (target_of file_name).
  rewrite H. cbn [negb]. unfold try_except, bind, with_log.
  rewrite extract_invoice_fields_total. reflexivity.
Qed.

Lemma error_dict_error (msg : string) : error_dict msg !! "error" = Some (VStr msg).
Proof. reflexivity. Qed.

Lemma to_dict_no_error (r : ExtractedInvoice) : to_dict r !! "error" = None.
Proof. reflexivity. Qed.


(** X13. Once a file has been processed, [get_invoice_details] answers
    from the cache: it returns the same dictionary and changes nothing,
    whatever has become of the file, of the directory and of PyPDF2 in
    the meantime. *)
Theorem details_served_from_cache
        (file_name : string) (s s' : state) (result : gmap string pyval) :
  path_exists (target_of file_name) = true ->
  process_single_invoice file_name s = (Ret result, s') ->
  forall (PyPDF2_present' : bool) (read_pages' : string -> outcome (list string))
         (path_exists' : string -> bool) (invoice_directory' : string),
    InvoiceTools.get_invoice_details PyPDF2_present' read_pages' path_exists'
                                     invoice_directory' file_name s'
    = (Ret result, s').
Proof.
  intros H Hp. destruct s as [c lg].
  rewrite (process_single_invoice_present _ _ _ H) in Hp.
  injection Hp as <- <-. intros.
  unfold InvoiceTools.get_invoice_details, bind, cache.
  rewrite lookup_insert_eq. reflexivity.
Qed.

Lemma list_invoices_total (s : state) :
  list_invoices s
  = (Ret match glob_pdf invoice_directory with
         | None => error_dict ("Invoice directory not found: " +:+ invoice_directory)
         | Some invoices =>
             list_to_map
               [ ("directory", VStr invoice_directory);
                 ("count", VInt (Z.of_nat (length invoices)));
                 ("files", VList (map (fun f => VStr (path_name f)) invoices)) ]
         end, s).
Proof.
  unfold InvoiceTools.list_invoices, try_except.
  destruct (glob_pdf invoice_directory); reflexivity.
Qed.

(** X14. When the directory exists, the names [list_invoices] lists are
    the [file_name] fields of the records [process_all_invoices] reports,
    in the same order, and [count] is [total_processed]. *)
Theorem listed_names_are_processed_names (s : state) :
  is_Some (glob_pdf invoice_directory) ->
  exists listing,
    list_invoices s = (Ret listing, s) /\
    listing !! "files" = Some (VList (map (fun r => VStr (file_name r)) records)) /\
    listing !! "count" = report records !! "total_processed" /\
    listing !! "error" = None.
Proof.
  intros [fs Hg]. rewrite list_invoices_total.
  unfold records_in, files_in. rewrite Hg. eexists. split; [reflexivity|].
  split; [|split].
  - change (default [] (Some fs)) with fs. rewrite map_map.
    transitivity (Some (VList (map (fun f => VStr (path_name f)) fs))); [reflexivity|].
    do 2 f_equal. apply map_ext. intros f. now rewrite record_for_file_name.
  - change (default [] (Some fs)) with fs.
    transitivity (Some (VInt (Z.of_nat (length fs)))); [reflexivity|].
    rewrite <- (length_map record_for fs). reflexivity.
  - reflexivity.
Qed.


Lemma export_invoices_as_json_total
      (output_file : option string) (c : gmap string (gmap string pyval)) (lg : log) :
  export_invoices_as_json output_file (c, lg)
  = if PatternExtractor.truthy output_file then
      let saved_to := PurePath.str (PurePath.parse (default EmptyString output_file)) in
      match save_json saved_to (report records) with
      | Ret _ =>
          (Ret (list_to_map [("status", VStr "success"); ("saved_to", VStr saved_to)]),
           (c, lg ++ directory_log))
      | Raise e =>
          (Ret (error_dict (str_exn e)),
           (c, (lg ++ directory_log)
               ++ [{| lr_level := ERROR;
                      lr_message := "Error exporting invoices: " +:+ str_exn e |}]))
      end
    else
      (Ret (list_to_map [("status", VStr "success"); ("data", VDict (report records))]),
       (c, lg ++ directory_log)).
Proof.
  unfold InvoiceTools.export_invoices_as_json, try_except, bind at 1.
  rewrite tools_process. rewrite report_no_error.
  change (bool_decide (is_Some (@None pyval))) with false. cbv iota.
  destruct (PatternExtractor.truthy output_file); [|reflexivity].
  unfold bind, call.
  destruct (save_json _ _) as [[]|e]; reflexivity.
Qed.


(** X17. For a plain file name (no directory part) of a file that
    exists, the [file_name] entry [process_single_invoice] returns is
    that very name. *)
Theorem single_invoice_keeps_plain_name
        (name : string) (c : gmap string (gmap string pyval)) (lg : log) :
  plain_name name ->
  path_exists (target_of name) = true ->
  exists result s',
    process_single_invoice name (c, lg) = (Ret result, s') /\
    result !! "file_name" = Some (VStr name).
Proof.
  intros Hp He. eexists _, _. split; [now apply process_single_invoice_present|].
  transitivity (Some (VStr (file_name (record_for (target_of name))))); [reflexivity|].
  rewrite record_for_file_name. rewrite target_name.
  - now rewrite plain_path_name.
  - rewrite plain_path_name by exact Hp. apply Hp.
Qed.

(** X18. An absolute file name leaves the invoice directory: the path
    [process_single_invoice] opens is that name itself, so the call does
    the same whatever the directory of the object is. *)
Theorem absolute_name_ignores_directory
        (rest other_directory : string) (s : state) :
  process_single_invoice (String "/" rest) s
  = InvoiceTools.process_single_invoice PyPDF2_present read_pages path_exists
                                        other_directory (String "/" rest) s.
Proof.
  unfold InvoiceTools.process_single_invoice.
  change (PurePath.str (PurePath.child (PurePath.parse invoice_directory) (String "/" rest)))
    with (target_of (String "/" rest)).
  change (PurePath.str (PurePath.child (PurePath.parse other_directory) (String "/" rest)))
    with (target other_directory (String "/" rest)).
  now rewrite !absolute_target.
Qed.

Abbreviation perform :=
  (perform PyPDF2_present read_pages glob_pdf path_exists save_json invoice_directory).
Abbreviation serve :=
  (serve PyPDF2_present read_pages glob_pdf path_exists save_json invoice_directory).
Abbreviation cache_sound :=
  (cache_sound PyPDF2_present read_pages path_exists invoice_directory).

Lemma cache_sound_empty : cache_sound ∅.
Proof. intros k v H. rewrite lookup_empty in H. discriminate. Qed.

Lemma cache_sound_insert (c : gmap string (gmap string pyval)) (file_name : string) :
  cache_sound c ->
  path_exists (target_of file_name) = true ->
  cache_sound (<[file_name := to_dict (record_for (target_of file_name))]> c).
Proof.
  intros Hc He k v H. destruct (decide (file_name = k)) as [<-|Hne].
  - rewrite lookup_insert_eq in H. injection H as <-. now split.
  - rewrite lookup_insert_ne in H by exact Hne. now apply Hc.
Qed.

Lemma process_single_invoice_sound
      (file_name : string) (c : gmap string (gmap string pyval)) (lg : log) :
  cache_sound c ->
  exists answer c' lg',
    process_single_invoice file_name (c, lg) = (Ret answer, (c', lg')) /\ cache_sound c'.
Proof.
  intros Hc. destruct (path_exists (target_of file_name)) eqn:He.
  - eexists _, _, _. split; [now apply process_single_invoice_present|].
    now apply cache_sound_insert.
  - eexists _, _, _. split; [now apply process_single_invoice_missing|]. exact Hc.
Qed.

Lemma get_invoice_details_cases
      (file_name : string) (c : gmap string (gmap string pyval)) (lg : log) :
  get_invoice_details file_name (c, lg)
  = match c !! file_name with
    | Some result => (Ret result, (c, lg))
    | None => process_single_invoice file_name (c, lg)
    end.
Proof.
  unfold InvoiceTools.get_invoice_details, bind, cache.
  destruct (c !! file_name); reflexivity.
Qed.

Lemma perform_sound (r : request) (c : gmap string (gmap string pyval)) (lg : log) :
  cache_sound c ->
  exists answer c' lg', perform r (c, lg) = (Ret answer, (c', lg')) /\ cache_sound c'.
Proof.
  intros Hc. destruct r as [f| | | |q|f|o]; unfold perform.
  - now apply process_single_invoice_sound.
  - rewrite process_all_invoices_total. eauto 6.
  - rewrite list_invoices_total. eauto 6.
  - rewrite get_invoice_summary_total. eauto 6.
  - rewrite search_invoices_total. eauto 6.
  - rewrite get_invoice_details_cases. destruct (c !! f); [eauto 6|].
    now apply process_single_invoice_sound.
  - rewrite export_invoices_as_json_total.
    destruct (PatternExtractor.truthy o); [|eauto 6].
    cbv zeta. destruct (save_json _ _); eauto 6.
Qed.

Lemma serve_sound (rs : list request) :
  forall c lg,
    cache_sound c ->
    exists answers c' lg',
      serve rs (c, lg) = (Ret answers, (c', lg')) /\
      length answers = length rs /\ cache_sound c'.
Proof.
  induction rs as [|r rs IH]; intros c lg Hc.
  - exists [], c, lg. split; [reflexivity|split; [reflexivity|exact Hc]].
  - destruct (perform_sound r c lg Hc) as (a & c1 & lg1 & Hp & Hc1).
    destruct (IH c1 lg1 Hc1) as (answers & c2 & lg2 & Hs & Hl & Hc2).
    exists (a :: answers), c2, lg2. split; [|split; [simpl; now rewrite Hl|exact Hc2]].
    change (serve (r :: rs))
      with (bind (perform r) (fun answer =>
            bind (serve rs) (fun answers => ret (answer :: answers)))).
    unfold bind at 1. rewrite Hp. unfold bind at 1. rewrite Hs.
    reflexivity.
Qed.



End ToolsProperties.

(* ===================================================================== *)
(** ** The API endpoints *)
(* ===================================================================== *)

Section EndpointProperties.
Import PyStr PyVal InvoiceFieldExtractor InvoiceAPI.

Variable PyPDF2_present : bool.
Variable read_pages : string -> outcome (list string).
Variable glob_pdf : string -> option (list string).
Variable path_exists : string -> bool.
Variable str_http : nat -> pyval -> string.
Variable csv_text : list string -> list (list pyval) -> string.

Abbreviation record_for := (record_for PyPDF2_present read_pages).
Abbreviation log_for := (log_for PyPDF2_present read_pages).
Abbreviation files := (files_in glob_pdf INVOICE_DIR).
Abbreviation records := (records_in PyPDF2_present read_pages glob_pdf INVOICE_DIR).
Abbreviation directory_log :=
  (directory_log PyPDF2_present read_pages glob_pdf INVOICE_DIR).
Abbreviation process := (process PyPDF2_present read_pages glob_pdf).
Abbreviation get_all_invoices := (get_all_invoices PyPDF2_present read_pages glob_pdf str_http).
Abbreviation get_invoice_summary :=
  (get_invoice_summary PyPDF2_present read_pages glob_pdf str_http).
Abbreviation search_invoices :=
  (search_invoices PyPDF2_present read_pages glob_pdf str_http).
Abbreviation get_invoice_details :=
  (get_invoice_details PyPDF2_present read_pages path_exists str_http).
Abbreviation export_invoices :=
  (export_invoices PyPDF2_present read_pages glob_pdf str_http csv_text).

(** The log record and the exception of an [except Exception] handler
    that caught [HTTPException(status_code, detail)]. *)
Abbreviation logged what status_code detail :=
  {| lr_level := ERROR;
     lr_message := what +:+ ": " +:+ str_http status_code (VStr detail) |}.
Abbreviation reported status_code detail :=
  (HTTPException 500 (VStr (str_http status_code (VStr detail)))).

Lemma process_total (lg : log) :
  process lg = (Respond (report records), lg ++ directory_log).
Proof.
  unfold InvoiceAPI.process, lift. now rewrite process_invoices_in_directory_total.
Qed.

Lemma api_search_hit_dict (q : string) (r : ExtractedInvoice) :
  search_hit q (dict_of r) = Ret (api_hit q r).
Proof.
  unfold search_hit, api_hit, field_has, dict_of, get_of, get.
  rewrite (eq_refl : to_dict r !! "invoice_number" = Some (VStr (invoice_number r))).
  rewrite (eq_refl : to_dict r !! "invoice_date" = Some (VStr (invoice_date r))).
  rewrite (eq_refl : to_dict r !! "file_name" = Some (VStr (file_name r))).
  rewrite (eq_refl : to_dict r !! "vendor_name" = Some (VStr (vendor_name r))).
  simpl.
  destruct (contains q (lower (invoice_number r))); [reflexivity|].
  destruct (contains q (invoice_date r)); [reflexivity|].
  destruct (contains q (lower (file_name r))); reflexivity.
Qed.

Lemma csv_row_dict (r : ExtractedInvoice) : csv_row (dict_of r) = Ret (row_of r).
Proof. reflexivity. Qed.

Lemma search_endpoint_total (query : string) (lg : log) :
  query <> EmptyString ->
  search_invoices query lg
  = (Respond (found query (List.filter (api_hit (lower query)) records)),
     lg ++ directory_log).
Proof.
  intros Hq. unfold InvoiceAPI.search_invoices, InvoiceAPI.try_except.
  destruct query as [|ch query]; [now contradict Hq|]. cbn [nonempty negb].
  unfold hbind. rewrite process_total. rewrite report_invoices.
  unfold pure, lift, call. cbn [iter_of obind].
  rewrite (filter_outcome_pure _ (api_hit (lower (String ch query))) dict_of)
    by apply api_search_hit_dict.
  cbn [obind]. rewrite length_map. reflexivity.
Qed.

(** X21. The search endpoint fails for the empty query only, and then
    with status 500, not 400: the [HTTPException] with status 400 is
    raised inside the [try] and caught by its [except Exception], which
    logs it and raises the one with status 500. *)
Theorem search_endpoint_fails_only_with_500 (query : string) (lg : log) :
  search_invoices EmptyString lg
  = (Failure (reported 400 "Query parameter required"),
     lg ++ [logged "Error searching invoices" 400 "Query parameter required"]) /\
  forall e lg',
    search_invoices query lg = (Failure e, lg') ->
    query = EmptyString /\ e = reported 400 "Query parameter required".
Proof.
  split; [reflexivity|]. intros e lg' H. destruct query as [|ch query].
  - change (search_invoices EmptyString lg)
      with (@Failure (gmap string pyval) (reported 400 "Query parameter required"),
            lg ++ [logged "Error searching invoices" 400 "Query parameter required"]) in H.
    injection H as <- _. split; reflexivity.
  - rewrite search_endpoint_total in H by discriminate. discriminate.
Qed.

Lemma tool_hit_api_hit (q : string) (r : ExtractedInvoice) :
  tool_hit q r = true -> api_hit q r = true.
Proof. unfold tool_hit, api_hit. intros ->. reflexivity. Qed.

(** X22. For a query that is not empty the search endpoint never fails:
    it answers with the dictionaries of the records whose invoice number,
    file name or vendor name (in lower case) or invoice date contains the
    query in lower case.  Every hit of [search_invoices] of
    [InvoiceTools] is among them. *)
Theorem search_endpoint_answers_with_hits (query : string) (lg : log) :
  query <> EmptyString ->
  let hits := List.filter (api_hit (lower query)) records in
  search_invoices query lg = (Respond (found query hits), lg ++ directory_log) /\
  forall r, In r (List.filter (tool_hit (lower query)) records) -> In r hits.
Proof.
  intros Hq. split; [now apply search_endpoint_total|].
  intros r Hr. apply filter_In in Hr as [Hin Hh]. apply filter_In.
  split; [exact Hin|now apply tool_hit_api_hit].
Qed.


(** X24. The export endpoint answers an unsupported format with status
    500, not 400, and only after it has processed the whole directory. *)
Theorem export_endpoint_unsupported_format_is_500 (output_format : string) (lg : log) :
  lower output_format <> "json" ->
  lower output_format <> "csv" ->
  export_invoices output_format lg
  = (Failure (reported 400 "Unsupported format"),
     (lg ++ directory_log) ++ [logged "Error exporting invoices" 400 "Unsupported format"]).
Proof.
  intros Hj Hc. unfold InvoiceAPI.export_invoices, InvoiceAPI.try_except, hbind.
  rewrite process_total.
  apply String.eqb_neq in Hj, Hc. rewrite Hj, Hc. reflexivity.
Qed.

Lemma get_all_invoices_total (lg : log) :
  get_all_invoices lg = (Respond (report records), lg ++ directory_log).
Proof.
  unfold InvoiceAPI.get_all_invoices, InvoiceAPI.try_except. now rewrite process_total.
Qed.

(** X25. In the format "json", in any case of the letters, the export
    endpoint answers as [get_all_invoices] does: with the report, which
    is the one [process_all_invoices] of [InvoiceTools] returns for the
    directory "invoices". *)
Theorem export_endpoint_json_is_all_invoices
        (output_format : string) (lg : log)
        (save_json : string -> gmap string pyval -> outcome unit)
        (c : gmap string (gmap string pyval)) :
  lower output_format = "json" ->
  export_invoices output_format lg = get_all_invoices lg /\
  exists result lg',
    get_all_invoices lg = (Respond result, lg') /\
    InvoiceTools.process_all_invoices PyPDF2_present read_pages glob_pdf INVOICE_DIR (c, lg)
    = (Ret result, (c, lg')).
Proof.
  intros Hj. rewrite get_all_invoices_total. split.
  - unfold InvoiceAPI.export_invoices, InvoiceAPI.try_except, hbind.
    rewrite process_total. rewrite Hj. reflexivity.
  - eexists _, _. split; [reflexivity|]. apply process_all_invoices_total.
Qed.

(** X26. In the format "csv" the export endpoint never fails.  With no
    document it answers (with status 200) the dictionary with the entry
    [error]; otherwise [count] is the number of files of the listing and
    [data] is the CSV text of one row of ten cells for each record, in
    order. *)
Theorem export_endpoint_csv (output_format : string) (lg : log) :
  lower output_format = "csv" ->
  exists answer,
    export_invoices output_format lg = (Respond answer, lg ++ directory_log) /\
    (files = [] -> answer = list_to_map [("error", VStr "No invoices to export")]) /\
    (files <> [] ->
     answer !! "count" = Some (VInt (Z.of_nat (length files))) /\
     answer !! "data" = Some (VStr (csv_text csv_fieldnames (map row_of records))) /\
     Forall (fun row => length row = length csv_fieldnames) (map row_of records) /\
     answer !! "error" = None).
Proof.
  intros Hc. unfold InvoiceAPI.export_invoices, InvoiceAPI.try_except, hbind.
  rewrite process_total. rewrite Hc. cbn [String.eqb Ascii.eqb Bool.eqb].
  rewrite report_invoices.
  pose proof (records_in_length PyPDF2_present read_pages glob_pdf INVOICE_DIR) as Hl.
  destruct records as [|r rs] eqn:Hr.
  - destruct files as [|f fs]; [|discriminate].
    eexists. split; [reflexivity|]. split; [reflexivity|]. intros H. now contradict H.
  - destruct files as [|f fs]; [discriminate|].
    cbn [truth map negb]. cbv iota. unfold pure, lift, call. cbn [iter_of len_of obind].
    rewrite <- (map_cons dict_of r rs).
    rewrite (map_outcome_pure csv_row row_of dict_of) by apply csv_row_dict.
    cbn [obind]. eexists. split; [reflexivity|]. split; [discriminate|].
    intros _. split; [|split; [|split]].
    + rewrite length_map, Hl. reflexivity.
    + reflexivity.
    + apply List.Forall_forall. intros row Hrow.
      change (In row (map row_of (r :: rs))) in Hrow.
      apply in_map_iff in Hrow as (x & <- & _).
      reflexivity.
    + reflexivity.
Qed.

(** X27. The summary endpoint never fails: it answers with the sums and
    the average of the report.  Its status 400 cannot occur, the report
    having no [error] entry. *)
Theorem summary_endpoint_always_responds (lg : log) :
  get_invoice_summary lg = (Respond (VDict (summary_of records)), lg ++ directory_log).
Proof.
  unfold InvoiceAPI.get_invoice_summary, InvoiceAPI.try_except, hbind.
  rewrite process_total. reflexivity.
Qed.

(** X28. The listing endpoint never fails, and when the directory
    exists it answers as [list_invoices] of [InvoiceTools] does for the
    directory "invoices". *)
Theorem list_endpoint_agrees_with_tool (lg : log) (c : gmap string (gmap string pyval)) :
  is_Some (glob_pdf INVOICE_DIR) ->
  exists listing,
    InvoiceAPI.list_available_invoices glob_pdf str_http lg = (Respond listing, lg) /\
    InvoiceTools.list_invoices glob_pdf INVOICE_DIR (c, lg) = (Ret listing, (c, lg)) /\
    listing !! "count" = Some (VInt (Z.of_nat (length files))).
Proof.
  intros [fs Hg]. rewrite list_invoices_total.
  unfold InvoiceAPI.list_available_invoices, InvoiceAPI.try_except, files_in.
  rewrite Hg. eexists. split; [reflexivity|]. split; reflexivity.
Qed.

End EndpointProperties.

(* ===================================================================== *)
(** ** Instances of the further properties *)
(* ===================================================================== *)

Section MoreInstances.
Import PyStr PyVal Re PatternExtractor InvoiceFieldExtractor.

Lemma extract_field_value_solid_witness :
  extract_field "Invoice: AB-1234" "invoice_number" = Ret (Some "AB-1234", confidence_of 1) /\
  "AB-1234" <> EmptyString /\ all_chars not_space "AB-1234" = true /\
  exists p m, In p (patterns_of "invoice_number") /\
              search p "Invoice: AB-1234" = Some m /\ group1 m = Some "AB-1234".
Proof.
  assert (H : extract_field "Invoice: AB-1234" "invoice_number"
              = Ret (Some "AB-1234", confidence_of 1)) by (vm_compute; reflexivity).
  split; [exact H|].
  exact (extract_field_value_solid "Invoice: AB-1234" "invoice_number" "AB-1234"
                                   (confidence_of 1) H).
Defined.

Lemma found_total_has_confidence_one_witness :
  extract_field "Grand Total: $5.00" "total_amount" = Ret (Some "5.00", Float64.f1_0) /\
  Float64.f1_0 = Float64.f1_0 /\
  is_Some (search (amount_after (lit "Total")) "Grand Total: $5.00").
Proof.
  assert (H : extract_field "Grand Total: $5.00" "total_amount"
              = Ret (Some "5.00", Float64.f1_0)) by (vm_compute; reflexivity).
  split; [exact H|].
  exact (found_total_has_confidence_one "Grand Total: $5.00" "5.00" Float64.f1_0 H).
Defined.

(** A document whose text is empty: no rule matches and no line
    qualifies. *)
Lemma nothing_found_gives_default_record_witness :
  decode true (fun _ => Ret [EmptyString]) "invoices/blank.pdf" = Ret EmptyString /\
  extract_invoice_fields true (fun _ => Ret [EmptyString]) "invoices/blank.pdf" []
  = (Ret (set_raw_text EmptyString (new_invoice (path_name "invoices/blank.pdf"))),
     [] ++ [info_extracted "invoices/blank.pdf"]).
Proof.
  split; [reflexivity|].
  refine (nothing_found_gives_default_record true (fun _ => Ret [EmptyString])
            "invoices/blank.pdf" EmptyString [] eq_refl _ eq_refl).
  intros ft Hft [p [Hp Hs]].
  repeat (destruct Hft as [<-|Hft];
          [vm_compute in Hp;
           repeat (destruct Hp as [<-|Hp]; [now apply Hs|]); exact Hp|]).
  exact Hft.
Defined.

Lemma without_PyPDF2_batch_of_defaults_witness :
  extract_multiple_invoices false second_unreadable two_files "invoices" []
  = (Ret (map (fun f => new_invoice (path_name f)) ["invoices/a.pdf"; "invoices/bad.pdf"]),
     [] ++ map (fun f => error_extracting f import_error)
               ["invoices/a.pdf"; "invoices/bad.pdf"]).
Proof.
  exact (without_PyPDF2_batch_of_defaults false second_unreadable two_files "invoices"
           ["invoices/a.pdf"; "invoices/bad.pdf"] [] eq_refl eq_refl).
Defined.

Lemma no_files_gives_empty_report_witness :
  files_in (fun _ => None) "invoices" = [] /\
  process_invoices_in_directory true second_unreadable (fun _ => None) "invoices" []
  = (Ret empty_report,
     [] ++ directory_log true second_unreadable (fun _ => None) "invoices").
Proof.
  split; [reflexivity|].
  exact (no_files_gives_empty_report true second_unreadable (fun _ => None) "invoices" []
           eq_refl).
Defined.

Lemma to_dict_injective_witness :
  set_raw_text EmptyString (new_invoice "a.pdf") = new_invoice "a.pdf".
Proof.
  exact (to_dict_injective (set_raw_text EmptyString (new_invoice "a.pdf"))
                           (new_invoice "a.pdf") eq_refl).
Defined.

(** A file is processed, then deleted along with PyPDF2: the details are
    still those of the cache. *)
Lemma details_served_from_cache_witness :
  exists result s',
    InvoiceTools.process_single_invoice true second_unreadable (fun _ => true)
                                        "invoices" "a.pdf" (∅, [])
    = (Ret result, s') /\
    result !! "total_amount" = Some (VNum (Float64.of_decimal 500 2)) /\
    InvoiceTools.get_invoice_details false (fun _ => Ret []) (fun _ => false)
                                     "elsewhere" "a.pdf" s'
    = (Ret result, s').
Proof.
  pose proof (process_single_invoice_present true second_unreadable (fun _ => true)
                "invoices" "a.pdf" ∅ [] eq_refl) as H.
  eexists _, _. split; [exact H|]. split; [vm_compute; reflexivity|].
  exact (details_served_from_cache true second_unreadable (fun _ => true) "invoices"
           "a.pdf" (∅, []) _ _ eq_refl H false (fun _ => Ret []) (fun _ => false)
           "elsewhere").
Defined.

Lemma listed_names_are_processed_names_witness :
  exists listing,
    InvoiceTools.list_invoices two_files "invoices" (∅, []) = (Ret listing, (∅, [])) /\
    listing !! "files"
    = Some (VList (map (fun r => VStr (file_name r))
                       (records_in true second_unreadable two_files "invoices"))) /\
    listing !! "count"
    = report (records_in true second_unreadable two_files "invoices") !! "total_processed" /\
    listing !! "error" = None.
Proof.
  exact (listed_names_are_processed_names true second_unreadable two_files "invoices"
           (∅, []) (ex_intro _ _ eq_refl)).
Defined.

Lemma single_invoice_keeps_plain_name_witness :
  plain_name "a.pdf" /\
  exists result s',
    InvoiceTools.process_single_invoice true second_unreadable (fun _ => true)
                                        "invoices" "a.pdf" (∅, [])
    = (Ret result, s') /\
    result !! "file_name" = Some (VStr "a.pdf").
Proof.
  assert (H : plain_name "a.pdf")
    by (split; [discriminate|split; [discriminate|reflexivity]]).
  split; [exact H|].
  exact (single_invoice_keeps_plain_name true second_unreadable (fun _ => true)
           "invoices" "a.pdf" ∅ [] H eq_refl).
Defined.

Lemma search_endpoint_answers_with_hits_witness :
  let hits := List.filter (api_hit (lower "BAD"))
                          (records_in true second_unreadable two_files InvoiceAPI.INVOICE_DIR) in
  InvoiceAPI.search_invoices true second_unreadable two_files (fun _ _ => EmptyString) "BAD" []
  = (InvoiceAPI.Respond (found "BAD" hits),
     [] ++ directory_log true second_unreadable two_files InvoiceAPI.INVOICE_DIR) /\
  forall r,
    In r (List.filter (tool_hit (lower "BAD"))
                      (records_in true second_unreadable two_files InvoiceAPI.INVOICE_DIR)) ->
    In r hits.
Proof.
  refine (search_endpoint_answers_with_hits true second_unreadable two_files
            (fun _ _ => EmptyString) "BAD" [] _).
  discriminate.
Defined.

Lemma export_endpoint_unsupported_format_is_500_witness :
  InvoiceAPI.export_invoices true second_unreadable two_files (fun _ _ => "400")
                             (fun _ _ => EmptyString) "xml" []
  = (InvoiceAPI.Failure (InvoiceAPI.HTTPException 500 (VStr "400")),
     ([] ++ directory_log true second_unreadable two_files InvoiceAPI.INVOICE_DIR)
     ++ [{| lr_level := ERROR; lr_message := "Error exporting invoices" +:+ ": " +:+ "400" |}]).
Proof.
  refine (export_endpoint_unsupported_format_is_500 true second_unreadable two_files
            (fun _ _ => "400") (fun _ _ => EmptyString) "xml" [] _ _);
    vm_compute; discriminate.
Defined.

Lemma export_endpoint_json_is_all_invoices_witness :
  InvoiceAPI.export_invoices true second_unreadable two_files (fun _ _ => EmptyString)
                             (fun _ _ => EmptyString) "JSON" []
  = InvoiceAPI.get_all_invoices true second_unreadable two_files (fun _ _ => EmptyString) [] /\
  exists result lg',
    InvoiceAPI.get_all_invoices true second_unreadable two_files (fun _ _ => EmptyString) []
    = (InvoiceAPI.Respond result, lg') /\
    InvoiceTools.process_all_invoices true second_unreadable two_files InvoiceAPI.INVOICE_DIR
                                      (∅, [])
    = (Ret result, (∅, lg')).
Proof.
  exact (export_endpoint_json_is_all_invoices true second_unreadable two_files
           (fun _ _ => EmptyString) (fun _ _ => EmptyString) "JSON" []
           (fun _ _ => Ret tt) ∅ eq_refl).
Defined.

Lemma export_endpoint_csv_witness :
  exists answer,
    InvoiceAPI.export_invoices true second_unreadable two_files (fun _ _ => EmptyString)
                               (fun _ rows => String.concat ";" (map (fun _ => "row") rows))
                               "Csv" []
    = (InvoiceAPI.Respond answer,
       [] ++ directory_log true second_unreadable two_files InvoiceAPI.INVOICE_DIR) /\
    answer !! "count" = Some (VInt 2) /\
    answer !! "data" = Some (VStr "row;row").
Proof.
  destruct (export_endpoint_csv true second_unreadable two_files (fun _ _ => EmptyString)
              (fun _ rows => String.concat ";" (map (fun _ => "row") rows)) "Csv" [] eq_refl)
    as (answer & Hrun & _ & Hfiles).
  exists answer. split; [exact Hrun|].
  destruct Hfiles as (Hcount & Hdata & _); [discriminate|]. split; [exact Hcount|exact Hdata].
Defined.

Lemma list_endpoint_agrees_with_tool_witness :
  exists listing,
    InvoiceAPI.list_available_invoices two_files (fun _ _ => EmptyString) []
    = (InvoiceAPI.Respond listing, []) /\
    InvoiceTools.list_invoices two_files InvoiceAPI.INVOICE_DIR (∅, []) = (Ret listing, (∅, [])) /\
    listing !! "count" = Some (VInt (Z.of_nat (length (files_in two_files InvoiceAPI.INVOICE_DIR)))).
Proof.
  exact (list_endpoint_agrees_with_tool two_files (fun _ _ => EmptyString) [] ∅
           (ex_intro _ _ eq_refl)).
Defined.

End MoreInstances.
